(** * Polymarket shadow tracker: position aggregation and allocation replay

    A shallow embedding of [aggregate_trades.py] (the fill aggregator, shared
    with [fetch_all_trades.py]) and of [analyze-v2.py] (window selection,
    scoring, weight blending and the capital replay), with the properties
    the specification states about them.

    Numbers.  The scripts compute with Python floats.  Two readings of
    their arithmetic are used.

    - Floats ([B64], [Aggregate64], [Analyze64]).  A float is the rational
      it stands for, and every operation is rounded to the nearest
      binary64 number as Python rounds it; [sum] adds from left to right.
      The status of a position, the scores, the tiers and the weights are
      stated on this reading: a rounding can move them across a threshold
      or into another reported figure.

    - Exact rationals ([Aggregate], [Analyze], [Report]).  A decimal
      literal is the decimal fraction it writes and no operation rounds.
      This is the setting of the properties of the loops themselves:
      which fills make a position, counts, orders, timestamps, titles, and
      bounds on capitals and averages.  A reported figure can differ from
      the one of the floats in its last digit.

    Epoch timestamps are integers ([Z]).  In the exact reading
    [math.sqrt] is a parameter of the scoring functions, in the float
    reading it is the correctly rounded square root.

    The status rule and the sums of [fetch_all_trades.py] are those of
    [aggregate_trades.py]; the two scripts differ in the fall-backs of a
    missing slug, title and timestamp and in the rendering of
    [firstTrade] and [lastTrade].  The embedding follows
    [aggregate_trades.py]. *)

From Stdlib Require Import ZArith QArith Qround Qabs Qminmax Qpower.
From Stdlib Require Import List String Ascii Bool Permutation Sorted.
From Stdlib Require Import Lia Lqa.
Import ListNotations.

Local Open Scope Q_scope.

(* ================================================================== *)
(** ** Python built-ins used by the scripts *)

Module Py.

(** [a < b] and [a <= b] on numbers, as booleans. *)
Definition ltb (a b : Q) : bool := negb (Qle_bool b a).
Definition leb (a b : Q) : bool := Qle_bool a b.

(** [sum(xs)]: a left fold that starts from [0], in exact arithmetic
    ([B64.sum] is the sum of floats). *)
Definition sum (xs : list Q) : Q := fold_left Qplus xs 0.

(** [min(a, b)] keeps its first argument unless the second is smaller;
    [max(a, b)] keeps its first argument unless the second is larger. *)
Definition min (a b : Q) : Q := if ltb b a then b else a.
Definition max (a b : Q) : Q := if ltb a b then b else a.

(** Rounding to the nearest integer, ties to the even neighbour. *)
Definition round_half_even (x : Q) : Z :=
  let f := Qfloor x in
  let r := x - inject_Z f in
  if ltb r (1 # 2) then f
  else if ltb (1 # 2) r then (f + 1)%Z
  else if Z.even f then f else (f + 1)%Z.

(** [round(x, n)] for [n] decimals: the multiple of [10^-n] nearest to
    [x], ties to even, as a reduced fraction. *)
Definition round (x : Q) (n : nat) : Q :=
  let scale := Pos.pow 10 (Pos.of_nat n) in
  match n with
  | O => inject_Z (round_half_even x)
  | S _ => Qred (round_half_even (x * inject_Z (Zpos scale)) # scale)
  end.

(** [abs(x)]. *)
Definition abs (x : Q) : Q := Qabs x.

(** A stable insertion sort: [before y x] says that [y] must come strictly
    before [x]; elements that are not ordered by [before] keep the order in
    which they stood.  [list.sort] is stable, also with [reverse=True]. *)
Section StableSort.
Context {A : Type} (before : A -> A -> bool).

Fixpoint insert (x : A) (ys : list A) : list A :=
  match ys with
  | [] => [x]
  | y :: ys' => if before y x then y :: insert x ys' else x :: y :: ys'
  end.

Definition sort (xs : list A) : list A := fold_right insert [] xs.
End StableSort.

End Py.

(* ================================================================== *)
(** ** Binary64 arithmetic

    A finite Python float is the rational number it stands for.  An
    operation on floats is the exact operation followed by the rounding
    [rnd] to the nearest binary64 number, ties to the even significand; a
    decimal literal [0.9] of the scripts is [rnd 0.9].  The results are
    reduced fractions, so two floats are equal exactly when they are the
    same term.  Numbers of magnitude [2^1024] and above, for which Python
    gives [inf], are outside the model, and so is the sign of a zero. *)

Module B64.

(** The exponent of the binade of a positive number: the [k] with
    [2^k <= x < 2^(k+1)]. *)
Definition flog2 (x : Q) : Z :=
  if Qle_bool 1 x then Z.log2 (Qfloor x)
  else (- Z.log2_up (Qceiling (/ x)))%Z.

(** The exponent of the unit in the last place: 53 significant bits, and
    [2^-1074] in the subnormal range. *)
Definition ulp_exp (x : Q) : Z := Z.max (-1074) (flog2 x - 52).

Definition rnd_pos (x : Q) : Q :=
  let e := ulp_exp x in
  inject_Z (Py.round_half_even (x / 2 ^ e)) * 2 ^ e.

(** Rounding to the nearest binary64 number. *)
Definition rnd (x : Q) : Q :=
  match x ?= 0 with
  | Eq => 0
  | Gt => Qred (rnd_pos x)
  | Lt => Qred (- rnd_pos (- x))
  end.

(** [a + b], [a - b], [a * b] and [a / b] on floats. *)
Definition add (a b : Q) : Q := rnd (a + b).
Definition sub (a b : Q) : Q := rnd (a - b).
Definition mul (a b : Q) : Q := rnd (a * b).
Definition div (a b : Q) : Q := rnd (a / b).

(** [math.sqrt]: the correctly rounded square root.  The argument is
    scaled by a power of four so that the integer square root [m] has more
    than 53 bits; a root that is not exact lies strictly between [m] and
    [m + 1] and rounds as [m + 1/2] does. *)
Definition sqrt (x : Q) : Q :=
  match x ?= 0 with
  | Gt =>
      let s := (64 - flog2 x / 2)%Z in
      let t := x * 2 ^ (2 * s) in
      let m := Z.sqrt (Qfloor t) in
      let approx :=
        if Qeq_bool (inject_Z (m * m)) t then inject_Z m
        else inject_Z m + (1 # 2) in
      rnd (approx / 2 ^ s)
  | _ => 0
  end.

(** [round(x, n)] on a float: the decimal with [n] places nearest to the
    exact value of [x], ties to even, as a float again. *)
Definition round (x : Q) (n : nat) : Q := rnd (Py.round x n).

(** [sum(xs)] on floats: the additions are made from left to right, each
    one rounded (the loop of CPython up to 3.11; later versions carry a
    compensation term through the loop). *)
Definition sum (xs : list Q) : Q := fold_left add xs 0.

End B64.

(* ================================================================== *)
(** ** Calendar arithmetic behind [datetime]

    Naive UTC datetimes at one-second resolution are epoch seconds; the
    proleptic Gregorian calendar is computed by the usual era/day-of-era
    decomposition.  [datetime] covers the years 1 to 9999 and raises
    outside them; the functions below are total and are only meaningful
    in that range. *)

Module PyTime.

Local Open Scope Z_scope.

(** Days from 1970-01-01 to the civil date [y-m-d]. *)
Definition days_from_civil (y m d : Z) : Z :=
  let y' := if m <=? 2 then y - 1 else y in
  let era := y' / 400 in
  let yoe := y' - era * 400 in
  let mp := if 2 <? m then m - 3 else m + 9 in
  let doy := (153 * mp + 2) / 5 + d - 1 in
  let doe := yoe * 365 + yoe / 4 - yoe / 100 + doy in
  era * 146097 + doe - 719468.

(** The civil date [(y, m, d)] of a day count from 1970-01-01. *)
Definition civil_from_days (days : Z) : Z * Z * Z :=
  let z := days + 719468 in
  let era := z / 146097 in
  let doe := z - era * 146097 in
  let yoe := (doe - doe / 1460 + doe / 36524 - doe / 146096) / 365 in
  let doy := doe - (365 * yoe + yoe / 4 - yoe / 100) in
  let mp := (5 * doy + 2) / 153 in
  let d := doy - (153 * mp + 2) / 5 + 1 in
  let m := if mp <? 10 then mp + 3 else mp - 9 in
  let y := yoe + era * 400 in
  (if m <=? 2 then y + 1 else y, m, d).

(** [datetime(y, m, d)] at midnight, as epoch seconds. *)
Definition datetime (y m d : Z) : Z := days_from_civil y m d * 86400.

(** [timedelta(days=n)] in seconds. *)
Definition timedelta_days (n : Z) : Z := n * 86400.

Definition digit (n : Z) : ascii := ascii_of_nat (48 + Z.to_nat (n mod 10)).
Definition pad2 (n : Z) : string :=
  String (digit (n / 10)) (String (digit n) "").
Definition pad4 (n : Z) : string := (pad2 (n / 100) ++ pad2 (n mod 100))%string.

(** [strftime("%Y-%m-%d")] of [utcfromtimestamp(ts)]. *)
Definition strftime_date (ts : Z) : string :=
  let '(y, m, d) := civil_from_days (ts / 86400) in
  (pad4 y ++ "-" ++ pad2 m ++ "-" ++ pad2 d)%string.

(** [strftime("%Y-%m-%dT%H:%M:%SZ")] of [utcfromtimestamp(ts)]. *)
Definition strftime_iso (ts : Z) : string :=
  let s := ts mod 86400 in
  (strftime_date ts ++ "T" ++ pad2 (s / 3600) ++ ":" ++ pad2 (s / 60 mod 60)
     ++ ":" ++ pad2 (s mod 60) ++ "Z")%string.

End PyTime.

(* ================================================================== *)
(** ** aggregate_trades.py

    The two loops of [aggregate_trades], the numbers being exact
    rationals. *)

Module Aggregate.

(** A raw fill, as [t.get] reads it: an absent string key is [""], an
    absent number is [0], an absent ["type"] is [None].  The ["outcome"]
    is a string or the JSON [null], which [t.get] returns as [None]. *)
Module Fill.
Record t := mk {
  slug : string;
  outcome : option string;
  side : string;
  type : option string;
  price : Q;
  usdcSize : Q;
  size : Q;
  timestamp : Z;
  title : string
}.
End Fill.

(** The entry appended to a bucket: [{"usdc", "price", "size", "ts"}]. *)
Module Entry.
Record t := mk { usdc : Q; price : Q; size : Q; ts : Z }.
End Entry.

(** The per-key accumulator of the [defaultdict]. *)
Module Market.
Record t := mk {
  buys : list Entry.t;
  sells : list Entry.t;
  redemptions : list Entry.t;
  title : string;
  outcome : string;
  slug : string
}.
Definition empty : t := mk [] [] [] "" "" "".
End Market.

Inductive Status := closed | open.

(** One element of [results]. *)
Module Position.
Record t := mk {
  market : string;
  slug : string;
  outcome : string;
  status : Status;
  totalBought : Q;
  totalSold : Q;
  pnl : Q;
  avgEntryPrice : Q;
  avgExitPrice : Q;
  firstTrade : string;
  lastTrade : string;
  tradeCount : nat
}.
End Position.

(** [x or y] on strings. *)
Definition str_or (x y : string) : string :=
  if String.eqb x "" then y else x.

Definition slug_of (t : Fill.t) : string := str_or (Fill.slug t) "unknown".
Definition ttype_of (t : Fill.t) : string :=
  match Fill.type t with Some s => s | None => "TRADE" end.
Definition title_of (t : Fill.t) : string := str_or (Fill.title t) (slug_of t).

(** [outcome] as the f-string prints it and as [or] reads it: [None]
    prints as ["None"] and is false like the empty string. *)
Definition outcome_str (t : Fill.t) : string :=
  match Fill.outcome t with Some s => s | None => "None" end.
Definition outcome_or (t : Fill.t) (y : string) : string :=
  match Fill.outcome t with Some s => str_or s y | None => y end.

(** [key = f"{slug}|{outcome}"]. *)
Definition key_of (t : Fill.t) : string :=
  (slug_of t ++ "|" ++ outcome_str t)%string.

Definition entry_of (t : Fill.t) : Entry.t :=
  Entry.mk (Fill.usdcSize t) (Fill.price t) (Fill.size t) (Fill.timestamp t).

(** The body of the first loop, on the accumulator [m = markets[key]]. *)
Definition absorb (t : Fill.t) (m : Market.t) : Market.t :=
  let title := str_or (title_of t) (Market.title m) in
  let slug := slug_of t in
  let outcome := outcome_or t (Market.outcome m) in
  let entry := entry_of t in
  if String.eqb (ttype_of t) "REDEMPTION" then
    Market.mk (Market.buys m) (Market.sells m)
              (Market.redemptions m ++ [entry]) title outcome slug
  else if String.eqb (Fill.side t) "BUY" then
    Market.mk (Market.buys m ++ [entry]) (Market.sells m)
              (Market.redemptions m) title outcome slug
  else if String.eqb (Fill.side t) "SELL" then
    Market.mk (Market.buys m) (Market.sells m ++ [entry])
              (Market.redemptions m) title outcome slug
  else
    Market.mk (Market.buys m) (Market.sells m)
              (Market.redemptions m) title outcome slug.

(** [markets]: the dictionary in insertion order.  [markets[key]] creates
    the accumulator at the end when the key is new. *)
Definition Markets := list (string * Market.t).

Fixpoint update (k : string) (f : Market.t -> Market.t) (ms : Markets)
  : Markets :=
  match ms with
  | [] => [(k, f Market.empty)]
  | (k', m) :: rest =>
      if String.eqb k k' then (k', f m) :: rest
      else (k', m) :: update k f rest
  end.

Fixpoint lookup (k : string) (ms : Markets) : option Market.t :=
  match ms with
  | [] => None
  | (k', m) :: rest => if String.eqb k k' then Some m else lookup k rest
  end.

Definition step (ms : Markets) (t : Fill.t) : Markets :=
  update (key_of t) (absorb t) ms.

Definition group (raw_trades : list Fill.t) : Markets :=
  fold_left step raw_trades [].

(** [ts_to_iso] and [ts_to_date] on integer timestamps. *)
Definition ts_to_iso (ts : Z) : string :=
  if (ts =? 0)%Z then "" else PyTime.strftime_iso ts.

Definition ts_to_date (ts : Z) : string :=
  if (ts =? 0)%Z then "" else PyTime.strftime_date ts.

Definition truthy (ts : Z) : bool := negb (ts =? 0)%Z.

(** [all_ts]: the non-zero timestamps of the three buckets, sorted. *)
Definition all_ts_of (m : Market.t) : list Z :=
  Py.sort Z.ltb
    (filter truthy
       (map Entry.ts (Market.buys m ++ Market.sells m ++ Market.redemptions m))).

Definition sum_of (f : Entry.t -> Q) (es : list Entry.t) : Q :=
  Py.sum (map f es).

Definition total_bought_of (m : Market.t) : Q :=
  sum_of Entry.usdc (Market.buys m).
Definition total_sold_of (m : Market.t) : Q :=
  sum_of Entry.usdc (Market.sells m) + sum_of Entry.usdc (Market.redemptions m).
Definition buy_size_of (m : Market.t) : Q := sum_of Entry.size (Market.buys m).
Definition sell_size_of (m : Market.t) : Q := sum_of Entry.size (Market.sells m).

(** A size-weighted mean price, [0] when the total size is not positive. *)
Definition weighted_avg (es : list Entry.t) : Q :=
  let total := sum_of Entry.size es in
  if Py.ltb 0 total
  then sum_of (fun e => Entry.price e * Entry.size e) es / total
  else 0.

Definition is_nil {A} (l : list A) : bool :=
  match l with [] => true | _ => false end.

Definition status_of (m : Market.t) : Status :=
  if negb (is_nil (Market.redemptions m)) then closed
  else if Py.leb (buy_size_of m * 0.9) (sell_size_of m)
          && Py.ltb 0 (buy_size_of m) then closed
  else open.

(** The body of the second loop: the result appended for one accumulator. *)
Definition summarize (m : Market.t) : Position.t :=
  let total_bought := total_bought_of m in
  let total_sold := total_sold_of m in
  let avg_entry := weighted_avg (Market.buys m) in
  let avg_exit := weighted_avg (Market.sells m ++ Market.redemptions m) in
  let all_ts := all_ts_of m in
  let pnl := total_sold - total_bought in
  Position.mk
    (Market.title m) (Market.slug m) (Market.outcome m)
    (status_of m)
    (Py.round total_bought 2) (Py.round total_sold 2) (Py.round pnl 2)
    (Py.round avg_entry 4) (Py.round avg_exit 4)
    (match all_ts with [] => "" | t :: _ => ts_to_iso t end)
    (match all_ts with [] => "" | _ => ts_to_iso (last all_ts 0%Z) end)
    (List.length (Market.buys m) + List.length (Market.sells m)
     + List.length (Market.redemptions m)).

(** [results] before the final sort, with the key of each accumulator. *)
Definition keyed_results (raw_trades : list Fill.t)
  : list (string * Position.t) :=
  map (fun km => (fst km, summarize (snd km))) (group raw_trades).

(** The position computed for one market key, if the key occurs. *)
Definition position_at (k : string) (raw_trades : list Fill.t)
  : option Position.t :=
  option_map summarize (lookup k (group raw_trades)).

(** [results.sort(key=lambda x: abs(x["pnl"]), reverse=True)]. *)
Definition larger_abs_pnl (y x : Position.t) : bool :=
  Py.ltb (Py.abs (Position.pnl x)) (Py.abs (Position.pnl y)).

Definition aggregate_trades (raw_trades : list Fill.t) : list Position.t :=
  Py.sort larger_abs_pnl (map snd (keyed_results raw_trades)).

(** *** The fills behind a position

    The views of the input list in which the properties are stated: the
    fills of one market key, and the bucket the first loop puts a fill in. *)

Inductive Bucket := Redemption | Buy | Sell | Dropped.

Definition bucket_of (t : Fill.t) : Bucket :=
  if String.eqb (ttype_of t) "REDEMPTION" then Redemption
  else if String.eqb (Fill.side t) "BUY" then Buy
  else if String.eqb (Fill.side t) "SELL" then Sell
  else Dropped.

Definition bucket_eqb (a b : Bucket) : bool :=
  match a, b with
  | Redemption, Redemption | Buy, Buy | Sell, Sell | Dropped, Dropped => true
  | _, _ => false
  end.

Definition fills_of (k : string) (raw_trades : list Fill.t) : list Fill.t :=
  filter (fun t => String.eqb (key_of t) k) raw_trades.

Definition bucket_entries (b : Bucket) (ts : list Fill.t) : list Entry.t :=
  map entry_of (filter (fun t => bucket_eqb (bucket_of t) b) ts).

(** The constituent fills of the position of key [k]. *)
Definition buys_of (k : string) (l : list Fill.t) : list Entry.t :=
  bucket_entries Buy (fills_of k l).
Definition sells_of (k : string) (l : list Fill.t) : list Entry.t :=
  bucket_entries Sell (fills_of k l).
Definition redemptions_of (k : string) (l : list Fill.t) : list Entry.t :=
  bucket_entries Redemption (fills_of k l).

(** The accumulator after a run of fills of one key. *)
Definition absorb_all (ts : list Fill.t) (m : Market.t) : Market.t :=
  fold_left (fun m t => absorb t m) ts m.


(** The timestamps of the constituent fills of the position of key [k],
    and those of them that are set (not [0]). *)
Definition constituent_ts (k : string) (l : list Fill.t) : list Z :=
  map Entry.ts (buys_of k l ++ sells_of k l ++ redemptions_of k l).

Definition stamped_ts (k : string) (l : list Fill.t) : list Z :=
  filter truthy (constituent_ts k l).

Definition is_min (m : Z) (ts : list Z) : Prop :=
  In m ts /\ forall u, In u ts -> (m <= u)%Z.
Definition is_max (m : Z) (ts : list Z) : Prop :=
  In m ts /\ forall u, In u ts -> (u <= m)%Z.

(** A key all of whose fills fall through the three branches. *)
Definition all_dropped (k : string) (l : list Fill.t) : Prop :=
  Forall (fun t => bucket_of t = Dropped) (fills_of k l).

(** The first non-empty ["title"] among a run of fills. *)
Definition first_nonempty_title (ts : list Fill.t) : string :=
  match filter (fun t => negb (String.eqb (Fill.title t) "")) ts with
  | t :: _ => Fill.title t
  | [] => ""
  end.

(** A position without any constituent fill. *)
Definition fill_less (p : Position.t) : Prop :=
  Position.tradeCount p = 0%nat
  /\ Position.status p = open
  /\ Position.pnl p = 0
  /\ Position.totalBought p = 0
  /\ Position.totalSold p = 0
  /\ Position.firstTrade p = ""%string
  /\ Position.lastTrade p = ""%string.

End Aggregate.

(* ================================================================== *)
(** ** aggregate_trades.py, with the arithmetic of floats

    The first loop only stores numbers, after [float(...)] has read
    them; the second loop adds, multiplies, divides, compares and rounds
    them.  This is the second loop as Python runs it, on the accumulators
    of the first loop. *)

Module Aggregate64.
Import Aggregate.

(** [float(t.get("price", 0) or 0)], and the same for ["usdcSize"] and
    ["size"]: the numbers of a fill as floats. *)
Definition read (t : Fill.t) : Fill.t :=
  Fill.mk (Fill.slug t) (Fill.outcome t) (Fill.side t) (Fill.type t)
          (B64.rnd (Fill.price t)) (B64.rnd (Fill.usdcSize t))
          (B64.rnd (Fill.size t)) (Fill.timestamp t) (Fill.title t).

(** [markets] after the first loop. *)
Definition markets (raw_trades : list Fill.t) : Markets :=
  group (map read raw_trades).

(** [sum(f(e) for e in es)]. *)
Definition sum_of (f : Entry.t -> Q) (es : list Entry.t) : Q :=
  B64.sum (map f es).

(** [sum(e["price"] * e["size"] for e in es) / total if total > 0 else 0]. *)
Definition weighted_avg (es : list Entry.t) : Q :=
  let total := sum_of Entry.size es in
  if Py.ltb 0 total
  then B64.div (sum_of (fun e => B64.mul (Entry.price e) (Entry.size e)) es)
               total
  else 0.

(** The body of the second loop. *)
Definition summarize (m : Market.t) : Position.t :=
  let buys := Market.buys m in
  let sells := Market.sells m in
  let redemptions := Market.redemptions m in
  let total_bought := sum_of Entry.usdc buys in
  let total_sold :=
    B64.add (sum_of Entry.usdc sells) (sum_of Entry.usdc redemptions) in
  let avg_entry := weighted_avg buys in
  let avg_exit := weighted_avg (sells ++ redemptions) in
  let all_ts := all_ts_of m in
  let buy_size := sum_of Entry.size buys in
  let sell_size := sum_of Entry.size sells in
  let status :=
    if negb (is_nil redemptions) then closed
    else if Py.leb (B64.mul buy_size (B64.rnd 0.9)) sell_size
            && Py.ltb 0 buy_size then closed
    else open in
  let pnl := B64.sub total_sold total_bought in
  Position.mk
    (Market.title m) (Market.slug m) (Market.outcome m)
    status
    (B64.round total_bought 2) (B64.round total_sold 2) (B64.round pnl 2)
    (B64.round avg_entry 4) (B64.round avg_exit 4)
    (match all_ts with [] => "" | t :: _ => ts_to_iso t end)
    (match all_ts with [] => "" | _ => ts_to_iso (last all_ts 0%Z) end)
    (List.length buys + List.length sells + List.length redemptions).

(** [results] before the final sort, with the key of each accumulator. *)
Definition keyed_results (raw_trades : list Fill.t)
  : list (string * Position.t) :=
  map (fun km => (fst km, summarize (snd km))) (markets raw_trades).

(** The position computed for one market key, if the key occurs. *)
Definition position_at (k : string) (raw_trades : list Fill.t)
  : option Position.t :=
  option_map summarize (lookup k (markets raw_trades)).

Definition aggregate_trades (raw_trades : list Fill.t) : list Position.t :=
  Py.sort larger_abs_pnl (map snd (keyed_results raw_trades)).

(** The entries that the fills of key [k] leave in a bucket, in the
    order of the fills. *)
Definition entries (b : Bucket) (k : string) (raw_trades : list Fill.t)
  : list Entry.t :=
  bucket_entries b (fills_of k (map read raw_trades)).

End Aggregate64.

(* ================================================================== *)
(** ** analyze-v2.py

    The windows, the scores, the weights and the replay, the numbers being
    exact rationals. *)

Module Analyze.

(** An element of [all_positions], with the keys the analysis reads. *)
Module Pos.
Record t := mk {
  address : string;
  exit_ts : Z;
  ret : Q;              (* p['return'] *)
  pnl : Q;
  insiderRisk : string;
  cluster : string
}.
End Pos.

(** An entry of [trader_by_addr]; a key of the trader object may be absent. *)
Module Trader.
Record t := mk { insiderRisk : option string; cluster : option string }.
End Trader.

(** [ret = (exitPrice - entryPrice) / entryPrice if entryPrice > 0 else 0]. *)
Definition return_of (entryPrice exitPrice : Q) : Q :=
  if Py.ltb 0 entryPrice then (exitPrice - entryPrice) / entryPrice else 0.

(** [all_positions.sort(key=lambda p: p['exit_ts'])]. *)
Definition sort_by_exit (ps : list Pos.t) : list Pos.t :=
  Py.sort (fun y x => (Pos.exit_ts y <? Pos.exit_ts x)%Z) ps.

(** *** Timeframes *)

Inductive Timeframe := TF_3M | TF_6M | TF_1Y | TF_YTD | TF_ALL.

Definition NOW : Z := PyTime.datetime 2026 2 14.

Definition timeframes (tf : Timeframe) : Z :=
  match tf with
  | TF_3M => (NOW - PyTime.timedelta_days 90)%Z
  | TF_6M => (NOW - PyTime.timedelta_days 180)%Z
  | TF_1Y => (NOW - PyTime.timedelta_days 365)%Z
  | TF_YTD => PyTime.datetime 2026 1 1
  | TF_ALL => PyTime.datetime 2020 1 1
  end.

(** [[p for p in positions if p['exit_date'] >= start]]: [exit_date] is
    [utcfromtimestamp(exit_ts)], so the comparison is on epoch seconds. *)
Definition in_window (start : Z) (p : Pos.t) : bool :=
  (start <=? Pos.exit_ts p)%Z.

Definition select (positions : list Pos.t) (start : Z) : list Pos.t :=
  filter (in_window start) positions.

Definition tf_positions (all_positions : list Pos.t) (tf : Timeframe)
  : list Pos.t :=
  select all_positions (timeframes tf).

(** *** Multipliers *)

(** [str.lower], on the ASCII letters: the names it is compared with are
    ASCII, and no other character lowers to one of their letters. *)
Definition lower_ascii (c : ascii) : ascii :=
  let n := nat_of_ascii c in
  if (65 <=? n)%nat && (n <=? 90)%nat then ascii_of_nat (n + 32) else c.

Fixpoint lower (s : string) : string :=
  match s with
  | EmptyString => EmptyString
  | String c s' => String (lower_ascii c) (lower s')
  end.

Definition mem (s : string) (set : list string) : bool :=
  existsb (String.eqb s) set.

Definition ACTIVE_CLUSTERS : list string :=
  ["iran"; "fed"; "geopolitics"; "politics"; "crypto"; "tech"; "sports";
   "ufc"; "mma"]%string.
Definition PLAYED_OUT : list string := ["election-2024"; "election"]%string.

Definition cluster_boost (cluster : string) : Q :=
  if String.eqb cluster "" then 1
  else
    let c := lower cluster in
    if mem c PLAYED_OUT then 0.3
    else if mem c ACTIVE_CLUSTERS then 1.5
    else 1.

Definition insider_mult (risk : string) : Q :=
  if String.eqb risk "HIGH" then 2
  else if String.eqb risk "EXTREME" then 2.5
  else if String.eqb risk "MEDIUM" then 1
  else if String.eqb risk "LOW" then 0.5
  else 0.5.

Definition STARTING_CAPITAL : Q := 10000.
Definition BASE_POSITION : Q := 1000.

(** *** Tiers and the blended weight *)

Module Tier.
Inductive t := S | A | B | C | D.
End Tier.

Definition blend (s3m s6m s1y : Q) : Q := 0.5 * s3m + 0.3 * s6m + 0.2 * s1y.

Definition tier_of (blended : Q) : Tier.t :=
  if Py.leb 1.5 blended then Tier.S
  else if Py.leb 1.0 blended then Tier.A
  else if Py.leb 0.5 blended then Tier.B
  else if Py.leb 0.0 blended then Tier.C
  else Tier.D.

Definition get_or {A} (o : option A) (d : A) : A :=
  match o with Some a => a | None => d end.

(** [trader.get(key, default)] where [trader] itself may be [{}]. *)
Definition trader_get (trader : option Trader.t)
    (key : Trader.t -> option string) (default : string) : string :=
  match trader with Some t => get_or (key t) default | None => default end.

Definition rec_weight (blended : Q) (trader : option Trader.t) : Q :=
  Py.round
    (Py.max 0.1 (Py.min 3.0 blended)
     * insider_mult (trader_get trader Trader.insiderRisk "LOW")
     * cluster_boost (trader_get trader Trader.cluster "other"))
    3.

(** *** The sizing rule of the two capped policies *)

Definition capped_size (weight cap : Q) : Q :=
  Py.min (BASE_POSITION * weight) (cap * 0.1).

Definition pct_return (cap : Q) : Q :=
  Py.round ((cap / STARTING_CAPITAL - 1) * 100) 1.

Module Stats.
Record t := mk {
  trades : nat;
  winRate : Q;
  avgReturn : Q;
  volatility : Q;
  sharpe : Q;
  totalPnl : Q
}.
Definition zero : t := mk 0 0 0 0 0 0.
End Stats.

Module Weight.
Record t := mk {
  sharpe3m : Q;
  sharpe6m : Q;
  sharpe1y : Q;
  recommendedWeight : Q;
  tier : Tier.t
}.
End Weight.

(** The running capitals of the first simulation loop. *)
Module Sim.
Record t := mk { eq_cap : Q; sh_cap : Q; opt_cap : Q; wins : nat }.
Definition init : t := mk STARTING_CAPITAL STARTING_CAPITAL STARTING_CAPITAL 0.
End Sim.

Module Result.
Record t := mk {
  equal : Q;
  sharpe : Q;
  optimal : Q;
  trades : nat;
  winRate : Q;
  recencyOptimal : Q
}.
End Result.

Definition count_if {A} (f : A -> bool) (l : list A) : nat :=
  List.length (filter f l).

Definition of_nat (n : nat) : Q := inject_Z (Z.of_nat n).


Section Scoring.

(** [math.sqrt]. *)
Variable sqrt : Q -> Q.

(** The locals of [calc_stats] on a non-empty [returns]. *)
Definition mean_of (returns : list Q) : Q :=
  Py.sum returns / of_nat (List.length returns).

Definition std_of (returns : list Q) : Q :=
  let n := List.length returns in
  let mean := mean_of returns in
  if (1 <? n)%nat
  then sqrt (Py.sum (map (fun r => (r - mean) ^ 2) returns) / of_nat n)
  else 0.

Definition sharpe_of (returns : list Q) : Q :=
  let mean := mean_of returns in
  let std := std_of returns in
  if Py.ltb 0 std then mean / std
  else if Py.ltb 0 mean then 1.0 else 0.

Definition calc_stats (returns pnls : list Q) : Stats.t :=
  match returns with
  | [] => Stats.zero
  | _ =>
      let n := List.length returns in
      let wins := count_if (Py.ltb 0) returns in
      Stats.mk n
        (Py.round (of_nat wins / of_nat n * 100) 1)
        (Py.round (mean_of returns * 100) 2)
        (Py.round (std_of returns * 100) 2)
        (Py.round (sharpe_of returns) 3)
        (Py.round (Py.sum pnls) 2)
  end.

(** [trader_stats[addr][tf]]. *)
Definition trader_stats (all_positions : list Pos.t) (addr : string)
    (tf : Timeframe) : Stats.t :=
  let trader_positions :=
    filter (fun p => String.eqb (Pos.address p) addr) all_positions in
  let tf_pos := select trader_positions (timeframes tf) in
  calc_stats (map Pos.ret tf_pos) (map Pos.pnl tf_pos).

Definition has_address (addr : string) (ps : list Pos.t) : bool :=
  existsb (fun p => String.eqb (Pos.address p) addr) ps.

(** [tf_sharpe.get(addr, 1)]: the dictionary has the addresses of the
    window's positions. *)
Definition tf_sharpe_get (all_positions : list Pos.t) (tf : Timeframe)
    (addr : string) : Q :=
  if has_address addr (tf_positions all_positions tf) then
    let s := Stats.sharpe (trader_stats all_positions addr tf) in
    if Py.ltb 0 s then Py.max 0.1 s else 0.1
  else 1.

(** The Optimal weight [ow] and size [opt_size] of one position. *)
Definition sharpe_weight (all_positions : list Pos.t) (tf : Timeframe)
    (p : Pos.t) : Q :=
  Py.min (tf_sharpe_get all_positions tf (Pos.address p)) 3.

Definition optimal_weight (all_positions : list Pos.t) (tf : Timeframe)
    (p : Pos.t) : Q :=
  sharpe_weight all_positions tf p
  * insider_mult (Pos.insiderRisk p) * cluster_boost (Pos.cluster p).

Definition opt_size (all_positions : list Pos.t) (tf : Timeframe)
    (opt_cap : Q) (p : Pos.t) : Q :=
  capped_size (optimal_weight all_positions tf p) opt_cap.

(** One iteration of the first simulation loop. *)
Definition sim_step (all_positions : list Pos.t) (tf : Timeframe)
    (s : Sim.t) (p : Pos.t) : Sim.t :=
  let ret := Pos.ret p in
  let wins := if Py.ltb 0 (Pos.pnl p) then S (Sim.wins s) else Sim.wins s in
  let eq_cap := Sim.eq_cap s + BASE_POSITION * ret in
  let sw := sharpe_weight all_positions tf p in
  let sh_cap := Sim.sh_cap s + BASE_POSITION * sw * ret in
  let opt_cap :=
    Sim.opt_cap s + opt_size all_positions tf (Sim.opt_cap s) p * ret in
  Sim.mk eq_cap sh_cap opt_cap wins.

Definition simulate (all_positions : list Pos.t) (tf : Timeframe)
    (stream : list Pos.t) : Sim.t :=
  fold_left (sim_step all_positions tf) stream Sim.init.

(** [weights[addr]]. *)
Definition weights (all_positions : list Pos.t)
    (trader_by_addr : string -> option Trader.t) (addr : string) : Weight.t :=
  let trader := trader_by_addr addr in
  let s3m := Stats.sharpe (trader_stats all_positions addr TF_3M) in
  let s6m := Stats.sharpe (trader_stats all_positions addr TF_6M) in
  let s1y := Stats.sharpe (trader_stats all_positions addr TF_1Y) in
  let blended := blend s3m s6m s1y in
  Weight.mk (Py.round s3m 3) (Py.round s6m 3) (Py.round s1y 3)
            (rec_weight blended trader) (tier_of blended).

(** [weights.get(addr, {}).get('recommendedWeight', 1)]: the dictionary
    has the addresses of [all_positions]. *)
Definition recommended_weight_get (all_positions : list Pos.t)
    (trader_by_addr : string -> option Trader.t) (addr : string) : Q :=
  if has_address addr all_positions
  then Weight.recommendedWeight (weights all_positions trader_by_addr addr)
  else 1.

Definition rb_size (all_positions : list Pos.t)
    (trader_by_addr : string -> option Trader.t) (rb_cap : Q) (p : Pos.t) : Q :=
  capped_size
    (recommended_weight_get all_positions trader_by_addr (Pos.address p))
    rb_cap.

(** One iteration of the Recency-Optimal loop. *)
Definition rb_step (all_positions : list Pos.t)
    (trader_by_addr : string -> option Trader.t) (rb_cap : Q) (p : Pos.t) : Q :=
  rb_cap + rb_size all_positions trader_by_addr rb_cap p * Pos.ret p.

Definition simulate_rb (all_positions : list Pos.t)
    (trader_by_addr : string -> option Trader.t) (stream : list Pos.t) : Q :=
  fold_left (rb_step all_positions trader_by_addr) stream STARTING_CAPITAL.





(** [strategy_results[tf]] after both simulation passes. *)
Definition strategy_results (all_positions : list Pos.t)
    (trader_by_addr : string -> option Trader.t) (tf : Timeframe) : Result.t :=
  let stream := tf_positions all_positions tf in
  match stream with
  | [] => Result.mk 0 0 0 0 0 0
  | _ =>
      let s := simulate all_positions tf stream in
      let n := List.length stream in
      Result.mk (pct_return (Sim.eq_cap s)) (pct_return (Sim.sh_cap s))
                (pct_return (Sim.opt_cap s)) n
                (Py.round (of_nat (Sim.wins s) / of_nat n * 100) 1)
                (pct_return (simulate_rb all_positions trader_by_addr stream))
  end.

End Scoring.

End Analyze.

(* ================================================================== *)
(** ** analyze-v2.py, with the arithmetic of floats: scores and weights *)

Module Analyze64.
Import Analyze.

(** [insider_mult] and [cluster_boost]: the numbers of the tables as
    floats. *)
Definition insider_mult (risk : string) : Q :=
  if String.eqb risk "HIGH" then 2
  else if String.eqb risk "EXTREME" then B64.rnd 2.5
  else if String.eqb risk "MEDIUM" then 1
  else if String.eqb risk "LOW" then B64.rnd 0.5
  else B64.rnd 0.5.

Definition cluster_boost (cluster : string) : Q :=
  if String.eqb cluster "" then 1
  else
    let c := lower cluster in
    if mem c PLAYED_OUT then B64.rnd 0.3
    else if mem c ACTIVE_CLUSTERS then B64.rnd 1.5
    else 1.

(** [calc_stats].  [(r - mean)**2] is the square of the C library, taken
    as the correctly rounded product. *)
Definition calc_stats (returns pnls : list Q) : Stats.t :=
  match returns with
  | [] => Stats.zero
  | _ =>
      let n := List.length returns in
      let wins := count_if (Py.ltb 0) returns in
      let mean := B64.div (B64.sum returns) (of_nat n) in
      let std :=
        if (1 <? n)%nat then
          let var :=
            B64.div
              (B64.sum (map (fun r => let d := B64.sub r mean in B64.mul d d)
                            returns))
              (of_nat n) in
          B64.sqrt var
        else 0 in
      let sharpe :=
        if Py.ltb 0 std then B64.div mean std
        else if Py.ltb 0 mean then 1 else 0 in
      Stats.mk n
        (B64.round (B64.mul (B64.div (of_nat wins) (of_nat n)) 100) 1)
        (B64.round (B64.mul mean 100) 2)
        (B64.round (B64.mul std 100) 2)
        (B64.round sharpe 3)
        (B64.round (B64.sum pnls) 2)
  end.

(** [trader_stats[addr][tf]]. *)
Definition trader_stats (all_positions : list Pos.t) (addr : string)
    (tf : Timeframe) : Stats.t :=
  let trader_positions :=
    filter (fun p => String.eqb (Pos.address p) addr) all_positions in
  let tf_pos := select trader_positions (timeframes tf) in
  calc_stats (map Pos.ret tf_pos) (map Pos.pnl tf_pos).

(** The body of the loop that fills [weights], from the three sharpes it
    has read. *)
Definition weight_entry (s3m s6m s1y : Q) (trader : option Trader.t)
  : Weight.t :=
  let blended :=
    B64.add (B64.add (B64.mul (B64.rnd 0.5) s3m) (B64.mul (B64.rnd 0.3) s6m))
            (B64.mul (B64.rnd 0.2) s1y) in
  let tier :=
    if Py.leb 1.5 blended then Tier.S
    else if Py.leb 1.0 blended then Tier.A
    else if Py.leb 0.5 blended then Tier.B
    else if Py.leb 0.0 blended then Tier.C
    else Tier.D in
  let rec_weight :=
    B64.round
      (B64.mul
         (B64.mul (Py.max (B64.rnd 0.1) (Py.min (B64.rnd 3.0) blended))
                  (insider_mult (trader_get trader Trader.insiderRisk "LOW")))
         (cluster_boost (trader_get trader Trader.cluster "other")))
      3 in
  Weight.mk (B64.round s3m 3) (B64.round s6m 3) (B64.round s1y 3)
            rec_weight tier.

(** [weights[addr]]. *)
Definition weights (all_positions : list Pos.t)
    (trader_by_addr : string -> option Trader.t) (addr : string) : Weight.t :=
  weight_entry (Stats.sharpe (trader_stats all_positions addr TF_3M))
               (Stats.sharpe (trader_stats all_positions addr TF_6M))
               (Stats.sharpe (trader_stats all_positions addr TF_1Y))
               (trader_by_addr addr).

End Analyze64.

(* ================================================================== *)
(** ** Notions of the specification of the weights *)

Module Formulas.

(** A number clamped to an interval. *)
Definition clamp (lo hi x : Q) : Q :=
  if Py.ltb x lo then lo else if Py.ltb hi x then hi else x.

(** The insider multiplier of a risk class, [None] when the trader has
    none. *)
Definition insider_multiplier (risk : option string) : Q :=
  match risk with
  | None => 1 # 2
  | Some r =>
      if String.eqb r "EXTREME" then 5 # 2
      else if String.eqb r "HIGH" then 2
      else if String.eqb r "MEDIUM" then 1
      else 1 # 2
  end.

(** The risk class and the cluster that the roster has for a trader. *)
Definition risk_of (trader : option Analyze.Trader.t) : option string :=
  match trader with Some t => Analyze.Trader.insiderRisk t | None => None end.

Definition cluster_of (trader : option Analyze.Trader.t) : option string :=
  match trader with Some t => Analyze.Trader.cluster t | None => None end.

(** The cluster boost: 0.3 for a played-out cluster, 1.5 for an active
    one, 1 otherwise and without a cluster. *)
Definition cluster_boost (cluster : option string) : Q :=
  match cluster with
  | None => 1
  | Some c =>
      if Analyze.mem (Analyze.lower c) ["election-2024"; "election"]%string
      then B64.rnd 0.3
      else if Analyze.mem (Analyze.lower c)
                ["iran"; "fed"; "geopolitics"; "politics"; "crypto"; "tech";
                 "sports"; "ufc"; "mma"]%string
      then 3 # 2
      else 1
  end.

End Formulas.

(* ================================================================== *)
(** ** aggregate_trades.py: the per-trader history and the closed positions *)

Module Report.
Import Aggregate.

Module Summary.
Record t := mk {
  totalTrades : nat;
  closedPositions : nat;
  openPositions : nat;
  winRate : Q;
  totalPnlClosed : Q
}.
Definition zero : t := mk 0 0 0 0 0.
End Summary.

(** [trade_history[username]]. *)
Module History.
Record t := mk { address : string; trades : list Position.t; summary : Summary.t }.
End History.

Definition is_closed (t : Position.t) : bool :=
  match Position.status t with closed => true | open => false end.
Definition is_open (t : Position.t) : bool :=
  match Position.status t with closed => false | open => true end.

(** [t["pnl"] > 0]. *)
Definition won (t : Position.t) : bool := Py.ltb 0 (Position.pnl t).

(** [len(wins) / len(closed) if closed else 0]. *)
Definition win_rate_of (closed : list Position.t) : Q :=
  if is_nil closed then 0
  else Analyze.of_nat (List.length (filter won closed))
       / Analyze.of_nat (List.length closed).

(** The body of the loop over the traders; [raw] is [None] when the
    trader has no raw file. *)
Definition history_of (address : string) (raw : option (list Fill.t))
  : History.t :=
  match raw with
  | None => History.mk address [] Summary.zero
  | Some raw =>
      let aggregated := aggregate_trades raw in
      let closed := filter is_closed aggregated in
      let opened := filter is_open aggregated in
      let win_rate := win_rate_of closed in
      let total_pnl_closed := Py.sum (map Position.pnl closed) in
      History.mk address aggregated
        (Summary.mk (List.length raw) (List.length closed) (List.length opened)
                    (Py.round win_rate 4) (Py.round total_pnl_closed 2))
  end.

(** [ts_to_date] on a string: [str(ts)[:10]], and [""] for [""]. *)
Definition ts_to_date_str (ts : string) : string :=
  if String.eqb ts "" then "" else substring 0 10 ts.

(** An element of [closedPositions]. *)
Module Closed.
Record t := mk {
  market : string;
  side : string;
  pnl : Z;
  outcome : string;
  entryPrice : Q;
  exitPrice : Q;
  date : string
}.
End Closed.

(** The dictionary built for one closed position; [width] is the length
    the market title is cut to, if it is cut. *)
Definition closed_entry (width : option nat) (t : Position.t) : Closed.t :=
  Closed.mk
    (match width with
     | Some w => substring 0 w (Position.market t)
     | None => Position.market t
     end)
    (str_or (Position.outcome t) "YES")
    (Py.round_half_even (Position.pnl t))
    (if won t then "Won" else "Lost")
    (Position.avgEntryPrice t) (Position.avgExitPrice t)
    (ts_to_date_str (Position.lastTrade t)).

(** [td["closedPositions"]] written to [traders.json]: [closed[:20]]. *)
Definition closed_positions (h : History.t) : list Closed.t :=
  map (closed_entry None) (firstn 20 (filter is_closed (History.trades h))).

(** [build_closed_js], before [json.dumps]: [closed[:15]] with the market
    cut to 80 characters; [[]] for a username without history. *)
Definition build_closed_js (h : option History.t) : list Closed.t :=
  match h with
  | None => []
  | Some h =>
      map (closed_entry (Some 80%nat))
          (firstn 15 (filter is_closed (History.trades h)))
  end.

(** The distinct elements of a list, in the order of their first
    occurrence. *)
Definition first_seen (ks : list string) : list string :=
  fold_left (fun acc k => if existsb (String.eqb k) acc then acc else acc ++ [k])
            ks [].

(** The fills the first loop appends to a bucket. *)
Definition kept (t : Fill.t) : bool := negb (bucket_eqb (bucket_of t) Dropped).

(** The sort key of the result. *)
Definition abs_pnl (p : Position.t) : Q := Py.abs (Position.pnl p).

(** A string without the separator of the keys. *)
Fixpoint bar_free (s : string) : Prop :=
  match s with
  | EmptyString => True
  | String c s' => c <> "|"%char /\ bar_free s'
  end.

(** An entry with a price between 0 and 1 and a non-negative size. *)
Definition priced (e : Entry.t) : Prop :=
  0 <= Entry.price e <= 1 /\ 0 <= Entry.size e.

End Report.

(* ================================================================== *)
(** ** fetch_all_trades.py: the paginated fetch *)

Module Fetch.

Local Open Scope Z_scope.

(** [trader.get("predictions") or 100]. *)
Definition predictions_of (p : option Z) : Z :=
  match p with
  | Some n => if n =? 0 then 100 else n
  | None => 100
  end.

(** [min(500, predictions + 200) if predictions < 500 else 500]. *)
Definition max_trades_of (predictions : Z) : Z :=
  if predictions <? 500 then Z.min 500 (predictions + 200) else 500.

Section Pages.

Context {A : Type}.

(** The request at an offset: the decoded page, or [None] when the
    request or the decoding raises. *)
Variable page : Z -> option (list A).

(** The [while] loop; [fuel] bounds the number of iterations. *)
Fixpoint fetch_loop (fuel : nat) (max_trades offset : Z) (all_trades : list A)
  : list A :=
  match fuel with
  | O => all_trades
  | S fuel' =>
      if offset <? max_trades then
        match page offset with
        | None => all_trades
        | Some data =>
            match data with
            | [] => all_trades
            | _ =>
                let all_trades := (all_trades ++ data)%list in
                if (List.length data <? 100)%nat then all_trades
                else fetch_loop fuel' max_trades (offset + 100) all_trades
            end
        end
      else all_trades
  end.

(** The offset grows by 100 at every iteration that does not leave the
    loop, so [ceil(max_trades / 100)] iterations are enough. *)
Definition iterations (max_trades : Z) : nat :=
  Z.to_nat ((max_trades + 99) / 100).

Definition fetch_trades (max_trades : Z) : list A :=
  fetch_loop (iterations max_trades) max_trades 0 [].

(** The content of the page at an offset, empty when the request fails. *)
Definition page_content (offset : Z) : list A :=
  match page offset with Some data => data | None => [] end.

(** A page that lets the loop go on: the request succeeds and brings 100
    entries or more. *)
Definition full (offset : Z) : bool :=
  match page offset with
  | Some data => negb (List.length data <? 100)%nat
  | None => false
  end.

(** The pages at [offset], [offset + 100], ... : [k] of them. *)
Definition pages_from (offset : Z) (k : nat) : list A :=
  List.concat
    (map (fun i => page_content (offset + 100 * Z.of_nat i)) (seq 0 k)).

End Pages.

End Fetch.

(* ================================================================== *)
(** ** analyze-v2.py: the rankings *)

Module Ranking.
Import Analyze.

(** [trader_stats.items()]: the addresses in the order of iteration, each
    with its statistics per timeframe. *)
Definition StatsItems := list (string * (Timeframe -> Stats.t)).

Module Ranked.
Record t := mk {
  username : string;
  address : string;
  sharpe : Q;
  trades : nat;
  winRate : Q;
  avgReturn : Q;
  totalPnl : Q;
  insiderRisk : string;
  cluster : string
}.
End Ranked.

Module Divergence.
Record t := mk {
  username : string;
  allTimeSharpe : Q;
  sharpe3m : Q;
  delta : Q;
  trades3m : nat
}.
End Divergence.

Section Rankings.

Variable trader_by_addr : string -> option Trader.t.

(** The ["username"] of a trader of the roster, when it has one. *)
Variable username_of : string -> option string.

(** [trader.get('username', addr[:10])]. *)
Definition display_name (addr : string) : string :=
  get_or (username_of addr) (substring 0 10 addr).

Definition ranked_item (tf : Timeframe) (kv : string * (Timeframe -> Stats.t))
  : Ranked.t :=
  let addr := fst kv in
  let s := snd kv tf in
  let trader := trader_by_addr addr in
  Ranked.mk (display_name addr) addr
            (Stats.sharpe s) (Stats.trades s) (Stats.winRate s)
            (Stats.avgReturn s) (Stats.totalPnl s)
            (trader_get trader Trader.insiderRisk "LOW")
            (trader_get trader Trader.cluster "other").

(** [items] of [get_ranked] after its sort by sharpe, largest first. *)
Definition ranked_items (items : StatsItems) (tf : Timeframe) : list Ranked.t :=
  Py.sort (fun y x => Py.ltb (Ranked.sharpe x) (Ranked.sharpe y))
    (map (ranked_item tf)
       (filter (fun kv => negb (Stats.trades (snd kv tf) <? 3)%nat) items)).

(** [l[-n:]]. *)
Definition lastn {A} (n : nat) (l : list A) : list A :=
  if (n =? 0)%nat then l else skipn (List.length l - n) l.

(** [return items[:n], items[-n:] if len(items) >= n else (items, [])]:
    the conditional binds the second component only, which is a list when
    there are at least [n] items and the pair [(items, [])] otherwise. *)
Definition get_ranked (items : StatsItems) (tf : Timeframe) (n : nat)
  : list Ranked.t * (list Ranked.t + list Ranked.t * list Ranked.t) :=
  let items := ranked_items items tf in
  (firstn n items,
   if (n <=? List.length items)%nat then inl (lastn n items)
   else inr (items, [])).

Definition divergence_item (kv : string * (Timeframe -> Stats.t))
  : Divergence.t :=
  let all_s := Stats.sharpe (snd kv TF_ALL) in
  let m3_s := Stats.sharpe (snd kv TF_3M) in
  Divergence.mk (display_name (fst kv)) all_s m3_s (Py.round (m3_s - all_s) 3)
                (Stats.trades (snd kv TF_3M)).

(** [divergence] after its sort by [delta], smallest first. *)
Definition divergence (items : StatsItems) : list Divergence.t :=
  Py.sort (fun y x => Py.ltb (Divergence.delta y) (Divergence.delta x))
    (map divergence_item
       (filter (fun kv => negb (Stats.trades (snd kv TF_ALL) <? 5)%nat) items)).

End Rankings.

End Ranking.

(* ================================================================== *)
(** ** Orders in which the properties of the analysis are stated *)

Module Views.
Import Analyze.

(** A list of positions in ascending exit order. *)
Definition exits_ascending : list Pos.t -> Prop :=
  StronglySorted (fun a b => (Pos.exit_ts a <= Pos.exit_ts b)%Z).


(** A ranking with the largest sharpe first. *)
Definition sharpe_descending : list Ranking.Ranked.t -> Prop :=
  StronglySorted
    (fun a b => Ranking.Ranked.sharpe b <= Ranking.Ranked.sharpe a).

(** A list of divergences with the smallest delta first. *)
Definition delta_ascending : list Ranking.Divergence.t -> Prop :=
  StronglySorted
    (fun a b => Ranking.Divergence.delta a <= Ranking.Divergence.delta b).

End Views.

(* ================================================================== *)
(** ** Sample inputs *)

Module Samples.
Import Aggregate.

Definition fill (side : string) (price usdc size : Q) (ts : Z) (title : string)
  : Fill.t :=
  Fill.mk "will-it-rain" (Some "Yes"%string) side None price usdc size ts title.

(** Bought 100 shares, sold exactly 90. *)
Definition sold_90 : list Fill.t :=
  [fill "BUY" 0.5 50 100 1700000000 "Rain?";
   fill "SELL" 0.6 54 90 1700003600 "Rain?"].

Definition sold_90_position : Position.t :=
  Position.mk "Rain?" "will-it-rain" "Yes" closed 50 54 4 (1 # 2) (3 # 5)
              "2023-11-14T22:13:20Z" "2023-11-14T23:13:20Z" 2.


(** Bought 100 shares, sold 89.999. *)
Definition sold_89_999 : list Fill.t :=
  [fill "BUY" 0.5 50 100 1700000000 "Rain?";
   fill "SELL" 0.6 54 89.999 1700003600 "Rain?"].

(** A fill without a timestamp next to a stamped one. *)
Definition unstamped_buy : list Fill.t :=
  [fill "BUY" 0.5 50 100 0 "Rain?";
   fill "SELL" 0.6 54 90 1700003600 "Rain?"].

(** Two fills that are neither trades of a known side nor redemptions,
    under two titles. *)
Definition retitled : list Fill.t :=
  [fill "" 0.5 50 100 1700000000 "Rain?";
   fill "" 0.6 54 90 1700003600 "Rain tomorrow?"].

(** *** Fills whose sizes are not binary fractions *)

Definition sized (side : string) (size : Q) : Fill.t :=
  fill side 0.5 0 size 1700000000 "Rain?".

(** The position of [sold_90] as the float arithmetic reports it. *)
Definition sold_90_float : Position.t :=
  Position.mk "Rain?" "will-it-rain" "Yes" closed 50 54 4 (1 # 2)
              (B64.rnd 0.6) "2023-11-14T22:13:20Z" "2023-11-14T23:13:20Z" 2.

(** Bought 0.1, 0.2 and 0.3 shares, sold 0.54; and the same fills with
    the buys received in the reverse order. *)
Definition three_buys : list Fill.t :=
  [sized "BUY" 0.1; sized "BUY" 0.2; sized "BUY" 0.3; sized "SELL" 0.54].

Definition three_buys_reversed : list Fill.t :=
  [sized "BUY" 0.3; sized "BUY" 0.2; sized "BUY" 0.1; sized "SELL" 0.54].

(** *** Positions *)

(** A square root for running the analysis on samples: [sqrt (n/d)] as
    [sqrt (n d)] over [d], truncated after six decimals. *)
Definition sqrt6 (x : Q) : Q :=
  Z.sqrt (Qnum x * Zpos (Qden x) * 10 ^ 12) # (Qden x * 10 ^ 6).

Definition position (address : string) (exit_ts : Z) (ret pnl : Q)
    (risk cluster : string) : Analyze.Pos.t :=
  Analyze.Pos.mk address exit_ts ret pnl risk cluster.

Definition roster (a : string) : option Analyze.Trader.t :=
  if String.eqb a "0xa" then
    Some (Analyze.Trader.mk (Some "EXTREME"%string) (Some "crypto"%string))
  else if String.eqb a "0xb" then
    Some (Analyze.Trader.mk (Some "EXTREME"%string) (Some "Fed"%string))
  else None.

(** A total loss of one trader and then a doubling of another, both in
    the last three months. *)
Definition loss_then_gain : list Analyze.Pos.t :=
  [position "0xa" 1769900000 (-1) (-40) "EXTREME" "crypto";
   position "0xb" 1770000000 1 90 "EXTREME" "Fed"].

(** The same loss and the same doubling, closed in the same second, in
    the two orders: both lists are in ascending exit order. *)
Definition tied_loss_gain : list Analyze.Pos.t :=
  [position "0xa" 1769900000 (-1) (-40) "EXTREME" "crypto";
   position "0xb" 1769900000 1 90 "EXTREME" "Fed"].

Definition tied_gain_loss : list Analyze.Pos.t :=
  [position "0xb" 1769900000 1 90 "EXTREME" "Fed";
   position "0xa" 1769900000 (-1) (-40) "EXTREME" "crypto"].



(** A buy whose outcome is [null]. *)
Definition unlabelled : Fill.t :=
  Fill.mk "will-it-rain" None "BUY" None 0.5 50 100 1700000000 "Rain?".

(** A position that closed on 2017-07-14. *)
Definition closed_in_2017 : Analyze.Pos.t :=
  position "0xa" 1500000000 (1 # 10) 10 "LOW" "other".

End Samples.

(* ================================================================== *)
(** ** Sentences of the specification that the code does not satisfy as
       they are written *)

Module Stated.
Import Aggregate.

(** [firstTrade] and [lastTrade] are the minimum and the maximum timestamp
    over all the constituent fills. *)
Definition first_last_over_all_fills : Prop :=
  forall l k p lo hi,
    position_at k l = Some p ->
    is_min lo (constituent_ts k l) -> is_max hi (constituent_ts k l) ->
    Position.firstTrade p = ts_to_iso lo /\ Position.lastTrade p = ts_to_iso hi.

(** A key whose fills are all dropped still has a position, without
    fills, under the first non-empty title of the group. *)
Definition dropped_key_keeps_first_title : Prop :=
  forall l k,
    fills_of k l <> [] -> all_dropped k l ->
    exists p,
      position_at k l = Some p /\ In p (aggregate_trades l)
      /\ fill_less p
      /\ Position.market p = first_nonempty_title (fills_of k l).


(** Every position of the run is in the ALL window. *)
Definition all_window_has_every_position : Prop :=
  forall (all_positions : list Analyze.Pos.t) (p : Analyze.Pos.t),
    In p all_positions ->
    In p (Analyze.tf_positions all_positions Analyze.TF_ALL).



End Stated.

(* ================================================================== *)
(** * Properties *)

(** ** The built-ins *)

Module PyFacts.

Lemma ltb_lt (a b : Q) : Py.ltb a b = true <-> a < b.
Proof.
  unfold Py.ltb. rewrite negb_true_iff, <- not_true_iff_false, Qle_bool_iff.
  split; [apply Qnot_le_lt | apply Qlt_not_le].
Qed.

Lemma ltb_ge (a b : Q) : Py.ltb a b = false <-> b <= a.
Proof.
  unfold Py.ltb. rewrite negb_false_iff. apply Qle_bool_iff.
Qed.

Lemma leb_le (a b : Q) : Py.leb a b = true <-> a <= b.
Proof. apply Qle_bool_iff. Qed.

Lemma leb_gt (a b : Q) : Py.leb a b = false <-> b < a.
Proof.
  unfold Py.leb. rewrite <- not_true_iff_false, Qle_bool_iff.
  split; [apply Qnot_le_lt | apply Qlt_not_le].
Qed.

#[export] Instance ltb_comp : Proper (Qeq ==> Qeq ==> eq) Py.ltb.
Proof. intros a a' Ha b b' Hb. unfold Py.ltb. now rewrite Ha, Hb. Qed.

#[export] Instance leb_comp : Proper (Qeq ==> Qeq ==> eq) Py.leb.
Proof. intros a a' Ha b b' Hb. unfold Py.leb. now rewrite Ha, Hb. Qed.

(** *** [min] and [max] *)

Lemma min_le_r (a b : Q) : Py.min a b <= b.
Proof.
  unfold Py.min. destruct (Py.ltb b a) eqn:E.
  - apply Qle_refl.
  - now apply ltb_ge in E.
Qed.

Lemma min_le_l (a b : Q) : Py.min a b <= a.
Proof.
  unfold Py.min. destruct (Py.ltb b a) eqn:E.
  - apply ltb_lt in E. now apply Qlt_le_weak.
  - apply Qle_refl.
Qed.

Lemma min_glb (a b c : Q) : c <= a -> c <= b -> c <= Py.min a b.
Proof. intros Ha Hb. unfold Py.min. now destruct (Py.ltb b a). Qed.

Lemma max_ge_l (a b : Q) : a <= Py.max a b.
Proof.
  unfold Py.max. destruct (Py.ltb a b) eqn:E.
  - apply ltb_lt in E. now apply Qlt_le_weak.
  - apply Qle_refl.
Qed.

Lemma max_ge_r (a b : Q) : b <= Py.max a b.
Proof.
  unfold Py.max. destruct (Py.ltb a b) eqn:E.
  - apply Qle_refl.
  - now apply ltb_ge in E.
Qed.

Lemma max_lub (a b c : Q) : a <= c -> b <= c -> Py.max a b <= c.
Proof. intros Ha Hb. unfold Py.max. now destruct (Py.ltb a b). Qed.

(** The clamp [max(lo, min(hi, x))] stays in [[lo, hi]]. *)
Lemma clamp_bounds (lo hi x : Q) :
  lo <= hi -> lo <= Py.max lo (Py.min hi x) <= hi.
Proof.
  intros H. split.
  - apply max_ge_l.
  - apply max_lub; [exact H | apply min_le_l].
Qed.

(** *** [sum] *)

Lemma fold_plus_shift (xs : list Q) (a : Q) :
  fold_left Qplus xs a == a + fold_left Qplus xs 0.
Proof.
  revert a. induction xs as [|x xs IH]; intros a; simpl.
  - ring.
  - rewrite (IH (a + x)), (IH (0 + x)). ring.
Qed.

Lemma sum_nil : Py.sum [] = 0.
Proof. reflexivity. Qed.

Lemma sum_cons (x : Q) (xs : list Q) : Py.sum (x :: xs) == x + Py.sum xs.
Proof.
  unfold Py.sum. simpl. rewrite fold_plus_shift. ring.
Qed.

Lemma sum_app (xs ys : list Q) : Py.sum (xs ++ ys) == Py.sum xs + Py.sum ys.
Proof.
  induction xs as [|x xs IH]; simpl.
  - rewrite sum_nil. ring.
  - rewrite !sum_cons, IH. ring.
Qed.

(** *** [round] *)

Lemma round_half_even_comp (x y : Q) :
  x == y -> Py.round_half_even x = Py.round_half_even y.
Proof.
  intros H. unfold Py.round_half_even. cbv zeta.
  rewrite (Qfloor_comp _ _ H).
  assert (E : x - inject_Z (Qfloor y) == y - inject_Z (Qfloor y))
    by now rewrite H.
  rewrite (ltb_comp _ _ E (1 # 2) (1 # 2) (Qeq_refl _)).
  now rewrite (ltb_comp (1 # 2) (1 # 2) (Qeq_refl _) _ _ E).
Qed.

Lemma round_comp (x y : Q) (n : nat) : x == y -> Py.round x n = Py.round y n.
Proof.
  intros H. unfold Py.round. destruct n.
  - now rewrite (round_half_even_comp _ _ H).
  - set (k := inject_Z _).
    assert (E : x * k == y * k) by now rewrite H.
    now rewrite (round_half_even_comp _ _ E).
Qed.

(** Rounding never crosses an integer: it is at least any integer below
    its argument and at most any integer above it. *)
Lemma round_half_even_ge (k : Z) (x : Q) :
  inject_Z k <= x -> (k <= Py.round_half_even x)%Z.
Proof.
  intros H. assert (F : (k <= Qfloor x)%Z).
  { rewrite <- (Qfloor_Z k). now apply Qfloor_resp_le. }
  unfold Py.round_half_even.
  destruct (Py.ltb _ _); [lia|].
  destruct (Py.ltb _ _); [lia|].
  destruct (Z.even _); lia.
Qed.

Lemma round_half_even_le (k : Z) (x : Q) :
  x <= inject_Z k -> (Py.round_half_even x <= k)%Z.
Proof.
  intros H.
  assert (Hf := Qfloor_le x). assert (Hc := Qlt_floor x).
  assert (F : (Qfloor x <= k)%Z).
  { rewrite Zle_Qle. now apply Qle_trans with x. }
  destruct (Z.eq_dec (Qfloor x) k) as [E|NE].
  - (* x is the integer k *)
    assert (X : x - inject_Z (Qfloor x) == 0).
    { rewrite E in *. assert (x == inject_Z k) by now apply Qle_antisym.
      lra. }
    unfold Py.round_half_even.
    assert (L : Py.ltb (x - inject_Z (Qfloor x)) (1 # 2) = true).
    { apply ltb_lt. rewrite X. reflexivity. }
    rewrite L. lia.
  - unfold Py.round_half_even.
    destruct (Py.ltb _ _); [lia|].
    destruct (Py.ltb _ _); [lia|].
    destruct (Z.even _); lia.
Qed.

Lemma round_half_even_Z (k : Z) : Py.round_half_even (inject_Z k) = k.
Proof.
  apply Z.le_antisymm.
  - apply round_half_even_le, Qle_refl.
  - apply round_half_even_ge, Qle_refl.
Qed.

(** *** [sort] *)

Section SortFacts.
Context {A : Type} (before : A -> A -> bool).

Lemma insert_perm (x : A) (ys : list A) :
  Permutation (Py.insert before x ys) (x :: ys).
Proof.
  induction ys as [|y ys IH]; simpl.
  - reflexivity.
  - destruct (before y x).
    + rewrite IH. apply perm_swap.
    + reflexivity.
Qed.

Lemma sort_perm (xs : list A) : Permutation (Py.sort before xs) xs.
Proof.
  induction xs as [|x xs IH]; simpl.
  - reflexivity.
  - unfold Py.sort in *. simpl. rewrite insert_perm. now constructor.
Qed.

Lemma sort_In (x : A) (xs : list A) : In x (Py.sort before xs) <-> In x xs.
Proof.
  split; apply Permutation_in; [|symmetry]; apply sort_perm.
Qed.

Lemma sort_nil_iff (xs : list A) : Py.sort before xs = [] <-> xs = [].
Proof.
  split; intros H.
  - apply Permutation_nil. rewrite <- H. apply sort_perm.
  - now subst.
Qed.
End SortFacts.

(** Sorting integers with [<] as the key order gives an ascending list. *)
Lemma insert_ascending (x : Z) (ys : list Z) :
  StronglySorted Z.le ys -> StronglySorted Z.le (Py.insert Z.ltb x ys).
Proof.
  induction 1 as [|y ys Hs IH Hall]; simpl.
  - repeat constructor.
  - destruct (Z.ltb_spec y x) as [Hlt|Hge].
    + constructor; [exact IH|].
      apply Forall_forall. intros u Hu.
      apply (Permutation_in _ (insert_perm Z.ltb x ys)) in Hu.
      destruct Hu as [<-|Hu]; [lia|].
      now apply (proj1 (Forall_forall _ _) Hall).
    + constructor; [now constructor|].
      constructor; [exact Hge|].
      eapply Forall_impl; [|exact Hall]. simpl. intros; lia.
Qed.

Lemma sort_ascending (xs : list Z) : StronglySorted Z.le (Py.sort Z.ltb xs).
Proof.
  induction xs as [|x xs IH]; [constructor|].
  unfold Py.sort in *. simpl. now apply insert_ascending.
Qed.

Lemma ascending_head_min (t : Z) (ts : list Z) :
  StronglySorted Z.le (t :: ts) -> forall u, In u (t :: ts) -> (t <= u)%Z.
Proof.
  intros H u [<-|Hu]; [lia|].
  apply StronglySorted_inv in H. destruct H as [_ H].
  now apply (proj1 (Forall_forall _ _) H).
Qed.

Lemma ascending_last_max (ts : list Z) (d : Z) :
  StronglySorted Z.le ts -> forall u, In u ts -> (u <= last ts d)%Z.
Proof.
  induction 1 as [|t ts Hs IH Hall]; intros u Hu; [destruct Hu|].
  destruct ts as [|t' ts'].
  - destruct Hu as [<-|[]]. simpl. lia.
  - change (last (t :: t' :: ts') d) with (last (t' :: ts') d).
    destruct Hu as [<-|Hu].
    + apply Z.le_trans with t'.
      * now inversion Hall.
      * apply IH. now left.
    + now apply IH.
Qed.

Lemma last_In (ts : list Z) (d : Z) : ts <> [] -> In (last ts d) ts.
Proof.
  induction ts as [|t ts IH]; [congruence|]. intros _.
  destruct ts as [|t' ts'].
  - now left.
  - right. apply IH. discriminate.
Qed.

End PyFacts.

(* ================================================================== *)
(** ** Binary64 rounding *)

Module B64Facts.

Lemma flog2_comp (x y : Q) : x == y -> B64.flog2 x = B64.flog2 y.
Proof.
  intros H. unfold B64.flog2.
  rewrite (Qleb_comp 1 1 (Qeq_refl 1) x y H), (Qfloor_comp _ _ H).
  assert (I : / x == / y) by now rewrite H.
  now rewrite (Qceiling_comp _ _ I).
Qed.

Lemma rnd_pos_comp (x y : Q) : x == y -> B64.rnd_pos x = B64.rnd_pos y.
Proof.
  intros H. unfold B64.rnd_pos, B64.ulp_exp. rewrite (flog2_comp _ _ H).
  set (e := Z.max _ _).
  assert (E : x / 2 ^ e == y / 2 ^ e) by now rewrite H.
  cbv zeta. now rewrite (PyFacts.round_half_even_comp _ _ E).
Qed.

(** Equal numbers round to the same float. *)
Lemma rnd_comp (x y : Q) : x == y -> B64.rnd x = B64.rnd y.
Proof.
  intros H. unfold B64.rnd.
  rewrite (Qcompare_comp x y H 0 0 (Qeq_refl 0)).
  assert (N : - x == - y) by now rewrite H.
  now rewrite (rnd_pos_comp _ _ H), (rnd_pos_comp _ _ N).
Qed.

Lemma pow2_pos (e : Z) : 0 < 2 ^ e.
Proof. apply Qpower_0_lt. reflexivity. Qed.

Lemma pow2_le (a b : Z) : (a <= b)%Z -> 2 ^ a <= 2 ^ b.
Proof. intros H. apply Qpower_le_compat_l; [exact H|discriminate]. Qed.

Lemma pow2_Z (n : Z) : (0 <= n)%Z -> 2 ^ n == inject_Z (2 ^ n).
Proof. intros H. now rewrite Zpower_Qpower. Qed.

(** A positive number is at least the power of two of its binade. *)
Lemma flog2_le (x : Q) : 0 < x -> 2 ^ B64.flog2 x <= x.
Proof.
  intros Hx. unfold B64.flog2. destruct (Qle_bool 1 x) eqn:E.
  - apply Qle_bool_iff in E.
    assert (F : (1 <= Qfloor x)%Z).
    { rewrite <- (Qfloor_Z 1). now apply Qfloor_resp_le. }
    destruct (Z.log2_spec (Qfloor x)) as [L _]; [lia|].
    apply Qle_trans with (inject_Z (Qfloor x)); [|apply Qfloor_le].
    rewrite pow2_Z by apply Z.log2_nonneg. now rewrite <- Zle_Qle.
  - assert (X : x < 1).
    { apply Qnot_le_lt. intros C. apply Qle_bool_iff in C. congruence. }
    set (c := Qceiling (/ x)).
    assert (I : 1 < / x).
    { apply Qlt_shift_inv_l; [exact Hx|]. now rewrite Qmult_1_l. }
    assert (C : (1 < c)%Z).
    { rewrite Zlt_Qlt. apply Qlt_le_trans with (/ x); [exact I|].
      apply Qle_ceiling. }
    destruct (Z.log2_up_spec c C) as [_ U].
    assert (P : / x <= 2 ^ Z.log2_up c).
    { apply Qle_trans with (inject_Z c); [apply Qle_ceiling|].
      rewrite pow2_Z by apply Z.log2_up_nonneg. now rewrite <- Zle_Qle. }
    rewrite Qpower_opp.
    apply Qle_shift_inv_r; [apply pow2_pos|].
    apply (Qmult_le_l _ _ x Hx) in P.
    rewrite Qmult_inv_r in P by (intros Z0; rewrite Z0 in Hx; discriminate).
    exact P.
Qed.

Lemma ulp_le (x : Q) : 2 ^ (-1074) <= x -> 2 ^ B64.ulp_exp x <= x.
Proof.
  intros H. unfold B64.ulp_exp.
  destruct (Z.max_spec (-1074) (B64.flog2 x - 52)) as [[_ ->]|[_ ->]].
  - apply Qle_trans with (2 ^ B64.flog2 x); [apply pow2_le; lia|].
    apply flog2_le. apply Qlt_le_trans with (2 ^ (-1074)); [apply pow2_pos|exact H].
  - exact H.
Qed.

Lemma round_half_even_ge_half (y : Q) :
  1 <= y -> y / 2 <= inject_Z (Py.round_half_even y).
Proof.
  intros H.
  assert (F : (1 <= Qfloor y)%Z).
  { rewrite <- (Qfloor_Z 1). now apply Qfloor_resp_le. }
  pose proof (PyFacts.round_half_even_ge (Qfloor y) y (Qfloor_le y)) as R.
  pose proof (Qlt_floor y) as U.
  rewrite Zle_Qle in F, R. rewrite inject_Z_plus in U.
  change (inject_Z 1) with 1 in *.
  apply Qle_shift_div_r; [reflexivity|]. lra.
Qed.

(** Rounding a number of the range of the floats loses less than half
    of it. *)
Lemma rnd_ge_half (x : Q) : 2 ^ (-1074) <= x -> x * (1 # 2) <= B64.rnd x.
Proof.
  intros H. change (x / 2 <= B64.rnd x).
  assert (Hx : 0 < x)
    by (apply Qlt_le_trans with (2 ^ (-1074)); [apply pow2_pos|exact H]).
  unfold B64.rnd. rewrite (proj1 (Qgt_alt _ _) Hx), Qred_correct.
  unfold B64.rnd_pos. cbv zeta.
  pose proof (ulp_le x H) as U. set (e := B64.ulp_exp x) in *.
  pose proof (pow2_pos e) as P.
  assert (Y : 1 <= x / 2 ^ e).
  { apply Qle_shift_div_l; [exact P|]. now rewrite Qmult_1_l. }
  apply round_half_even_ge_half in Y.
  apply (Qmult_le_r _ _ (2 ^ e) P) in Y.
  apply Qle_trans with (x / 2 ^ e / 2 * 2 ^ e); [|exact Y].
  apply Qle_lteq. right. field.
  intros Z0. rewrite Z0 in P. discriminate.
Qed.

Lemma rnd_ge_half_of (x : Q) : 1 # 1024 <= x -> x * (1 # 2) <= B64.rnd x.
Proof.
  intros H. apply rnd_ge_half.
  apply Qle_trans with (2 ^ (-10)); [apply pow2_le; lia|].
  apply Qle_trans with (1 # 1024); [|exact H]. apply Qle_lteq. right. reflexivity.
Qed.

(** *** Values that Python prints

    [0.1 + 0.2] is [0.30000000000000004], the float above [0.3];
    [sum([0.1, 0.2, 0.3])] is [0.6000000000000001] and
    [sum([0.3, 0.2, 0.1])] is [0.6]; [math.sqrt(2)] is
    [1.4142135623730951]; [round(2.675, 2)] is [2.67] and
    [round(1.871 * 0.5, 3)] is [0.935], the floats being below the
    decimal ties; half of the smallest float is [0.0]. *)

Example rnd_tenth : B64.rnd 0.1 = 3602879701896397 # 36028797018963968.
Proof. vm_compute. reflexivity. Qed.

Example add_tenths :
  B64.add (B64.rnd 0.1) (B64.rnd 0.2) = 1351079888211149 # 4503599627370496
  /\ B64.rnd 0.3 = 5404319552844595 # 18014398509481984.
Proof. vm_compute. split; reflexivity. Qed.

Example sum_in_two_orders :
  B64.sum [B64.rnd 0.1; B64.rnd 0.2; B64.rnd 0.3]
  = 1351079888211149 # 2251799813685248
  /\ B64.sum [B64.rnd 0.3; B64.rnd 0.2; B64.rnd 0.1] = B64.rnd 0.6.
Proof. vm_compute. split; reflexivity. Qed.

Example sqrt_values :
  B64.sqrt 2 = 6369051672525773 # 4503599627370496
  /\ B64.sqrt 4 = 2
  /\ B64.sqrt (B64.rnd 0.01) = B64.rnd 0.1.
Proof. vm_compute. repeat split. Qed.

Example round_values :
  B64.round (B64.rnd 2.675) 2 = B64.rnd 2.67
  /\ B64.round (B64.rnd 0.125) 2 = B64.rnd 0.12
  /\ B64.round (B64.mul (B64.rnd 1.871) (B64.rnd 0.5)) 3 = B64.rnd 0.935.
Proof. vm_compute. repeat split. Qed.

Example underflow : B64.div (2 ^ (-1074)) 2 = 0.
Proof. vm_compute. reflexivity. Qed.

End B64Facts.

(* ================================================================== *)
(** ** The aggregator *)

Module AggregateFacts.
Import Aggregate.


(** *** The dictionary *)

Lemma lookup_update_same (k : string) f (ms : Markets) :
  lookup k (update k f ms)
  = Some (f (match lookup k ms with Some m => m | None => Market.empty end)).
Proof.
  induction ms as [|[k' m] ms IH]; simpl.
  - now rewrite String.eqb_refl.
  - destruct (String.eqb k k') eqn:E; simpl; rewrite E; [reflexivity|exact IH].
Qed.

Lemma lookup_update_other (k k' : string) f (ms : Markets) :
  k <> k' -> lookup k (update k' f ms) = lookup k ms.
Proof.
  intros N. induction ms as [|[k'' m] ms IH]; simpl.
  - apply String.eqb_neq in N. now rewrite N.
  - destruct (String.eqb k' k'') eqn:E; simpl.
    + apply String.eqb_eq in E. subst k''.
      apply String.eqb_neq in N. now rewrite N.
    + now rewrite IH.
Qed.

Lemma update_keys (k : string) f (ms : Markets) :
  map fst (update k f ms)
  = if existsb (String.eqb k) (map fst ms) then map fst ms
    else map fst ms ++ [k].
Proof.
  induction ms as [|[k' m] ms IH]; simpl.
  - reflexivity.
  - destruct (String.eqb k k') eqn:E; simpl; [reflexivity|].
    rewrite IH. now destruct (existsb _ _).
Qed.

Lemma update_NoDup (k : string) f (ms : Markets) :
  NoDup (map fst ms) -> NoDup (map fst (update k f ms)).
Proof.
  intros H. rewrite update_keys.
  destruct (existsb _ _) eqn:E; [exact H|].
  apply NoDup_app; [exact H | repeat constructor; intros [] | ].
  intros x Hx [->|[]].
  assert (T : existsb (String.eqb x) (map fst ms) = true).
  { apply existsb_exists. exists x. split; [exact Hx|apply String.eqb_refl]. }
  congruence.
Qed.

Lemma fold_step_NoDup (l : list Fill.t) (acc : Markets) :
  NoDup (map fst acc) -> NoDup (map fst (fold_left step l acc)).
Proof.
  revert acc. induction l as [|t l IH]; intros acc H; simpl.
  - exact H.
  - apply IH. now apply update_NoDup.
Qed.

Lemma group_NoDup (l : list Fill.t) : NoDup (map fst (group l)).
Proof. apply fold_step_NoDup. constructor. Qed.

Lemma lookup_In (k : string) (m : Market.t) (ms : Markets) :
  lookup k ms = Some m -> In (k, m) ms.
Proof.
  induction ms as [|[k' m'] ms IH]; simpl; [discriminate|].
  destruct (String.eqb_spec k k') as [<-|N].
  - intros [= ->]. now left.
  - intros H. right. now apply IH.
Qed.

Lemma In_lookup (k : string) (m : Market.t) (ms : Markets) :
  NoDup (map fst ms) -> In (k, m) ms -> lookup k ms = Some m.
Proof.
  induction ms as [|[k' m'] ms IH]; simpl; [intros _ []|].
  intros H [[= -> ->]|Hin].
  - now rewrite String.eqb_refl.
  - inversion H as [|? ? Hnotin Hnd]; subst.
    destruct (String.eqb_spec k k') as [<-|N].
    + exfalso. apply Hnotin. now apply (in_map fst) in Hin.
    + now apply IH.
Qed.

(** The accumulator of key [k] after the first loop has run over [l],
    started from the dictionary [acc]. *)
Lemma lookup_fold_step (k : string) (l : list Fill.t) (acc : Markets) :
  lookup k (fold_left step l acc)
  = match fills_of k l with
    | [] => lookup k acc
    | ts => Some (absorb_all ts
                    (match lookup k acc with
                     | Some m => m | None => Market.empty end))
    end.
Proof.
  revert acc. induction l as [|t l IH]; intros acc; simpl.
  - reflexivity.
  - rewrite IH. unfold step.
    destruct (String.eqb_spec (key_of t) k) as [E|N].
    + subst k. rewrite lookup_update_same.
      now destruct (fills_of (key_of t) l).
    + rewrite lookup_update_other by congruence. reflexivity.
Qed.

Lemma lookup_group (k : string) (l : list Fill.t) :
  lookup k (group l)
  = match fills_of k l with
    | [] => None
    | ts => Some (absorb_all ts Market.empty)
    end.
Proof. unfold group. now rewrite lookup_fold_step. Qed.

(** *** The buckets *)

Lemma absorb_buckets (t : Fill.t) (m : Market.t) :
  Market.buys (absorb t m) = Market.buys m ++ bucket_entries Buy [t]
  /\ Market.sells (absorb t m) = Market.sells m ++ bucket_entries Sell [t]
  /\ Market.redemptions (absorb t m)
     = Market.redemptions m ++ bucket_entries Redemption [t].
Proof.
  unfold absorb, bucket_entries, bucket_of. simpl.
  destruct (String.eqb (ttype_of t) "REDEMPTION");
    [|destruct (String.eqb (Fill.side t) "BUY");
      [|destruct (String.eqb (Fill.side t) "SELL")]];
    simpl; now rewrite ?app_nil_r.
Qed.

Lemma bucket_entries_cons (b : Bucket) (t : Fill.t) (ts : list Fill.t) :
  bucket_entries b (t :: ts) = bucket_entries b [t] ++ bucket_entries b ts.
Proof.
  unfold bucket_entries. simpl.
  now destruct (bucket_eqb (bucket_of t) b).
Qed.

Lemma absorb_all_buckets (ts : list Fill.t) (m : Market.t) :
  Market.buys (absorb_all ts m) = Market.buys m ++ bucket_entries Buy ts
  /\ Market.sells (absorb_all ts m) = Market.sells m ++ bucket_entries Sell ts
  /\ Market.redemptions (absorb_all ts m)
     = Market.redemptions m ++ bucket_entries Redemption ts.
Proof.
  revert m. induction ts as [|t ts IH]; intros m.
  - unfold bucket_entries. simpl. now rewrite !app_nil_r.
  - change (absorb_all (t :: ts) m) with (absorb_all ts (absorb t m)).
    destruct (IH (absorb t m)) as (Hb & Hs & Hr).
    destruct (absorb_buckets t m) as (Hb' & Hs' & Hr').
    rewrite Hb, Hs, Hr, Hb', Hs', Hr'.
    rewrite !(bucket_entries_cons _ t ts), <- !app_assoc. auto.
Qed.

Lemma str_or_nonempty (x y : string) : y <> ""%string -> str_or x y <> ""%string.
Proof.
  unfold str_or. destruct (String.eqb_spec x ""); auto.
Qed.

Lemma title_of_nonempty (t : Fill.t) : title_of t <> ""%string.
Proof.
  apply str_or_nonempty, str_or_nonempty. discriminate.
Qed.

(** The title kept by the accumulator is the one of the fill absorbed
    last: [title] is never empty, so [title or m["title"]] is [title]. *)
Lemma absorb_title (t : Fill.t) (m : Market.t) :
  Market.title (absorb t m) = title_of t.
Proof.
  assert (E : str_or (title_of t) (Market.title m) = title_of t).
  { unfold str_or at 1. destruct (String.eqb_spec (title_of t) "") as [E|_].
    - now destruct (title_of_nonempty t).
    - reflexivity. }
  unfold absorb. cbv zeta. rewrite E.
  destruct (String.eqb _ _); [reflexivity|].
  destruct (String.eqb _ _); [reflexivity|].
  destruct (String.eqb _ _); reflexivity.
Qed.

Lemma absorb_all_snoc (ts : list Fill.t) (t : Fill.t) (m : Market.t) :
  absorb_all (ts ++ [t]) m = absorb t (absorb_all ts m).
Proof. unfold absorb_all. now rewrite fold_left_app. Qed.

Lemma absorb_all_title (ts : list Fill.t) (m : Market.t) (d : Fill.t) :
  ts <> [] -> Market.title (absorb_all ts m) = title_of (last ts d).
Proof.
  intros H. rewrite (app_removelast_last d H) at 1.
  now rewrite absorb_all_snoc, absorb_title.
Qed.

(** *** The positions of the result *)

Lemma position_at_Some (k : string) (l : list Fill.t) (p : Position.t) :
  position_at k l = Some p <->
  fills_of k l <> [] /\ p = summarize (absorb_all (fills_of k l) Market.empty).
Proof.
  unfold position_at. rewrite lookup_group.
  destruct (fills_of k l) eqn:E; simpl.
  - split; [discriminate | intros [H _]; congruence].
  - split.
    + intros [= <-]. split; [discriminate|reflexivity].
    + intros [_ ->]. reflexivity.
Qed.

Lemma position_at_buckets (k : string) (l : list Fill.t) (m : Market.t) :
  lookup k (group l) = Some m ->
  Market.buys m = buys_of k l /\ Market.sells m = sells_of k l
  /\ Market.redemptions m = redemptions_of k l.
Proof.
  rewrite lookup_group. unfold buys_of, sells_of, redemptions_of.
  destruct (fills_of k l) as [|t ts]; [discriminate|].
  intros [= <-]. apply (absorb_all_buckets (t :: ts) Market.empty).
Qed.

(** Every element of the result is the position of some key, and the
    position of every key that occurs is in the result. *)
Lemma aggregate_trades_In (l : list Fill.t) (p : Position.t) :
  In p (aggregate_trades l) <-> exists k, position_at k l = Some p.
Proof.
  unfold aggregate_trades, keyed_results, position_at.
  rewrite PyFacts.sort_In, map_map, in_map_iff. simpl. split.
  - intros ([k m] & <- & Hin). exists k. simpl.
    now rewrite (In_lookup _ _ _ (group_NoDup l) Hin).
  - intros (k & H).
    destruct (lookup k (group l)) as [m|] eqn:E; [|discriminate].
    injection H as <-. exists (k, m). split; [reflexivity|].
    now apply lookup_In.
Qed.

(** *** Status *)

Lemma is_nil_false {A} (l : list A) : is_nil l = false <-> l <> [].
Proof. destruct l; simpl; split; congruence. Qed.

Lemma status_of_closed_iff (m : Market.t) :
  status_of m = closed <->
  Market.redemptions m <> []
  \/ (0.9 * buy_size_of m <= sell_size_of m /\ 0 < buy_size_of m).
Proof.
  unfold status_of.
  destruct (is_nil (Market.redemptions m)) eqn:R; simpl.
  - assert (N : ~ Market.redemptions m <> []).
    { destruct (Market.redemptions m); [congruence|discriminate]. }
    destruct (Py.leb _ _ && Py.ltb _ _) eqn:E.
    + apply andb_true_iff in E. destruct E as [E1 E2].
      apply PyFacts.leb_le in E1. apply PyFacts.ltb_lt in E2.
      split; [intros _; right; split; [lra|exact E2] | reflexivity].
    + split; [discriminate|]. intros [H|[H1 H2]]; [contradiction|].
      apply andb_false_iff in E. destruct E as [E|E].
      * apply PyFacts.leb_gt in E. lra.
      * apply PyFacts.ltb_ge in E. lra.
  - apply is_nil_false in R. split; [now left|reflexivity].
Qed.

Lemma status_open_iff (s : Status) : s = open <-> s <> closed.
Proof. destruct s; split; congruence. Qed.

(** *** The keys under a reordering *)


(** The keys of the dictionary are the keys that occur among the fills. *)
Lemma group_keys (l : list Fill.t) (k : string) :
  In k (map fst (group l)) <-> fills_of k l <> [].
Proof.
  pose proof (lookup_group k l) as L. split.
  - intros Hin. apply in_map_iff in Hin. destruct Hin as ([k' m] & <- & Hin).
    simpl in *. rewrite (In_lookup _ _ _ (group_NoDup l) Hin) in L.
    destruct (fills_of k' l); [discriminate|discriminate].
  - intros N. destruct (fills_of k l) as [|t ts]; [congruence|].
    apply lookup_In in L. now apply (in_map fst) in L.
Qed.


(** *** First and last trade *)

Lemma all_ts_of_group (k : string) (l : list Fill.t) (m : Market.t) :
  lookup k (group l) = Some m -> all_ts_of m = Py.sort Z.ltb (stamped_ts k l).
Proof.
  intros E. destruct (position_at_buckets _ _ _ E) as (Hb & Hs & Hr).
  unfold all_ts_of, stamped_ts, constituent_ts. now rewrite Hb, Hs, Hr.
Qed.

Lemma is_min_unique (ts : list Z) (a b : Z) :
  is_min a ts -> is_min b ts -> a = b.
Proof.
  intros [Ha Hla] [Hb Hlb]. apply Z.le_antisymm; auto.
Qed.

Lemma is_max_unique (ts : list Z) (a b : Z) :
  is_max a ts -> is_max b ts -> a = b.
Proof.
  intros [Ha Hla] [Hb Hlb]. apply Z.le_antisymm; auto.
Qed.

(** The ends of the sorted list are the extrema of the list. *)
Lemma sorted_ends (ts : list Z) (t : Z) (rest : list Z) :
  Py.sort Z.ltb ts = t :: rest ->
  is_min t ts /\ is_max (last (t :: rest) 0%Z) ts.
Proof.
  intros E. pose proof (PyFacts.sort_ascending ts) as S. rewrite E in S.
  split; split.
  - apply (PyFacts.sort_In Z.ltb). rewrite E. now left.
  - intros u Hu. apply (PyFacts.ascending_head_min _ _ S).
    rewrite <- E. now apply PyFacts.sort_In.
  - apply (PyFacts.sort_In Z.ltb). rewrite E.
    apply PyFacts.last_In. discriminate.
  - intros u Hu. apply (PyFacts.ascending_last_max _ _ S).
    rewrite <- E. now apply PyFacts.sort_In.
Qed.

(** C8, as the code has it.  [firstTrade] and [lastTrade] render the
    minimum and the maximum of the timestamps that are set (not [0]) among
    the buys, sells and redemptions of the position; both are empty when no
    constituent fill has a timestamp. *)
Theorem C8_first_last_trade (l : list Fill.t) (k : string) (p : Position.t) :
  position_at k l = Some p ->
  (stamped_ts k l = [] ->
   Position.firstTrade p = ""%string /\ Position.lastTrade p = ""%string)
  /\ (stamped_ts k l <> [] ->
      exists lo hi, is_min lo (stamped_ts k l) /\ is_max hi (stamped_ts k l))
  /\ (forall lo hi,
        is_min lo (stamped_ts k l) -> is_max hi (stamped_ts k l) ->
        Position.firstTrade p = ts_to_iso lo
        /\ Position.lastTrade p = ts_to_iso hi).
Proof.
  unfold position_at.
  destruct (lookup k (group l)) as [m|] eqn:E; [|discriminate].
  intros [= <-]. pose proof (all_ts_of_group _ _ _ E) as T.
  unfold summarize. cbn [Position.firstTrade Position.lastTrade].
  rewrite T. clear T.
  destruct (Py.sort Z.ltb (stamped_ts k l)) as [|t rest] eqn:S.
  - apply PyFacts.sort_nil_iff in S. rewrite S. split; [|split].
    + auto.
    + congruence.
    + intros lo hi [[] _].
  - destruct (sorted_ends _ _ _ S) as [Hmin Hmax]. split; [|split].
    + intros N. rewrite N in S. discriminate.
    + intros _. now exists t, (last (t :: rest) 0%Z).
    + intros lo hi Hlo Hhi.
      now rewrite (is_min_unique _ _ _ Hlo Hmin), (is_max_unique _ _ _ Hhi Hmax).
Qed.

Lemma C8_first_last_trade_witness :
  position_at "will-it-rain|Yes" Samples.unstamped_buy
  = Some (summarize (absorb_all Samples.unstamped_buy Market.empty))
  /\ stamped_ts "will-it-rain|Yes" Samples.unstamped_buy = [1700003600%Z]
  /\ Position.firstTrade (summarize (absorb_all Samples.unstamped_buy Market.empty))
     = ts_to_iso 1700003600.
Proof.
  assert (H : position_at "will-it-rain|Yes" Samples.unstamped_buy
              = Some (summarize (absorb_all Samples.unstamped_buy Market.empty)))
    by reflexivity.
  split; [exact H|]. split; [reflexivity|].
  destruct (C8_first_last_trade _ _ _ H) as (_ & _ & R).
  apply (R 1700003600%Z 1700003600%Z); split; simpl; intuition lia.
Defined.

(** A buy without a timestamp and a sell at 1700003600: the minimum over
    all the constituent fills is [0], and [firstTrade] is the sell's time. *)
Lemma C8_counterexample : ~ Stated.first_last_over_all_fills.
Proof.
  intros C.
  destruct (C Samples.unstamped_buy "will-it-rain|Yes"%string
              (summarize (absorb_all Samples.unstamped_buy Market.empty))
              0%Z 1700003600%Z) as [F _].
  - reflexivity.
  - split; simpl; intuition lia.
  - split; simpl; intuition lia.
  - vm_compute in F. discriminate.
Qed.

Example unstamped_buy_first_trade :
  map Position.firstTrade (aggregate_trades Samples.unstamped_buy)
  = ["2023-11-14T23:13:20Z"%string].
Proof. reflexivity. Qed.

(** *** Keys without constituent fills *)

Lemma bucket_of_dropped (t : Fill.t) :
  bucket_of t = Dropped <->
  ttype_of t <> "REDEMPTION"%string
  /\ Fill.side t <> "BUY"%string /\ Fill.side t <> "SELL"%string.
Proof.
  unfold bucket_of.
  destruct (String.eqb_spec (ttype_of t) "REDEMPTION");
    [|destruct (String.eqb_spec (Fill.side t) "BUY");
      [|destruct (String.eqb_spec (Fill.side t) "SELL")]];
    split; try discriminate; intuition congruence.
Qed.

Lemma bucket_entries_dropped (b : Bucket) (ts : list Fill.t) :
  Forall (fun t => bucket_of t = Dropped) ts -> b <> Dropped ->
  bucket_entries b ts = [].
Proof.
  intros H N. unfold bucket_entries.
  induction H as [|t ts Ht _ IH]; simpl; [reflexivity|].
  rewrite Ht. destruct b; simpl; congruence.
Qed.

Lemma summarize_fill_less (m : Market.t) :
  Market.buys m = [] -> Market.sells m = [] -> Market.redemptions m = [] ->
  fill_less (summarize m).
Proof.
  destruct m as [b s r ti o sl]. simpl. intros -> -> ->.
  repeat split.
Qed.

(** C10, as the code has it.  A key all of whose fills are neither
    redemptions nor buys nor sells still has a position in the result: it
    has no trades, is open, with zero P&L and totals and empty first and
    last trade.  A later title replaces an earlier one: when the last
    fill of the key has a title, the position carries that title. *)
Theorem C10_dropped_key_position (l : list Fill.t) (k : string) (d : Fill.t) :
  fills_of k l <> [] -> all_dropped k l ->
  exists p,
    position_at k l = Some p /\ In p (aggregate_trades l) /\ fill_less p
    /\ (Fill.title (last (fills_of k l) d) <> ""%string ->
        Position.market p = Fill.title (last (fills_of k l) d)).
Proof.
  intros N D.
  set (m := absorb_all (fills_of k l) Market.empty).
  assert (P : position_at k l = Some (summarize m))
    by now apply position_at_Some.
  exists (summarize m). split; [exact P|]. split; [|split].
  - apply aggregate_trades_In. now exists k.
  - destruct (absorb_all_buckets (fills_of k l) Market.empty) as (Hb & Hs & Hr).
    apply summarize_fill_less; fold m in Hb, Hs, Hr.
    + rewrite Hb. now apply bucket_entries_dropped.
    + rewrite Hs. now apply bucket_entries_dropped.
    + rewrite Hr. now apply bucket_entries_dropped.
  - intros T. change (Position.market (summarize m)) with (Market.title m).
    unfold m. rewrite (absorb_all_title _ _ d N).
    unfold title_of, str_or.
    destruct (String.eqb_spec (Fill.title (last (fills_of k l) d)) "");
      [contradiction|reflexivity].
Qed.

Lemma C10_dropped_key_position_witness :
  fills_of "will-it-rain|Yes" Samples.retitled <> []
  /\ all_dropped "will-it-rain|Yes" Samples.retitled
  /\ exists p,
       position_at "will-it-rain|Yes" Samples.retitled = Some p
       /\ In p (aggregate_trades Samples.retitled) /\ fill_less p
       /\ Position.market p = "Rain tomorrow?"%string.
Proof.
  assert (N : fills_of "will-it-rain|Yes" Samples.retitled <> [])
    by (vm_compute; discriminate).
  assert (D : all_dropped "will-it-rain|Yes" Samples.retitled)
    by (repeat constructor).
  split; [exact N|]. split; [exact D|].
  destruct (C10_dropped_key_position Samples.retitled "will-it-rain|Yes"
              (Samples.fill "" 0 0 0 0 "") N D) as (p & P & I & F & T).
  exists p. split; [exact P|]. split; [exact I|]. split; [exact F|].
  apply T. vm_compute. discriminate.
Defined.

(** Two dropped fills of one key titled "Rain?" and then "Rain tomorrow?":
    the position carries the second title, not the first. *)
Lemma C10_counterexample : ~ Stated.dropped_key_keeps_first_title.
Proof.
  intros C.
  destruct (C Samples.retitled "will-it-rain|Yes"%string)
    as (p & P & _ & _ & T).
  - vm_compute. discriminate.
  - repeat constructor.
  - vm_compute in P. injection P as <-. vm_compute in T. discriminate.
Qed.

Example retitled_market :
  map Position.market (aggregate_trades Samples.retitled)
  = ["Rain tomorrow?"%string].
Proof. reflexivity. Qed.

End AggregateFacts.

(* ================================================================== *)
(** ** The aggregator, with the arithmetic of floats *)

Module Aggregate64Facts.
Import Aggregate.

Lemma markets_buckets (k : string) (l : list Fill.t) (m : Market.t) :
  lookup k (Aggregate64.markets l) = Some m ->
  Market.buys m = Aggregate64.entries Buy k l
  /\ Market.sells m = Aggregate64.entries Sell k l
  /\ Market.redemptions m = Aggregate64.entries Redemption k l.
Proof. apply AggregateFacts.position_at_buckets. Qed.

(** Every element of the result is the position of some key, and the
    position of every key that occurs is in the result. *)
Lemma float_result_In (l : list Fill.t) (p : Position.t) :
  In p (Aggregate64.aggregate_trades l)
  <-> exists k, Aggregate64.position_at k l = Some p.
Proof.
  unfold Aggregate64.aggregate_trades, Aggregate64.keyed_results,
    Aggregate64.position_at.
  rewrite PyFacts.sort_In, map_map, in_map_iff. simpl. split.
  - intros ([k m] & <- & Hin). exists k. simpl.
    unfold Aggregate64.markets in *.
    now rewrite (AggregateFacts.In_lookup _ _ _
                   (AggregateFacts.group_NoDup _) Hin).
  - intros (k & H).
    destruct (lookup k (Aggregate64.markets l)) as [m|] eqn:E; [|discriminate].
    injection H as <-. exists (k, m). split; [reflexivity|].
    now apply AggregateFacts.lookup_In.
Qed.

(** *** Status *)

Lemma float_status_closed_iff (m : Market.t) :
  let buy_size := B64.sum (map Entry.size (Market.buys m)) in
  let sell_size := B64.sum (map Entry.size (Market.sells m)) in
  Position.status (Aggregate64.summarize m) = closed <->
  Market.redemptions m <> []
  \/ (B64.mul buy_size (B64.rnd 0.9) <= sell_size /\ 0 < buy_size).
Proof.
  cbv zeta. unfold Aggregate64.summarize, Aggregate64.sum_of.
  cbn [Position.status].
  destruct (is_nil (Market.redemptions m)) eqn:R; simpl.
  - assert (N : ~ Market.redemptions m <> []).
    { destruct (Market.redemptions m); [congruence|discriminate]. }
    destruct (Py.leb _ _ && Py.ltb _ _) eqn:E.
    + apply andb_true_iff in E. destruct E as [E1 E2].
      apply PyFacts.leb_le in E1. apply PyFacts.ltb_lt in E2.
      split; [intros _; right; split; assumption | reflexivity].
    + split; [discriminate|]. intros [H|[H1 H2]]; [contradiction|].
      apply andb_false_iff in E. destruct E as [E|E].
      * apply PyFacts.leb_gt in E. lra.
      * apply PyFacts.ltb_ge in E. lra.
  - apply AggregateFacts.is_nil_false in R. split; [now left|reflexivity].
Qed.

(** C1. The status of every aggregated position is [closed] exactly when
    the position has a redemption fill, or its sold share size is at least
    0.9 times its bought share size and the bought size is positive;
    otherwise it is [open].  The sizes are the sums of the fills in the
    order of the list and the product with 0.9 is the product of floats,
    as the script computes them.  With 100 bought, 90 sold closes the
    position and 89.999 leaves it open. *)
Theorem C1_status_closed_iff (l : list Fill.t) (p : Position.t) :
  In p (Aggregate64.aggregate_trades l) ->
  exists k,
    Aggregate64.position_at k l = Some p /\
    let buy_size := B64.sum (map Entry.size (Aggregate64.entries Buy k l)) in
    let sell_size := B64.sum (map Entry.size (Aggregate64.entries Sell k l)) in
    let has_redemption := Aggregate64.entries Redemption k l <> [] in
    let closing :=
      has_redemption
      \/ (B64.mul buy_size (B64.rnd 0.9) <= sell_size /\ 0 < buy_size) in
    (Position.status p = closed <-> closing)
    /\ (Position.status p = open <-> ~ closing)
    /\ (~ has_redemption -> buy_size = 100 -> sell_size = 90 ->
        Position.status p = closed)
    /\ (~ has_redemption -> buy_size = 100 -> sell_size = B64.rnd 89.999 ->
        Position.status p = open).
Proof.
  intros Hin. apply float_result_In in Hin. destruct Hin as [k Hk].
  exists k. split; [exact Hk|].
  unfold Aggregate64.position_at in Hk.
  destruct (lookup k (Aggregate64.markets l)) as [m|] eqn:E; [|discriminate].
  injection Hk as <-.
  destruct (markets_buckets _ _ _ E) as (Hb & Hs & Hr).
  cbv zeta. rewrite <- Hb, <- Hs, <- Hr.
  pose proof (float_status_closed_iff m) as C. cbv zeta in C.
  split; [exact C|]. split; [|split].
  - rewrite AggregateFacts.status_open_iff. now rewrite C.
  - intros _ Hbuy Hsell. apply C. right. rewrite Hbuy, Hsell.
    split; [vm_compute; discriminate|reflexivity].
  - intros Hno Hbuy Hsell. rewrite AggregateFacts.status_open_iff, C.
    intros [H|[H _]]; [contradiction|].
    rewrite Hbuy, Hsell in H. vm_compute in H. now apply H.
Qed.

Lemma C1_status_closed_iff_witness :
  In Samples.sold_90_float (Aggregate64.aggregate_trades Samples.sold_90)
  /\ exists k,
       Aggregate64.position_at k Samples.sold_90 = Some Samples.sold_90_float
       /\ Position.status Samples.sold_90_float = closed.
Proof.
  assert (H : In Samples.sold_90_float
                 (Aggregate64.aggregate_trades Samples.sold_90))
    by (vm_compute; auto).
  split; [exact H|].
  destruct (C1_status_closed_iff _ _ H) as (k & Hk & _).
  exists k. split; [exact Hk|reflexivity].
Defined.

(** The boundary, run on the code. *)
Example sold_90_float_closed :
  map Position.status (Aggregate64.aggregate_trades Samples.sold_90) = [closed].
Proof. vm_compute. reflexivity. Qed.

Example sold_89_999_float_open :
  map Position.status (Aggregate64.aggregate_trades Samples.sold_89_999)
  = [open].
Proof. vm_compute. reflexivity. Qed.

(** The comparison is the one of the floats.  The sum of 0.1 and 0.2 is
    the float above 0.3 and its product with 0.9 is above 0.27, so a sale
    of 0.27 leaves the position open; 1.1 times 0.9 is the float above
    0.99; 7 times 0.9 is the float 6.3. *)
Example float_threshold :
  map Position.status
      (Aggregate64.aggregate_trades
         [Samples.sized "BUY" 0.1; Samples.sized "BUY" 0.2;
          Samples.sized "SELL" 0.27]) = [open]
  /\ map Position.status
         (Aggregate64.aggregate_trades
            [Samples.sized "BUY" 1.1; Samples.sized "SELL" 0.99]) = [open]
  /\ map Position.status
         (Aggregate64.aggregate_trades
            [Samples.sized "BUY" 7; Samples.sized "SELL" 6.3]) = [closed].
Proof. vm_compute. repeat split. Qed.

(** *** Order of the fills *)










Example three_buys_statuses :
  map Position.status (Aggregate64.aggregate_trades Samples.three_buys)
  = [open]
  /\ map Position.status
         (Aggregate64.aggregate_trades Samples.three_buys_reversed)
     = [closed].
Proof. vm_compute. split; reflexivity. Qed.

End Aggregate64Facts.

(* ================================================================== *)
(** ** The analysis *)

Module AnalyzeFacts.
Import Analyze.

(** *** Windows *)

Lemma timeframes_values :
  timeframes TF_3M = 1763251200%Z /\ timeframes TF_6M = 1755475200%Z
  /\ timeframes TF_1Y = 1739491200%Z /\ timeframes TF_YTD = 1767225600%Z
  /\ timeframes TF_ALL = 1577836800%Z.
Proof. repeat split. Qed.

Lemma select_In (positions : list Pos.t) (start : Z) (p : Pos.t) :
  In p (select positions start) <->
  In p positions /\ (start <= Pos.exit_ts p)%Z.
Proof.
  unfold select, in_window. rewrite filter_In. now rewrite Z.leb_le.
Qed.

Lemma filter_all {A} (f : A -> bool) (l : list A) :
  filter f l = l <-> Forall (fun x => f x = true) l.
Proof.
  induction l as [|x l IH]; simpl.
  - split; auto.
  - destruct (f x) eqn:E.
    + split.
      * intros [= H]. constructor; [exact E | now apply IH].
      * intros H. inversion H; subst. f_equal. now apply IH.
    + split.
      * intros H. exfalso.
        assert (L : (List.length (filter f l) <= List.length l)%nat)
          by apply filter_length_le.
        rewrite H in L. simpl in L. lia.
      * intros H. inversion H; subst. congruence.
Qed.

(** C9, as the code has it.  The ALL window starts on 2020-01-01 (epoch
    1577836800): its selection has exactly the positions that closed at or
    after that instant, and it is the entire list exactly when no position
    closed before it. *)
Theorem C9_all_window (all_positions : list Pos.t) :
  timeframes TF_ALL = 1577836800%Z
  /\ (forall p,
        In p (tf_positions all_positions TF_ALL) <->
        In p all_positions /\ (1577836800 <= Pos.exit_ts p)%Z)
  /\ (tf_positions all_positions TF_ALL = all_positions <->
      Forall (fun p => (1577836800 <= Pos.exit_ts p)%Z) all_positions).
Proof.
  split; [reflexivity|]. split.
  - intros p. apply select_In.
  - unfold tf_positions, select. rewrite filter_all.
    split; apply Forall_impl; intros p; unfold in_window;
      change (timeframes TF_ALL) with 1577836800%Z; apply Z.leb_le.
Qed.

(** A position that closed in 2017 is not selected by the ALL window. *)
Lemma C9_counterexample : ~ Stated.all_window_has_every_position.
Proof.
  intros C.
  specialize (C [Samples.closed_in_2017] Samples.closed_in_2017 (or_introl eq_refl)).
  vm_compute in C. exact C.
Qed.

(** *** Multipliers *)

Lemma insider_mult_ge (risk : string) : 0.5 <= insider_mult risk.
Proof.
  unfold insider_mult.
  repeat (destruct (String.eqb risk _); [lra|]). lra.
Qed.

Lemma cluster_boost_ge (cluster : string) : 0.3 <= cluster_boost cluster.
Proof.
  unfold cluster_boost.
  destruct (String.eqb cluster ""); [lra|].
  destruct (mem _ PLAYED_OUT); [lra|].
  destruct (mem _ ACTIVE_CLUSTERS); lra.
Qed.

Lemma clamp_cases (b : Q) :
  let clamped := Py.max 0.1 (Py.min 3.0 b) in
  0.1 <= clamped <= 3.0
  /\ (0.1 <= b <= 3.0 -> clamped == b)
  /\ (b <= 0.1 -> clamped == 0.1)
  /\ (3.0 <= b -> clamped == 3.0).
Proof.
  cbv zeta. unfold Py.max, Py.min.
  destruct (Py.ltb b 3.0) eqn:E1;
    [destruct (Py.ltb 0.1 b) eqn:E2|destruct (Py.ltb 0.1 3.0) eqn:E2];
    rewrite ?PyFacts.ltb_lt, ?PyFacts.ltb_ge in *;
    repeat split; intros; lra.
Qed.

(** Rounding to [n] decimals does not go below a multiple of [10^-n]
    that its argument reaches. *)
Lemma round_ge (x : Q) (n : nat) (k : Z) :
  let scale := Pos.pow 10 (Pos.of_nat (S n)) in
  k # scale <= x -> k # scale <= Py.round x (S n).
Proof.
  cbv zeta. set (scale := Pos.pow 10 (Pos.of_nat (S n))). intros H.
  unfold Py.round. fold scale. rewrite Qred_correct.
  assert (K : inject_Z k <= x * inject_Z (Zpos scale)).
  { apply Qle_trans with ((k # scale) * inject_Z (Zpos scale)).
    - unfold Qle, Qmult, inject_Z. simpl. nia.
    - apply Qmult_le_compat_r; [exact H|].
      unfold Qle, inject_Z. simpl. lia. }
  apply PyFacts.round_half_even_ge in K.
  unfold Qle. simpl. nia.
Qed.

Lemma rec_weight_pos (blended : Q) (trader : option Trader.t) :
  0 < rec_weight blended trader.
Proof.
  unfold rec_weight.
  set (c := Py.max 0.1 (Py.min 3.0 blended)).
  set (i := insider_mult _). set (b := cluster_boost _).
  assert (Hc : 0.1 <= c) by apply PyFacts.max_ge_l.
  assert (Hi : 0.5 <= i) by apply insider_mult_ge.
  assert (Hb : 0.3 <= b) by apply cluster_boost_ge.
  assert (P : 15 # 1000 <= c * i * b).
  { assert (P1 : 0.1 * 0.5 <= c * i)
      by (apply Qmult_le_compat_nonneg; split; lra).
    assert (P2 : 0.1 * 0.5 * 0.3 <= c * i * b)
      by (apply Qmult_le_compat_nonneg; split; lra).
    lra. }
  apply Qlt_le_trans with (15 # 1000); [reflexivity|].
  exact (round_ge (c * i * b) 2 15 P).
Qed.

(** *** The capped policies *)

Lemma capped_size_le (w cap : Q) : capped_size w cap <= 0.10 * cap.
Proof.
  unfold capped_size.
  apply Qle_trans with (cap * 0.1); [apply PyFacts.min_le_r | lra].
Qed.

Lemma capped_size_nonneg (w cap : Q) :
  0 <= w -> 0 <= cap -> 0 <= capped_size w cap.
Proof.
  intros Hw Hc. unfold capped_size, BASE_POSITION.
  apply PyFacts.min_glb; [|lra].
  apply Qmult_le_0_compat; lra.
Qed.

(** A position sized by the rule cannot take the capital below zero when
    it loses at most all of its stake. *)
Lemma capped_step_nonneg (w cap ret : Q) :
  0 <= w -> 0 <= cap -> -1 <= ret -> 0 <= cap + capped_size w cap * ret.
Proof.
  intros Hw Hc Hr.
  pose proof (capped_size_le w cap) as Hle.
  pose proof (capped_size_nonneg w cap Hw Hc) as H0.
  set (s := capped_size w cap) in *.
  assert (P : 0 <= s * (ret + 1)) by (apply Qmult_le_0_compat; lra).
  assert (E : s * (ret + 1) == s * ret + s) by ring.
  lra.
Qed.

Section Scoring.

Variable sqrt : Q -> Q.

Lemma tf_sharpe_get_ge (all_positions : list Pos.t) (tf : Timeframe)
    (addr : string) :
  0.1 <= tf_sharpe_get sqrt all_positions tf addr.
Proof.
  unfold tf_sharpe_get.
  destruct (has_address _ _); [|lra].
  destruct (Py.ltb _ _); [apply PyFacts.max_ge_l | lra].
Qed.

Lemma optimal_weight_nonneg (all_positions : list Pos.t) (tf : Timeframe)
    (p : Pos.t) :
  0 <= optimal_weight sqrt all_positions tf p.
Proof.
  unfold optimal_weight, sharpe_weight.
  pose proof (tf_sharpe_get_ge all_positions tf (Pos.address p)) as H.
  pose proof (insider_mult_ge (Pos.insiderRisk p)) as Hi.
  pose proof (cluster_boost_ge (Pos.cluster p)) as Hb.
  assert (Hs : 0 <= Py.min (tf_sharpe_get sqrt all_positions tf (Pos.address p)) 3)
    by (apply PyFacts.min_glb; lra).
  repeat apply Qmult_le_0_compat; lra.
Qed.

Lemma recommended_weight_get_nonneg (all_positions : list Pos.t)
    (trader_by_addr : string -> option Trader.t) (addr : string) :
  0 <= recommended_weight_get sqrt all_positions trader_by_addr addr.
Proof.
  unfold recommended_weight_get.
  destruct (has_address _ _); [|lra].
  apply Qlt_le_weak, rec_weight_pos.
Qed.

Lemma simulate_snoc (all_positions : list Pos.t) (tf : Timeframe)
    (pre : list Pos.t) (p : Pos.t) :
  simulate sqrt all_positions tf (pre ++ [p])
  = sim_step sqrt all_positions tf (simulate sqrt all_positions tf pre) p.
Proof. unfold simulate. now rewrite fold_left_app. Qed.

Lemma simulate_rb_snoc (all_positions : list Pos.t)
    (trader_by_addr : string -> option Trader.t)
    (pre : list Pos.t) (p : Pos.t) :
  simulate_rb sqrt all_positions trader_by_addr (pre ++ [p])
  = rb_step sqrt all_positions trader_by_addr
      (simulate_rb sqrt all_positions trader_by_addr pre) p.
Proof. unfold simulate_rb. now rewrite fold_left_app. Qed.

(** The running capital of both replays is an invariant of the loop. *)
Lemma opt_cap_nonneg (all_positions : list Pos.t) (tf : Timeframe)
    (stream : list Pos.t) :
  Forall (fun q => -1 <= Pos.ret q) stream ->
  0 <= Sim.opt_cap (simulate sqrt all_positions tf stream).
Proof.
  induction stream as [|p pre IH] using rev_ind; intros H.
  - vm_compute. discriminate.
  - apply Forall_app in H. destruct H as [Hpre Hp].
    rewrite simulate_snoc. cbn [sim_step Sim.opt_cap]. unfold opt_size.
    apply capped_step_nonneg.
    + apply optimal_weight_nonneg.
    + now apply IH.
    + now inversion Hp.
Qed.

Lemma rb_cap_nonneg (all_positions : list Pos.t)
    (trader_by_addr : string -> option Trader.t) (stream : list Pos.t) :
  Forall (fun q => -1 <= Pos.ret q) stream ->
  0 <= simulate_rb sqrt all_positions trader_by_addr stream.
Proof.
  induction stream as [|p pre IH] using rev_ind; intros H.
  - vm_compute. discriminate.
  - apply Forall_app in H. destruct H as [Hpre Hp].
    rewrite simulate_rb_snoc. unfold rb_step, rb_size.
    apply capped_step_nonneg.
    + apply recommended_weight_get_nonneg.
    + now apply IH.
    + now inversion Hp.
Qed.

(** C4. Under the Optimal and the Recency-Optimal policy the size taken
    for every position of the stream is the smaller of [BASE_POSITION]
    times the weight and a tenth of the capital held just before that
    position, so it never exceeds 0.10 times that capital; and the running
    capital stays non-negative when no position returns less than -1. *)
Theorem C4_capped_size_and_capital (all_positions : list Pos.t)
    (trader_by_addr : string -> option Trader.t) (tf : Timeframe)
    (pre : list Pos.t) (p : Pos.t) (post : list Pos.t) :
  tf_positions all_positions tf = pre ++ p :: post ->
  let opt_before := Sim.opt_cap (simulate sqrt all_positions tf pre) in
  let opt_after := Sim.opt_cap (simulate sqrt all_positions tf (pre ++ [p])) in
  let size := opt_size sqrt all_positions tf opt_before p in
  let rb_before := simulate_rb sqrt all_positions trader_by_addr pre in
  let rb_after := simulate_rb sqrt all_positions trader_by_addr (pre ++ [p]) in
  let rsize := rb_size sqrt all_positions trader_by_addr rb_before p in
  (size = Py.min (BASE_POSITION * optimal_weight sqrt all_positions tf p)
                 (opt_before * 0.1)
   /\ opt_after = opt_before + size * Pos.ret p
   /\ size <= 0.10 * opt_before)
  /\ (rsize = Py.min (BASE_POSITION
                      * recommended_weight_get sqrt all_positions trader_by_addr
                          (Pos.address p))
                     (rb_before * 0.1)
      /\ rb_after = rb_before + rsize * Pos.ret p
      /\ rsize <= 0.10 * rb_before)
  /\ (Forall (fun q => -1 <= Pos.ret q) (tf_positions all_positions tf) ->
      0 <= opt_before /\ 0 <= opt_after /\ 0 <= rb_before /\ 0 <= rb_after).
Proof.
  intros E. cbv zeta. split; [|split].
  - split; [reflexivity|]. split.
    + now rewrite simulate_snoc.
    + apply capped_size_le.
  - split; [reflexivity|]. split.
    + now rewrite simulate_rb_snoc.
    + apply capped_size_le.
  - intros H. rewrite E in H.
    assert (Hpre : Forall (fun q => -1 <= Pos.ret q) pre).
    { apply Forall_app in H. tauto. }
    assert (Hp : Forall (fun q => -1 <= Pos.ret q) (pre ++ [p])).
    { apply Forall_app in H. destruct H as [H1 H2]. apply Forall_app.
      split; [exact H1|]. constructor; [now inversion H2|constructor]. }
    repeat split.
    + now apply opt_cap_nonneg.
    + now apply opt_cap_nonneg.
    + now apply rb_cap_nonneg.
    + now apply rb_cap_nonneg.
Qed.

End Scoring.

Lemma C4_capped_size_and_capital_witness :
  tf_positions Samples.loss_then_gain TF_3M
  = [Samples.position "0xa" 1769900000 (-1) (-40) "EXTREME" "crypto"]
    ++ Samples.position "0xb" 1770000000 1 90 "EXTREME" "Fed" :: []
  /\ opt_size Samples.sqrt6 Samples.loss_then_gain TF_3M 9625
       (Samples.position "0xb" 1770000000 1 90 "EXTREME" "Fed")
     <= 0.10 * 9625.
Proof.
  assert (E : tf_positions Samples.loss_then_gain TF_3M
              = [Samples.position "0xa" 1769900000 (-1) (-40) "EXTREME" "crypto"]
                ++ Samples.position "0xb" 1770000000 1 90 "EXTREME" "Fed" :: [])
    by reflexivity.
  split; [exact E|].
  destruct (C4_capped_size_and_capital Samples.sqrt6 Samples.loss_then_gain
              Samples.roster TF_3M _ _ _ E) as ((_ & _ & H) & _).
  exact H.
Defined.

(** *** Order of the positions *)









Section Replay.

Variable sqrt : Q -> Q.











End Replay.



(** The reported return of the Optimal policy for the two orders of the
    tied loss and doubling, each list being the one the script replays. *)
Example tied_results :
  Result.optimal (strategy_results Samples.sqrt6 Samples.tied_loss_gain
                    Samples.roster TF_3M) = 5.9
  /\ Result.optimal (strategy_results Samples.sqrt6 Samples.tied_gain_loss
                       Samples.roster TF_3M) == 6.2.
Proof. split; reflexivity. Qed.

End AnalyzeFacts.

(* ================================================================== *)
(** ** Scores and weights, with the arithmetic of floats *)

Module Analyze64Facts.
Import Analyze.

(** *** The scorer *)

(** C2. On a non-empty sequence of returns the scorer takes the mean
    [sum/n], the population standard deviation [sqrt (sum (r-mean)^2 / n)]
    (zero when [n <= 1]) and the ratio [mean/std] when [std > 0]; when
    [std] is zero the score is 1.0 for a positive mean and 0 otherwise.
    The operations are those of floats, the sums made from left to right,
    and the record reports the rounded values.  A single return scores 1.0
    when it is positive and 0 otherwise, with volatility 0: +0.10 scores
    1.0 and -0.10 scores 0.  The empty input gives the all-zero record. *)
Theorem C2_calc_stats (r : Q) (rs pnls : list Q) :
  let returns := r :: rs in
  let n := List.length returns in
  let mean := B64.div (B64.sum returns) (of_nat n) in
  let variance :=
    B64.div
      (B64.sum (map (fun x => B64.mul (B64.sub x mean) (B64.sub x mean))
                    returns))
      (of_nat n) in
  let std := if (n <=? 1)%nat then 0 else B64.sqrt variance in
  let sharpe :=
    if Py.ltb 0 std then B64.div mean std
    else if Py.ltb 0 mean then 1 else 0 in
  let stats := Analyze64.calc_stats returns pnls in
  Stats.trades stats = n
  /\ Stats.avgReturn stats = B64.round (B64.mul mean 100) 2
  /\ Stats.volatility stats = B64.round (B64.mul std 100) 2
  /\ Stats.sharpe stats = B64.round sharpe 3
  /\ (B64.rnd r = r ->
      Stats.volatility (Analyze64.calc_stats [r] pnls) = 0
      /\ Stats.sharpe (Analyze64.calc_stats [r] pnls)
         = if Py.ltb 0 r then 1 else 0)
  /\ Stats.sharpe (Analyze64.calc_stats [B64.rnd 0.10] pnls) = 1
  /\ Stats.sharpe (Analyze64.calc_stats [B64.rnd (-0.10)] pnls) = 0
  /\ Analyze64.calc_stats [] pnls = Stats.zero.
Proof.
  cbv zeta.
  assert (L : forall (A : Type) (a b : A),
             (if (List.length (r :: rs) <=? 1)%nat then a else b)
             = (if (1 <? List.length (r :: rs))%nat then b else a)).
  { intros A a b. rewrite Nat.ltb_antisym. now destruct (_ <=? _)%nat. }
  rewrite !L.
  split; [reflexivity|]. split; [reflexivity|]. split; [reflexivity|].
  split; [reflexivity|]. split; [|repeat split].
  intros D. unfold Analyze64.calc_stats.
  cbn [List.length Nat.ltb Nat.leb Stats.volatility Stats.sharpe].
  assert (M : B64.div (B64.sum [r]) (of_nat 1) = r).
  { unfold B64.div, B64.sum, B64.add. cbn [fold_left].
    assert (E0 : 0 + r == r) by ring. rewrite (B64Facts.rnd_comp _ _ E0), D.
    assert (E1 : r / of_nat 1 == r) by (unfold of_nat; simpl; field).
    now rewrite (B64Facts.rnd_comp _ _ E1). }
  rewrite M. split; [reflexivity|].
  change (Py.ltb 0 0) with false. cbv iota.
  destruct (Py.ltb 0 r); reflexivity.
Qed.

Lemma C2_calc_stats_witness :
  B64.rnd (B64.rnd 0.25) = B64.rnd 0.25
  /\ Stats.volatility (Analyze64.calc_stats [B64.rnd 0.25] []) = 0
  /\ Stats.sharpe (Analyze64.calc_stats [B64.rnd 0.25] []) = 1.
Proof.
  assert (D : B64.rnd (B64.rnd 0.25) = B64.rnd 0.25) by reflexivity.
  split; [exact D|].
  exact (proj1 (proj2 (proj2 (proj2 (proj2
           (C2_calc_stats (B64.rnd 0.25) [] []))))) D).
Defined.

(** The scores, run on the code.  Three returns of 0.1 have the mean
    above 0.1, a standard deviation of [2^-56] and not zero, and the
    score is their quotient. *)
Example single_return_scores (pnls : list Q) :
  Stats.sharpe (Analyze64.calc_stats [B64.rnd 0.10] pnls) = 1
  /\ Stats.volatility (Analyze64.calc_stats [B64.rnd 0.10] pnls) = 0
  /\ Stats.sharpe (Analyze64.calc_stats [B64.rnd (-0.10)] pnls) = 0.
Proof. repeat split. Qed.

Example equal_returns_score :
  Stats.sharpe
    (Analyze64.calc_stats [B64.rnd 0.1; B64.rnd 0.1; B64.rnd 0.1] [])
  = 7205759403792795
  /\ Stats.sharpe
       (Analyze64.calc_stats [B64.rnd 0.5; B64.rnd 0.5; B64.rnd 0.5] [])
     = 1.
Proof. vm_compute. split; reflexivity. Qed.

Example two_returns_score :
  Stats.sharpe (Analyze64.calc_stats [B64.rnd 0.3; B64.rnd 0.1] [])
  = B64.rnd 2
  /\ Stats.volatility (Analyze64.calc_stats [B64.rnd 0.3; B64.rnd 0.1] [])
     = B64.rnd 10.
Proof. vm_compute. split; reflexivity. Qed.

(** *** The blender *)

Lemma tier_bands (blended : Q) (t : Tier.t) :
  t = (if Py.leb 1.5 blended then Tier.S
       else if Py.leb 1.0 blended then Tier.A
       else if Py.leb 0.5 blended then Tier.B
       else if Py.leb 0.0 blended then Tier.C
       else Tier.D) ->
  (t = Tier.S <-> 1.5 <= blended)
  /\ (t = Tier.A <-> 1.0 <= blended /\ blended < 1.5)
  /\ (t = Tier.B <-> 0.5 <= blended /\ blended < 1.0)
  /\ (t = Tier.C <-> 0.0 <= blended /\ blended < 0.5)
  /\ (t = Tier.D <-> blended < 0.0).
Proof.
  intros ->.
  destruct (Py.leb 1.5 blended) eqn:E1;
    [|destruct (Py.leb 1.0 blended) eqn:E2;
      [|destruct (Py.leb 0.5 blended) eqn:E3;
        [|destruct (Py.leb 0.0 blended) eqn:E4]]];
    rewrite ?PyFacts.leb_le, ?PyFacts.leb_gt in *;
    repeat split; intros; try discriminate; try lra; intuition lra.
Qed.

(** C3. The blended score is [0.5 sharpe3m + 0.3 sharpe6m + 0.2 sharpe1y],
    the products and the sums being those of floats, made from left to
    right; the tier is S from 1.5, A from 1.0, B from 0.5, C from 0.0 and
    D below, each band including its lower bound.  The sharpes 2, 1 and 0
    blend to 1.3, tier A.  The tier written for a trader is the tier of
    the blend of the trader's 3M, 6M and 1Y sharpes. *)
Theorem C3_blend_and_tier (s3m s6m s1y : Q) (trader : option Trader.t) :
  let blend := fun a b c =>
    B64.add (B64.add (B64.mul (B64.rnd 0.5) a) (B64.mul (B64.rnd 0.3) b))
            (B64.mul (B64.rnd 0.2) c) in
  let blended := blend s3m s6m s1y in
  let tier := Weight.tier (Analyze64.weight_entry s3m s6m s1y trader) in
  (tier = Tier.S <-> 1.5 <= blended)
  /\ (tier = Tier.A <-> 1.0 <= blended /\ blended < 1.5)
  /\ (tier = Tier.B <-> 0.5 <= blended /\ blended < 1.0)
  /\ (tier = Tier.C <-> 0.0 <= blended /\ blended < 0.5)
  /\ (tier = Tier.D <-> blended < 0.0)
  /\ blend 2 1 0 = B64.rnd 1.3
  /\ Weight.tier (Analyze64.weight_entry 2 1 0 trader) = Tier.A
  /\ (forall all_positions trader_by_addr addr,
        Analyze64.weights all_positions trader_by_addr addr
        = Analyze64.weight_entry
            (Stats.sharpe (Analyze64.trader_stats all_positions addr TF_3M))
            (Stats.sharpe (Analyze64.trader_stats all_positions addr TF_6M))
            (Stats.sharpe (Analyze64.trader_stats all_positions addr TF_1Y))
            (trader_by_addr addr)).
Proof.
  cbv zeta.
  pose proof (tier_bands
                (B64.add (B64.add (B64.mul (B64.rnd 0.5) s3m)
                                  (B64.mul (B64.rnd 0.3) s6m))
                         (B64.mul (B64.rnd 0.2) s1y))
                (Weight.tier (Analyze64.weight_entry s3m s6m s1y trader))
                eq_refl) as (HS & HA & HB & HC & HD).
  split; [exact HS|]. split; [exact HA|]. split; [exact HB|].
  split; [exact HC|]. split; [exact HD|].
  split; [vm_compute; reflexivity|]. split; [|reflexivity].
  unfold Analyze64.weight_entry. cbn [Weight.tier]. vm_compute. reflexivity.
Qed.

(** The blend is the one of the floats: the sharpes 0.7, 0.3 and 0.3
    blend to the float below 0.5, tier C; 1, 2 and 3 to 1.7, tier S. *)
Example blend_below_half (trader : option Trader.t) :
  Weight.tier
    (Analyze64.weight_entry (B64.rnd 0.7) (B64.rnd 0.3) (B64.rnd 0.3) trader)
  = Tier.C
  /\ Weight.tier (Analyze64.weight_entry 1 2 3 trader) = Tier.S
  /\ Weight.tier (Analyze64.weight_entry (-1) 0 0 trader) = Tier.D.
Proof.
  unfold Analyze64.weight_entry. cbn [Weight.tier]. vm_compute.
  repeat split.
Qed.

(** *** The recommended weight *)

Lemma clamp_max_min (lo hi x : Q) :
  lo <= hi -> Py.max lo (Py.min hi x) == Formulas.clamp lo hi x.
Proof.
  intros H. unfold Py.max, Py.min, Formulas.clamp.
  destruct (Py.ltb x hi) eqn:E1; destruct (Py.ltb x lo) eqn:E3;
    destruct (Py.ltb hi x) eqn:E4;
    try destruct (Py.ltb lo x) eqn:E2; try destruct (Py.ltb lo hi) eqn:E5;
    rewrite ?PyFacts.ltb_lt, ?PyFacts.ltb_ge in *; lra.
Qed.

Lemma clamp_cases64 (lo hi x : Q) :
  lo <= hi ->
  let clamped := Formulas.clamp lo hi x in
  lo <= clamped <= hi
  /\ (lo <= x <= hi -> clamped = x)
  /\ (x < lo -> clamped = lo)
  /\ (hi < x -> clamped = hi).
Proof.
  intros H. cbv zeta. unfold Formulas.clamp.
  destruct (Py.ltb x lo) eqn:E1; [|destruct (Py.ltb hi x) eqn:E2];
    rewrite ?PyFacts.ltb_lt, ?PyFacts.ltb_ge in *;
    repeat split; intros; try reflexivity; lra.
Qed.

(** The multiplier of the script is the one of the table, read at the
    risk class that the roster has for the trader. *)
Lemma insider_mult_of_trader (trader : option Trader.t) :
  Analyze64.insider_mult (trader_get trader Trader.insiderRisk "LOW")
  = Formulas.insider_multiplier (Formulas.risk_of trader).
Proof.
  destruct trader as [[[r|] c]|]; try reflexivity.
  unfold trader_get, get_or, Formulas.risk_of. cbn [Trader.insiderRisk].
  unfold Analyze64.insider_mult, Formulas.insider_multiplier.
  destruct (String.eqb_spec r "HIGH") as [->|N1]; [reflexivity|].
  destruct (String.eqb_spec r "EXTREME") as [->|N2]; [reflexivity|].
  destruct (String.eqb_spec r "MEDIUM") as [->|N3]; [reflexivity|].
  destruct (String.eqb r "LOW"); reflexivity.
Qed.

Lemma cluster_boost_of_trader (trader : option Trader.t) :
  Analyze64.cluster_boost (trader_get trader Trader.cluster "other")
  = Formulas.cluster_boost (Formulas.cluster_of trader).
Proof.
  destruct trader as [[r [c|]]|]; try reflexivity.
  unfold trader_get, get_or, Formulas.cluster_of. cbn [Trader.cluster].
  unfold Analyze64.cluster_boost, Formulas.cluster_boost.
  destruct (String.eqb_spec c "") as [->|N]; [reflexivity|].
  cbv zeta. change PLAYED_OUT with ["election-2024"; "election"]%string.
  destruct (mem (lower c) _); [reflexivity|].
  change ACTIVE_CLUSTERS
    with ["iran"; "fed"; "geopolitics"; "politics"; "crypto"; "tech";
          "sports"; "ufc"; "mma"]%string.
  destruct (mem (lower c) _); reflexivity.
Qed.

Lemma insider_multiplier_table (r : string) :
  Formulas.insider_multiplier (Some "EXTREME"%string) = 5 # 2
  /\ Formulas.insider_multiplier (Some "HIGH"%string) = 2
  /\ Formulas.insider_multiplier (Some "MEDIUM"%string) = 1
  /\ Formulas.insider_multiplier (Some "LOW"%string) = 1 # 2
  /\ (r <> "EXTREME"%string -> r <> "HIGH"%string -> r <> "MEDIUM"%string ->
      Formulas.insider_multiplier (Some r) = 1 # 2)
  /\ Formulas.insider_multiplier None = 1 # 2.
Proof.
  repeat split. intros N1 N2 N3. unfold Formulas.insider_multiplier.
  apply String.eqb_neq in N1, N2, N3. now rewrite N1, N2, N3.
Qed.

Lemma insider_multiplier_ge (risk : option string) :
  1 # 2 <= Formulas.insider_multiplier risk.
Proof.
  destruct risk as [r|]; [|discriminate]. unfold Formulas.insider_multiplier.
  repeat (destruct (String.eqb r _); [discriminate|]). discriminate.
Qed.

Lemma cluster_boost64_ge (cluster : option string) :
  29 # 100 <= Formulas.cluster_boost cluster.
Proof.
  destruct cluster as [c|]; [|discriminate]. unfold Formulas.cluster_boost.
  destruct (mem _ _); [vm_compute; discriminate|].
  destruct (mem _ _); discriminate.
Qed.

(** A weight of at least [0.1 * 0.5 * 0.3], less the rounding of the two
    products, is reported as a positive number. *)
Lemma rounded_weight_pos (c i b : Q) :
  1 # 10 <= c -> 1 # 2 <= i -> 29 # 100 <= b ->
  0 < B64.round (B64.mul (B64.mul c i) b) 3.
Proof.
  intros Hc Hi Hb. unfold B64.round, B64.mul.
  assert (P1 : (1 # 10) * (1 # 2) <= c * i)
    by (apply Qmult_le_compat_nonneg; split; lra).
  assert (R1 : c * i * (1 # 2) <= B64.rnd (c * i))
    by (apply B64Facts.rnd_ge_half_of; lra).
  set (p1 := B64.rnd (c * i)) in *.
  assert (H1 : 1 # 40 <= p1) by lra.
  assert (P2 : (1 # 40) * (29 # 100) <= p1 * b)
    by (apply Qmult_le_compat_nonneg; split; lra).
  assert (R2 : p1 * b * (1 # 2) <= B64.rnd (p1 * b))
    by (apply B64Facts.rnd_ge_half_of; lra).
  set (p2 := B64.rnd (p1 * b)) in *.
  assert (H2 : 3 # 1000 <= p2) by lra.
  pose proof (AnalyzeFacts.round_ge p2 2 3 H2) as R3. cbv zeta in R3.
  set (r := Py.round p2 3) in *.
  assert (H3 : 3 # 1000 <= r) by exact R3.
  assert (R4 : r * (1 # 2) <= B64.rnd r)
    by (apply B64Facts.rnd_ge_half_of; lra).
  lra.
Qed.

(** C5. The recommended weight is the blended score clamped to
    [0.1, 3.0], times the insider multiplier of the trader's risk class
    (EXTREME 2.5, HIGH 2, MEDIUM 1, LOW 0.5, and 0.5 for any other class,
    for a trader without one and for a trader that is not on the roster)
    and the cluster boost of the trader's cluster, the two products being
    those of floats, rounded to three decimals; it is strictly positive
    whatever the sharpes and the trader.  The weight written for a trader
    is the one of the trader's 3M, 6M and 1Y sharpes. *)
Theorem C5_recommended_weight (s3m s6m s1y : Q) (trader : option Trader.t) :
  let blended :=
    B64.add (B64.add (B64.mul (B64.rnd 0.5) s3m) (B64.mul (B64.rnd 0.3) s6m))
            (B64.mul (B64.rnd 0.2) s1y) in
  let clamped := Formulas.clamp (B64.rnd 0.1) (B64.rnd 3.0) blended in
  let risk :=
    match trader with Some t => Trader.insiderRisk t | None => None end in
  let cluster :=
    match trader with Some t => Trader.cluster t | None => None end in
  let w :=
    Weight.recommendedWeight (Analyze64.weight_entry s3m s6m s1y trader) in
  w = B64.round
        (B64.mul (B64.mul clamped (Formulas.insider_multiplier risk))
                 (Formulas.cluster_boost cluster))
        3
  /\ (B64.rnd 0.1 <= clamped <= B64.rnd 3.0
      /\ (B64.rnd 0.1 <= blended <= B64.rnd 3.0 -> clamped = blended)
      /\ (blended < B64.rnd 0.1 -> clamped = B64.rnd 0.1)
      /\ (B64.rnd 3.0 < blended -> clamped = B64.rnd 3.0))
  /\ (Formulas.insider_multiplier (Some "EXTREME"%string) = 5 # 2
      /\ Formulas.insider_multiplier (Some "HIGH"%string) = 2
      /\ Formulas.insider_multiplier (Some "MEDIUM"%string) = 1
      /\ Formulas.insider_multiplier (Some "LOW"%string) = 1 # 2
      /\ (forall r,
            r <> "EXTREME"%string -> r <> "HIGH"%string ->
            r <> "MEDIUM"%string ->
            Formulas.insider_multiplier (Some r) = 1 # 2)
      /\ Formulas.insider_multiplier None = 1 # 2)
  /\ 0 < w
  /\ (forall all_positions trader_by_addr addr,
        Analyze64.weights all_positions trader_by_addr addr
        = Analyze64.weight_entry
            (Stats.sharpe (Analyze64.trader_stats all_positions addr TF_3M))
            (Stats.sharpe (Analyze64.trader_stats all_positions addr TF_6M))
            (Stats.sharpe (Analyze64.trader_stats all_positions addr TF_1Y))
            (trader_by_addr addr)).
Proof.
  cbv zeta.
  set (blended := B64.add (B64.add (B64.mul (B64.rnd 0.5) s3m)
                                   (B64.mul (B64.rnd 0.3) s6m))
                          (B64.mul (B64.rnd 0.2) s1y)).
  assert (LH : B64.rnd 0.1 <= B64.rnd 3.0) by (vm_compute; discriminate).
  assert (E : Weight.recommendedWeight
                (Analyze64.weight_entry s3m s6m s1y trader)
              = B64.round
                  (B64.mul
                     (B64.mul
                        (Formulas.clamp (B64.rnd 0.1) (B64.rnd 3.0) blended)
                        (Formulas.insider_multiplier
                           (Formulas.risk_of trader)))
                     (Formulas.cluster_boost (Formulas.cluster_of trader)))
                  3).
  { unfold Analyze64.weight_entry. cbn [Weight.recommendedWeight].
    fold blended.
    rewrite insider_mult_of_trader, cluster_boost_of_trader.
    f_equal. f_equal. unfold B64.mul. apply B64Facts.rnd_comp.
    now rewrite (clamp_max_min _ _ blended LH). }
  split; [exact E|]. split; [now apply clamp_cases64|]. split; [|split].
  - split; [reflexivity|]. split; [reflexivity|]. split; [reflexivity|].
    split; [reflexivity|]. split; [|reflexivity].
    intros r. apply (insider_multiplier_table r).
  - rewrite E. apply rounded_weight_pos.
    + destruct (clamp_cases64 _ _ blended LH) as [[L _] _].
      apply Qle_trans with (B64.rnd 0.1); [vm_compute; discriminate|exact L].
    + apply insider_multiplier_ge.
    + apply cluster_boost64_ge.
  - reflexivity.
Qed.

(** The rounding is the one of the floats: the product of 1.871 and 0.5
    is the float below 0.9355 and is reported as 0.935; a trader of the
    EXTREME class in an active cluster with a blend above 3 gets
    [3 * 2.5 * 1.5]; the smallest weight is 0.015. *)
Example recommended_weights :
  Weight.recommendedWeight (Analyze64.weight_entry (B64.rnd 3.742) 0 0 None)
  = B64.rnd 0.935
  /\ Weight.recommendedWeight
       (Analyze64.weight_entry 9 9 9
          (Some (Trader.mk (Some "EXTREME"%string) (Some "Crypto"%string))))
     = B64.rnd 11.25
  /\ Weight.recommendedWeight
       (Analyze64.weight_entry (-5) 0 0
          (Some (Trader.mk (Some "LOW"%string) (Some "election"%string))))
     = B64.rnd 0.015.
Proof. vm_compute. repeat split. Qed.

End Analyze64Facts.

(* ================================================================== *)
(** ** More on the sort *)

Module PySortFacts.

Section Order.
Context {A : Type} (before : A -> A -> bool) (R : A -> A -> Prop).

(** [R x y]: [x] may stand before [y]. *)
Hypothesis before_false : forall x y, before y x = false -> R x y.
Hypothesis before_true : forall x y, before y x = true -> R y x.
Hypothesis R_trans : forall x y z, R x y -> R y z -> R x z.

Lemma insert_sorted (x : A) (ys : list A) :
  StronglySorted R ys -> StronglySorted R (Py.insert before x ys).
Proof.
  induction 1 as [|y ys Hs IH Hall]; simpl.
  - repeat constructor.
  - destruct (before y x) eqn:E.
    + constructor; [exact IH|].
      apply Forall_forall. intros u Hu.
      apply (Permutation_in _ (PyFacts.insert_perm before x ys)) in Hu.
      destruct Hu as [<-|Hu]; [now apply before_true|].
      now apply (proj1 (Forall_forall _ _) Hall).
    + constructor; [now constructor|].
      constructor; [now apply before_false|].
      eapply Forall_impl; [|exact Hall].
      intros z Hz. apply R_trans with y; [now apply before_false|exact Hz].
Qed.

Lemma sort_sorted (xs : list A) : StronglySorted R (Py.sort before xs).
Proof.
  induction xs as [|x xs IH]; [constructor|].
  unfold Py.sort in *. simpl. now apply insert_sorted.
Qed.
End Order.

Section Stable.
Context {A : Type} (before : A -> A -> bool) (P : A -> bool).

(** No element of the class [P] must come strictly before another one. *)
Hypothesis tie : forall x y, P x = true -> P y = true -> before y x = false.

Lemma insert_filter (x : A) (ys : list A) :
  filter P (Py.insert before x ys) = filter P (x :: ys).
Proof.
  induction ys as [|y ys IH]; [reflexivity|].
  simpl. destruct (before y x) eqn:E; [|reflexivity].
  simpl. rewrite IH. simpl.
  destruct (P x) eqn:Px, (P y) eqn:Py; try reflexivity.
  rewrite (tie x y Px Py) in E. discriminate.
Qed.

(** The sort is stable: the elements of a class of ties stand in the
    result in the order in which they stood in the input. *)
Lemma sort_stable (xs : list A) : filter P (Py.sort before xs) = filter P xs.
Proof.
  induction xs as [|x xs IH]; [reflexivity|].
  unfold Py.sort in *. simpl fold_right. rewrite insert_filter.
  simpl. now rewrite IH.
Qed.
End Stable.

Lemma sort_length {A} (before : A -> A -> bool) (xs : list A) :
  List.length (Py.sort before xs) = List.length xs.
Proof. apply Permutation_length, PyFacts.sort_perm. Qed.

Lemma filter_sorted {A} (R : A -> A -> Prop) (f : A -> bool) (l : list A) :
  StronglySorted R l -> StronglySorted R (filter f l).
Proof.
  induction 1 as [|x l Hs IH Hall]; simpl; [constructor|].
  destruct (f x); [|exact IH].
  constructor; [exact IH|].
  apply Forall_forall. intros y Hy. apply filter_In in Hy.
  now apply (proj1 (Forall_forall _ _) Hall).
Qed.

Lemma firstn_incl {A} (n : nat) (l : list A) (x : A) :
  In x (firstn n l) -> In x l.
Proof.
  intros H. rewrite <- (firstn_skipn n l). apply in_or_app. now left.
Qed.

Lemma skipn_incl {A} (n : nat) (l : list A) (x : A) :
  In x (skipn n l) -> In x l.
Proof.
  intros H. rewrite <- (firstn_skipn n l). apply in_or_app. now right.
Qed.

Lemma firstn_sorted {A} (R : A -> A -> Prop) (n : nat) (l : list A) :
  StronglySorted R l -> StronglySorted R (firstn n l).
Proof.
  intros H. revert n. induction H as [|x l Hs IH Hall]; intros [|n]; simpl;
    try constructor.
  - apply IH.
  - apply Forall_forall. intros y Hy. apply firstn_incl in Hy.
    now apply (proj1 (Forall_forall _ _) Hall).
Qed.

(** In a sorted list every element of the first [n] may stand before
    every element after them. *)
Lemma firstn_before_skipn {A} (R : A -> A -> Prop) (n : nat) (l : list A) :
  StronglySorted R l ->
  forall x y, In x (firstn n l) -> In y (skipn n l) -> R x y.
Proof.
  intros H. revert n. induction H as [|z l Hs IH Hall]; intros [|n] x y Hx Hy;
    simpl in *; try contradiction.
  destruct Hx as [<-|Hx].
  - apply (proj1 (Forall_forall _ _) Hall). now apply (skipn_incl n).
  - now apply (IH n).
Qed.

End PySortFacts.

(* ================================================================== *)
(** ** More on the aggregator *)

Module AggregateMore.
Import Aggregate Report.

(** *** One position per key *)

Lemma fold_step_keys (l : list Fill.t) (acc : Markets) :
  map fst (fold_left step l acc)
  = fold_left
      (fun a k => if existsb (String.eqb k) a then a else a ++ [k])
      (map key_of l) (map fst acc).
Proof.
  revert acc. induction l as [|t l IH]; intros acc; simpl; [reflexivity|].
  rewrite IH. unfold step. now rewrite AggregateFacts.update_keys.
Qed.

Lemma group_first_seen (l : list Fill.t) :
  map fst (group l) = first_seen (map key_of l).
Proof. apply (fold_step_keys l []). Qed.

Lemma fills_of_nonempty (k : string) (l : list Fill.t) :
  fills_of k l <> [] <-> exists t, In t l /\ key_of t = k.
Proof.
  unfold fills_of. split.
  - intros N. destruct (filter _ l) as [|t ts] eqn:E; [congruence|].
    assert (H : In t (filter (fun t => String.eqb (key_of t) k) l))
      by (rewrite E; now left).
    apply filter_In in H. destruct H as [H1 H2].
    exists t. split; [exact H1|now apply String.eqb_eq].
  - intros (t & Hin & <-) E.
    assert (H : In t (filter (fun u => String.eqb (key_of u) (key_of t)) l)).
    { apply filter_In. split; [exact Hin|apply String.eqb_refl]. }
    rewrite E in H. destruct H.
Qed.

(** X1. The dictionary has one accumulator per market key that occurs
    among the fills, in the order in which the keys are first seen; the
    result has one position per such key. *)
Theorem X1_one_position_per_key (l : list Fill.t) :
  map fst (keyed_results l) = first_seen (map key_of l)
  /\ NoDup (first_seen (map key_of l))
  /\ (forall k, In k (first_seen (map key_of l)) <->
                exists t, In t l /\ key_of t = k)
  /\ List.length (aggregate_trades l)
     = List.length (first_seen (map key_of l)).
Proof.
  assert (K : map fst (keyed_results l) = map fst (group l)).
  { unfold keyed_results. rewrite map_map. reflexivity. }
  rewrite <- group_first_seen. split; [exact K|]. split; [|split].
  - apply AggregateFacts.group_NoDup.
  - intros k. rewrite AggregateFacts.group_keys. apply fills_of_nonempty.
  - unfold aggregate_trades.
    rewrite PySortFacts.sort_length, !length_map.
    unfold keyed_results. now rewrite length_map.
Qed.

(** *** The order of the result *)

(** X2. The result is sorted by the absolute value of the reported
    P&L, largest first. *)
Theorem X2_sorted_by_abs_pnl (l : list Fill.t) :
  StronglySorted (fun a b => abs_pnl b <= abs_pnl a) (aggregate_trades l).
Proof.
  unfold aggregate_trades. apply PySortFacts.sort_sorted.
  - intros x y H. now apply PyFacts.ltb_ge in H.
  - intros x y H. apply PyFacts.ltb_lt in H. now apply Qlt_le_weak.
  - intros x y z H1 H2. now apply Qle_trans with (abs_pnl y).
Qed.

(** X3. Positions whose absolute P&L is the same stand in the result in
    the order in which their keys were first seen. *)
Theorem X3_ties_in_first_seen_order (l : list Fill.t) (c : Q) :
  filter (fun p => Qeq_bool (abs_pnl p) c) (aggregate_trades l)
  = filter (fun p => Qeq_bool (abs_pnl p) c) (map snd (keyed_results l)).
Proof.
  unfold aggregate_trades. apply PySortFacts.sort_stable.
  intros x y Hx Hy. apply Qeq_bool_eq in Hx, Hy.
  apply PyFacts.ltb_ge. unfold abs_pnl in *. rewrite Hx, Hy. apply Qle_refl.
Qed.

(** *** Trade counts *)

Lemma bucket_entries_length (ts : list Fill.t) :
  (List.length (bucket_entries Buy ts) + List.length (bucket_entries Sell ts)
   + List.length (bucket_entries Redemption ts))%nat
  = List.length (filter kept ts).
Proof.
  unfold bucket_entries, kept. rewrite !length_map.
  induction ts as [|t ts IH]; [reflexivity|].
  simpl. destruct (bucket_of t); simpl; lia.
Qed.

Lemma trade_count_of_key (k : string) (l : list Fill.t) (p : Position.t) :
  position_at k l = Some p ->
  Position.tradeCount p = List.length (filter kept (fills_of k l)).
Proof.
  unfold position_at.
  destruct (lookup k (group l)) as [m|] eqn:E; [|discriminate].
  intros [= <-].
  destruct (AggregateFacts.position_at_buckets _ _ _ E) as (Hb & Hs & Hr).
  unfold summarize. cbn [Position.tradeCount]. rewrite Hb, Hs, Hr.
  apply bucket_entries_length.
Qed.

Lemma list_sum_perm (xs ys : list nat) :
  Permutation xs ys -> list_sum xs = list_sum ys.
Proof.
  induction 1; simpl; lia.
Qed.

Lemma list_sum_cons (x : nat) (l : list nat) :
  list_sum (x :: l) = (x + list_sum l)%nat.
Proof. reflexivity. Qed.

Lemma fills_of_cons (k : string) (t : Fill.t) (l : list Fill.t) :
  fills_of k (t :: l)
  = if String.eqb (key_of t) k then t :: fills_of k l else fills_of k l.
Proof. reflexivity. Qed.

Lemma count_by_key_cons (f : Fill.t -> bool) (t : Fill.t) (l : list Fill.t)
    (ks : list string) :
  NoDup ks ->
  list_sum (map (fun k => List.length (filter f (fills_of k (t :: l)))) ks)
  = (list_sum (map (fun k => List.length (filter f (fills_of k l))) ks)
     + if existsb (String.eqb (key_of t)) ks
       then (if f t then 1 else 0) else 0)%nat.
Proof.
  induction ks as [|k ks IH]; intros Hnd; [reflexivity|].
  inversion Hnd as [|? ? Hnotin Hnd']; subst.
  rewrite !map_cons, !list_sum_cons, (IH Hnd'), fills_of_cons.
  cbn [existsb].
  destruct (String.eqb_spec (key_of t) k) as [E|N].
  - assert (X : existsb (String.eqb (key_of t)) ks = false).
    { apply not_true_iff_false. intros X. apply existsb_exists in X.
      destruct X as (x & Hx & Ex). apply String.eqb_eq in Ex. congruence. }
    rewrite X. cbn [orb filter]. destruct (f t); simpl; lia.
  - cbn [orb]. lia.
Qed.

(** Counting the fills key by key counts every fill once. *)
Lemma count_by_key (f : Fill.t -> bool) (ks : list string) (l : list Fill.t) :
  NoDup ks -> (forall t, In t l -> In (key_of t) ks) ->
  list_sum (map (fun k => List.length (filter f (fills_of k l))) ks)
  = List.length (filter f l).
Proof.
  intros Hnd. induction l as [|t l IH]; intros Hks.
  - clear. simpl. induction ks; simpl; auto.
  - rewrite (count_by_key_cons f t l ks Hnd).
    rewrite (IH (fun u Hu => Hks u (or_intror Hu))).
    assert (X : existsb (String.eqb (key_of t)) ks = true).
    { apply existsb_exists. exists (key_of t).
      split; [apply Hks; now left|apply String.eqb_refl]. }
    rewrite X. simpl. destruct (f t); simpl; lia.
Qed.

(** X4. The trade count of a position is the number of the fills of its
    key that are redemptions, buys or sells, and the trade counts of the
    result add up to the number of such fills in the input: every fill
    that is not dropped is counted once, in one position. *)
Theorem X4_trade_counts (l : list Fill.t) :
  (forall k p, position_at k l = Some p ->
               Position.tradeCount p = List.length (filter kept (fills_of k l)))
  /\ list_sum (map Position.tradeCount (aggregate_trades l))
     = List.length (filter kept l)
  /\ (list_sum (map Position.tradeCount (aggregate_trades l))
      <= List.length l)%nat.
Proof.
  assert (S : list_sum (map Position.tradeCount (aggregate_trades l))
              = List.length (filter kept l)).
  { unfold aggregate_trades.
    rewrite (list_sum_perm _ _
               (Permutation_map Position.tradeCount
                  (PyFacts.sort_perm larger_abs_pnl _))).
    unfold keyed_results. rewrite !map_map. simpl.
    rewrite <- (count_by_key kept (map fst (group l)) l).
    - rewrite map_map. f_equal. apply map_ext_in. intros [k m] Hin. simpl.
      apply (trade_count_of_key k l (summarize m)). unfold position_at.
      now rewrite (AggregateFacts.In_lookup _ _ _
                     (AggregateFacts.group_NoDup l) Hin).
    - apply AggregateFacts.group_NoDup.
    - intros t Ht. apply AggregateFacts.group_keys, fills_of_nonempty.
      now exists t. }
  split; [intros k p; apply trade_count_of_key|]. split; [exact S|].
  rewrite S. apply filter_length_le.
Qed.

End AggregateMore.

(* ================================================================== *)
(** ** More on rounding *)

Module RoundFacts.

(** The nearest integer is at most one half away. *)
Lemma round_half_even_error (x : Q) :
  - (1 # 2) <= inject_Z (Py.round_half_even x) - x <= 1 # 2.
Proof.
  pose proof (Qfloor_le x) as Hf. pose proof (Qlt_floor x) as Hc.
  rewrite inject_Z_plus in Hc. change (inject_Z 1) with 1 in Hc.
  unfold Py.round_half_even. cbv zeta.
  destruct (Py.ltb (x - inject_Z (Qfloor x)) (1 # 2)) eqn:E1.
  - apply PyFacts.ltb_lt in E1. split; lra.
  - apply PyFacts.ltb_ge in E1.
    destruct (Py.ltb (1 # 2) (x - inject_Z (Qfloor x))) eqn:E2.
    + rewrite inject_Z_plus. change (inject_Z 1) with 1. split; lra.
    + apply PyFacts.ltb_ge in E2.
      destruct (Z.even (Qfloor x));
        rewrite ?inject_Z_plus; change (inject_Z 1) with 1; split; lra.
Qed.

(** The value of [round(x, n)] for [n > 0]. *)
Lemma round_value (x : Q) (n : nat) :
  let scale := Pos.pow 10 (Pos.of_nat (S n)) in
  Py.round x (S n)
  == inject_Z (Py.round_half_even (x * inject_Z (Zpos scale)))
     / inject_Z (Zpos scale).
Proof.
  cbv zeta. unfold Py.round. rewrite Qred_correct.
  rewrite Qmake_Qdiv. reflexivity.
Qed.

Lemma round_le (x : Q) (n : nat) (k : Z) :
  let scale := Pos.pow 10 (Pos.of_nat (S n)) in
  x <= k # scale -> Py.round x (S n) <= k # scale.
Proof.
  cbv zeta. set (scale := Pos.pow 10 (Pos.of_nat (S n))). intros H.
  unfold Py.round. fold scale. rewrite Qred_correct.
  assert (K : x * inject_Z (Zpos scale) <= inject_Z k).
  { apply Qle_trans with ((k # scale) * inject_Z (Zpos scale)).
    - apply Qmult_le_compat_r; [exact H|].
      unfold Qle, inject_Z. simpl. lia.
    - unfold Qle, Qmult, inject_Z. simpl. nia. }
  apply PyFacts.round_half_even_le in K.
  unfold Qle. simpl. nia.
Qed.

(** [round(x, 2)] is within half a cent of [x]. *)
Lemma round2_error (x : Q) : - (1 # 200) <= Py.round x 2 - x <= 1 # 200.
Proof.
  pose proof (round_value x 1) as V. cbv zeta in V.
  change (Z.pos (10 ^ Pos.of_nat 2)) with 100%Z in V.
  change (inject_Z 100) with 100 in V.
  pose proof (round_half_even_error (x * 100)) as E.
  set (z := inject_Z (Py.round_half_even (x * 100))) in *.
  assert (D : z / 100 == z * (1 # 100)) by (field).
  rewrite V, D. split; lra.
Qed.

End RoundFacts.

(* ================================================================== *)
(** ** Prices, P&L and the per-trader report *)

Module ReportFacts.
Import Aggregate Report.

(** *** Average prices *)

Lemma sum_of_cons (f : Entry.t -> Q) (e : Entry.t) (es : list Entry.t) :
  sum_of f (e :: es) == f e + sum_of f es.
Proof. unfold sum_of. simpl map. apply PyFacts.sum_cons. Qed.

Lemma weighted_sum_bounds (es : list Entry.t) :
  Forall priced es ->
  0 <= sum_of Entry.size es
  /\ 0 <= sum_of (fun e => Entry.price e * Entry.size e) es
  /\ sum_of (fun e => Entry.price e * Entry.size e) es <= sum_of Entry.size es.
Proof.
  induction 1 as [|e es [[Hp0 Hp1] Hs] _ (IH0 & IH1 & IH2)].
  - unfold sum_of. simpl. rewrite PyFacts.sum_nil. repeat split; lra.
  - rewrite !sum_of_cons.
    assert (P0 : 0 <= Entry.price e * Entry.size e)
      by now apply Qmult_le_0_compat.
    assert (P1 : Entry.price e * Entry.size e <= 1 * Entry.size e)
      by now apply Qmult_le_compat_r.
    repeat split; lra.
Qed.

Lemma weighted_avg_unit (es : list Entry.t) :
  Forall priced es -> 0 <= weighted_avg es <= 1.
Proof.
  intros H. destruct (weighted_sum_bounds es H) as (H0 & H1 & H2).
  unfold weighted_avg. cbv zeta.
  destruct (Py.ltb 0 (sum_of Entry.size es)) eqn:E; [|split; lra].
  apply PyFacts.ltb_lt in E. split.
  - apply Qle_shift_div_l; [exact E|]. lra.
  - apply Qle_shift_div_r; [exact E|]. lra.
Qed.

Lemma round4_unit (x : Q) : 0 <= x <= 1 -> 0 <= Py.round x 4 <= 1.
Proof.
  intros [H0 H1]. split.
  - apply Qle_trans with (0 # 10000); [discriminate|].
    apply (AnalyzeFacts.round_ge x 3 0).
    apply Qle_trans with 0; [discriminate|exact H0].
  - apply Qle_trans with (10000 # 10000); [|discriminate].
    apply (RoundFacts.round_le x 3 10000).
    apply Qle_trans with 1; [exact H1|discriminate].
Qed.

Lemma weighted_avg_zero (es : list Entry.t) :
  sum_of Entry.size es <= 0 -> weighted_avg es = 0.
Proof.
  intros H. unfold weighted_avg. cbv zeta.
  apply PyFacts.ltb_ge in H. now rewrite H.
Qed.

Lemma weighted_avg_value (es : list Entry.t) :
  0 < sum_of Entry.size es ->
  weighted_avg es
  = sum_of (fun e => Entry.price e * Entry.size e) es / sum_of Entry.size es.
Proof.
  intros H. unfold weighted_avg. cbv zeta.
  apply PyFacts.ltb_lt in H. now rewrite H.
Qed.

(** X5. The reported average entry price is the size-weighted mean of
    the prices of the buys, rounded to four decimals, and 0 when the
    total size bought is not positive; the reported average exit price is
    the same over the sells and the redemptions together.  When the
    fills have prices between 0 and 1 and non-negative sizes, both
    averages lie between 0 and 1. *)
Theorem X5_average_prices_in_unit_interval (l : list Fill.t) (k : string)
    (p : Position.t) :
  position_at k l = Some p ->
  Forall priced (buys_of k l) -> Forall priced (sells_of k l) ->
  Forall priced (redemptions_of k l) ->
  let exits := sells_of k l ++ redemptions_of k l in
  let weighted := fun e => Entry.price e * Entry.size e in
  (0 <= Position.avgEntryPrice p <= 1 /\ 0 <= Position.avgExitPrice p <= 1)
  /\ (sum_of Entry.size (buys_of k l) <= 0 -> Position.avgEntryPrice p = 0)
  /\ (sum_of Entry.size exits <= 0 -> Position.avgExitPrice p = 0)
  /\ (0 < sum_of Entry.size (buys_of k l) ->
      Position.avgEntryPrice p
      = Py.round (sum_of weighted (buys_of k l)
                  / sum_of Entry.size (buys_of k l)) 4)
  /\ (0 < sum_of Entry.size exits ->
      Position.avgExitPrice p
      = Py.round (sum_of weighted exits / sum_of Entry.size exits) 4).
Proof.
  unfold position_at.
  destruct (lookup k (group l)) as [m|] eqn:E; [|discriminate].
  intros [= <-] Hb Hs Hr.
  destruct (AggregateFacts.position_at_buckets _ _ _ E) as (Eb & Es & Er).
  cbv zeta. unfold summarize.
  cbn [Position.avgEntryPrice Position.avgExitPrice].
  rewrite Eb, Es, Er. split; [|split; [|split; [|split]]].
  - split; apply round4_unit, weighted_avg_unit.
    + exact Hb.
    + apply Forall_app. now split.
  - intros Z. now rewrite (weighted_avg_zero _ Z).
  - intros Z. now rewrite (weighted_avg_zero _ Z).
  - intros P. now rewrite (weighted_avg_value _ P).
  - intros P. now rewrite (weighted_avg_value _ P).
Qed.

Lemma X5_average_prices_in_unit_interval_witness :
  position_at "will-it-rain|Yes" Samples.sold_90
  = Some Samples.sold_90_position
  /\ 0 <= Position.avgEntryPrice Samples.sold_90_position <= 1.
Proof.
  assert (H : position_at "will-it-rain|Yes" Samples.sold_90
              = Some Samples.sold_90_position) by reflexivity.
  split; [exact H|].
  refine (proj1 (proj1 (X5_average_prices_in_unit_interval _ _ _ H _ _ _)));
    vm_compute; repeat constructor; discriminate.
Defined.

(** A position without a buy reports the average entry price 0. *)
Example sold_only_average :
  map Position.avgEntryPrice
      (aggregate_trades [Samples.fill "SELL" 0.6 54 90 1700003600 "Rain?"])
  = [0].
Proof. reflexivity. Qed.

(** *** Reported P&L *)

Lemma round2_cents (x : Q) :
  Py.round x 2 == inject_Z (Py.round_half_even (x * 100)) * (1 # 100).
Proof.
  pose proof (RoundFacts.round_value x 1) as V. cbv zeta in V.
  change (Z.pos (10 ^ Pos.of_nat 2)) with 100%Z in V.
  change (inject_Z 100) with 100 in V.
  rewrite V. field.
Qed.

Lemma summarize_pnl_within_a_cent (m : Market.t) :
  let p := summarize m in
  - (1 # 100)
  <= Position.pnl p - (Position.totalSold p - Position.totalBought p)
  <= 1 # 100.
Proof.
  cbv zeta. unfold summarize.
  cbn [Position.pnl Position.totalSold Position.totalBought].
  set (S := total_sold_of m). set (B := total_bought_of m).
  rewrite !round2_cents.
  pose proof (RoundFacts.round_half_even_error ((S - B) * 100)) as Ep.
  pose proof (RoundFacts.round_half_even_error (S * 100)) as Es.
  pose proof (RoundFacts.round_half_even_error (B * 100)) as Eb.
  set (zp := Py.round_half_even ((S - B) * 100)) in *.
  set (zs := Py.round_half_even (S * 100)) in *.
  set (zb := Py.round_half_even (B * 100)) in *.
  assert (D : - (3 # 2) <= inject_Z (zp - zs + zb) <= 3 # 2).
  { unfold Z.sub. rewrite !inject_Z_plus, !inject_Z_opp. split; lra. }
  assert (Z1 : (-1 <= zp - zs + zb <= 1)%Z).
  { destruct D as [D1 D2]. unfold Qle in D1, D2. simpl in D1, D2. lia. }
  assert (Q1 : - (1) <= inject_Z (zp - zs + zb) <= 1).
  { destruct Z1 as [A B']. rewrite Zle_Qle in A, B'. split; assumption. }
  unfold Z.sub in Q1. rewrite !inject_Z_plus, !inject_Z_opp in Q1.
  split; lra.
Qed.

(** X6. The reported P&L of a position is the rounded difference of the
    exact totals, so it can differ from the difference of the two
    reported totals, by one cent at most. *)
Theorem X6_pnl_within_a_cent_of_totals (l : list Fill.t) (p : Position.t) :
  In p (aggregate_trades l) ->
  - (1 # 100)
  <= Position.pnl p - (Position.totalSold p - Position.totalBought p)
  <= 1 # 100.
Proof.
  intros H. apply AggregateFacts.aggregate_trades_In in H.
  destruct H as (k & H). unfold position_at in H.
  destruct (lookup k (group l)) as [m|]; [|discriminate].
  injection H as <-. apply summarize_pnl_within_a_cent.
Qed.

Lemma X6_pnl_within_a_cent_of_totals_witness :
  In Samples.sold_90_position (aggregate_trades Samples.sold_90)
  /\ - (1 # 100)
     <= Position.pnl Samples.sold_90_position
        - (Position.totalSold Samples.sold_90_position
           - Position.totalBought Samples.sold_90_position)
     <= 1 # 100.
Proof.
  assert (H : In Samples.sold_90_position (aggregate_trades Samples.sold_90))
    by (vm_compute; auto).
  split; [exact H|].
  exact (X6_pnl_within_a_cent_of_totals _ _ H).
Defined.

(** *** Status without buys *)

(** X7. A position without buys and without redemptions is open,
    whatever was sold: sells alone never close a position. *)
Theorem X7_sells_alone_stay_open (l : list Fill.t) (k : string)
    (p : Position.t) :
  position_at k l = Some p ->
  buys_of k l = [] -> redemptions_of k l = [] ->
  Position.status p = open.
Proof.
  unfold position_at.
  destruct (lookup k (group l)) as [m|] eqn:E; [|discriminate].
  intros [= <-] Hb Hr.
  destruct (AggregateFacts.position_at_buckets _ _ _ E) as (Eb & _ & Er).
  change (Position.status (summarize m)) with (status_of m).
  apply AggregateFacts.status_open_iff.
  rewrite AggregateFacts.status_of_closed_iff.
  unfold buy_size_of. rewrite Eb, Er, Hb, Hr.
  intros [N|[_ N]]; [congruence|].
  unfold sum_of in N. simpl in N. discriminate N.
Qed.

Lemma X7_sells_alone_stay_open_witness :
  position_at "will-it-rain|Yes"
    [Samples.fill "SELL" 0.6 54 90 1700003600 "Rain?"]
  = Some (summarize (absorb_all
                       [Samples.fill "SELL" 0.6 54 90 1700003600 "Rain?"]
                       Market.empty))
  /\ Position.status
       (summarize (absorb_all
                     [Samples.fill "SELL" 0.6 54 90 1700003600 "Rain?"]
                     Market.empty)) = open.
Proof.
  assert (H : position_at "will-it-rain|Yes"
                [Samples.fill "SELL" 0.6 54 90 1700003600 "Rain?"]
              = Some (summarize (absorb_all
                       [Samples.fill "SELL" 0.6 54 90 1700003600 "Rain?"]
                       Market.empty))) by reflexivity.
  split; [exact H|].
  apply (X7_sells_alone_stay_open _ _ _ H); reflexivity.
Defined.

(** *** The date of a closed position *)

Lemma substring_prefix (a b : string) :
  substring 0 (String.length a) (a ++ b) = a.
Proof.
  induction a as [|c a IH]; simpl.
  - now destruct b.
  - now rewrite IH.
Qed.

Lemma strftime_date_length (ts : Z) :
  String.length (PyTime.strftime_date ts) = 10%nat.
Proof.
  unfold PyTime.strftime_date.
  destruct (PyTime.civil_from_days _) as [[y m] d]. reflexivity.
Qed.

(** [ts_to_date] of the string that [ts_to_iso] made of a timestamp is
    [ts_to_date] of the timestamp. *)
Lemma date_of_iso (ts : Z) : ts_to_date_str (ts_to_iso ts) = ts_to_date ts.
Proof.
  unfold ts_to_iso, ts_to_date. destruct (ts =? 0)%Z; [reflexivity|].
  unfold ts_to_date_str, PyTime.strftime_iso. cbv zeta.
  set (rest := ("T" ++ _)%string).
  pose proof (strftime_date_length ts) as L.
  assert (NE : String.eqb (PyTime.strftime_date ts ++ rest) "" = false).
  { destruct (PyTime.strftime_date ts); [discriminate L|reflexivity]. }
  rewrite NE. rewrite <- L. apply substring_prefix.
Qed.

Lemma last_trade_of_key (l : list Fill.t) (k : string) (p : Position.t) :
  position_at k l = Some p ->
  (stamped_ts k l = [] -> Position.lastTrade p = ""%string)
  /\ (forall hi, is_max hi (stamped_ts k l) ->
                 Position.lastTrade p = ts_to_iso hi).
Proof.
  unfold position_at.
  destruct (lookup k (group l)) as [m|] eqn:E; [|discriminate].
  intros [= <-]. pose proof (AggregateFacts.all_ts_of_group _ _ _ E) as T.
  unfold summarize. cbn [Position.lastTrade]. rewrite T. clear T.
  destruct (Py.sort Z.ltb (stamped_ts k l)) as [|t rest] eqn:S.
  - apply PyFacts.sort_nil_iff in S. rewrite S. split; [auto|].
    intros hi [[] _].
  - destruct (AggregateFacts.sorted_ends _ _ _ S) as [_ Hmax]. split.
    + intros N. rewrite N in S. discriminate.
    + intros hi Hhi. now rewrite (AggregateFacts.is_max_unique _ _ _ Hhi Hmax).
Qed.

(** X8. The date shown for a closed position is the calendar day of the
    latest non-zero timestamp among its buys, sells and redemptions, and
    it is empty when there is none: cutting the ISO rendering of
    [lastTrade] to ten characters gives the day of that timestamp. *)
Theorem X8_closed_date_is_day_of_last_trade (l : list Fill.t) (k : string)
    (p : Position.t) (width : option nat) :
  position_at k l = Some p ->
  (stamped_ts k l = [] -> Closed.date (closed_entry width p) = ""%string)
  /\ (forall hi, is_max hi (stamped_ts k l) ->
                 Closed.date (closed_entry width p) = ts_to_date hi
                 /\ Closed.date (closed_entry width p)
                    = PyTime.strftime_date hi).
Proof.
  intros H. destruct (last_trade_of_key l k p H) as [H0 H1].
  cbn [closed_entry Closed.date]. split.
  - intros N. now rewrite (H0 N).
  - intros hi Hhi. rewrite (H1 hi Hhi), date_of_iso.
    split; [reflexivity|].
    unfold ts_to_date.
    assert (NZ : hi <> 0%Z).
    { destruct Hhi as [Hin _]. unfold stamped_ts in Hin.
      apply filter_In in Hin. destruct Hin as [_ T]. unfold truthy in T.
      apply negb_true_iff, Z.eqb_neq in T. exact T. }
    apply Z.eqb_neq in NZ. now rewrite NZ.
Qed.

Lemma X8_closed_date_is_day_of_last_trade_witness :
  position_at "will-it-rain|Yes" Samples.sold_90
  = Some Samples.sold_90_position
  /\ Closed.date (closed_entry None Samples.sold_90_position)
     = "2023-11-14"%string.
Proof.
  assert (H : position_at "will-it-rain|Yes" Samples.sold_90
              = Some Samples.sold_90_position) by reflexivity.
  split; [exact H|].
  destruct (X8_closed_date_is_day_of_last_trade _ _ _ None H) as [_ R].
  apply (R 1700003600%Z). split; simpl; intuition lia.
Defined.

(** *** The summary of a trader *)

Lemma filter_closed_open (ps : list Position.t) :
  (List.length (filter is_closed ps) + List.length (filter is_open ps))%nat
  = List.length ps.
Proof.
  induction ps as [|p ps IH]; [reflexivity|].
  unfold is_closed, is_open in *. simpl.
  destruct (Position.status p); simpl; lia.
Qed.

Lemma aggregate_length_le (raw : list Fill.t) :
  (List.length (aggregate_trades raw) <= List.length raw)%nat.
Proof.
  unfold aggregate_trades, keyed_results.
  rewrite PySortFacts.sort_length, !length_map.
  rewrite <- (length_map fst (group raw)), <- (length_map key_of raw).
  apply NoDup_incl_length; [apply AggregateFacts.group_NoDup|].
  intros k Hk. apply AggregateFacts.group_keys in Hk.
  apply AggregateMore.fills_of_nonempty in Hk. destruct Hk as (t & Ht & <-).
  now apply in_map.
Qed.

Lemma of_nat_le (a b : nat) : (a <= b)%nat -> Analyze.of_nat a <= Analyze.of_nat b.
Proof.
  intros H. unfold Analyze.of_nat. rewrite <- Zle_Qle. lia.
Qed.

Lemma win_rate_of_unit (closed : list Position.t) :
  0 <= win_rate_of closed <= 1.
Proof.
  unfold win_rate_of. destruct closed as [|p ps]; [split; discriminate|].
  cbn [is_nil].
  set (w := List.length (filter won (p :: ps))).
  set (c := List.length (p :: ps)).
  assert (Hw : (w <= c)%nat) by apply filter_length_le.
  assert (Hc : 0 < Analyze.of_nat c).
  { unfold Analyze.of_nat, c. simpl List.length.
    change 0 with (inject_Z 0). rewrite <- Zlt_Qlt. lia. }
  assert (H0 : 0 <= Analyze.of_nat w).
  { unfold Analyze.of_nat. change 0 with (inject_Z 0).
    rewrite <- Zle_Qle. lia. }
  pose proof (of_nat_le w c Hw) as Hle. split.
  - apply Qle_shift_div_l; [exact Hc|]. lra.
  - apply Qle_shift_div_r; [exact Hc|]. lra.
Qed.

(** X9. In the summary of a trader the closed and the open positions
    add up to the positions of the history, one per market key of the raw
    fills and no more than there are raw fills; the win rate lies between
    0 and 1 and is 0 when no position is closed. *)
Theorem X9_summary_counts (address : string) (raw : list Fill.t) :
  let h := history_of address (Some raw) in
  let s := History.summary h in
  Summary.totalTrades s = List.length raw
  /\ (Summary.closedPositions s + Summary.openPositions s)%nat
     = List.length (History.trades h)
  /\ List.length (History.trades h)
     = List.length (first_seen (map key_of raw))
  /\ (Summary.closedPositions s + Summary.openPositions s
      <= Summary.totalTrades s)%nat
  /\ 0 <= Summary.winRate s <= 1
  /\ (Summary.closedPositions s = 0%nat -> Summary.winRate s = 0).
Proof.
  cbv zeta. unfold history_of.
  cbn [History.summary History.trades Summary.totalTrades
       Summary.closedPositions Summary.openPositions Summary.winRate].
  split; [reflexivity|]. split; [apply filter_closed_open|]. split; [|split].
  - unfold aggregate_trades, keyed_results.
    rewrite PySortFacts.sort_length, !length_map.
    now rewrite <- AggregateMore.group_first_seen, length_map.
  - rewrite filter_closed_open. apply aggregate_length_le.
  - split.
    + apply round4_unit, win_rate_of_unit.
    + intros H. apply length_zero_iff_nil in H. rewrite H. reflexivity.
Qed.

(** *** The closed positions that are shown *)

Lemma closed_sorted (raw : list Fill.t) :
  StronglySorted (fun a b => abs_pnl b <= abs_pnl a)
                 (filter is_closed (aggregate_trades raw)).
Proof.
  apply PySortFacts.filter_sorted.
  unfold aggregate_trades. apply PySortFacts.sort_sorted.
  - intros x y H. now apply PyFacts.ltb_ge in H.
  - intros x y H. apply PyFacts.ltb_lt in H. now apply Qlt_le_weak.
  - intros x y z H1 H2. now apply Qle_trans with (abs_pnl y).
Qed.

(** X10. The closed positions written for a trader are the first 20 (15
    in [build_closed_js]) closed positions of the history: each of them is
    a closed position of the result, and no closed position that is left
    out has a larger absolute P&L than one that is shown. *)
Theorem X10_shown_closed_positions_are_the_largest (address : string)
    (raw : list Fill.t) :
  let h := history_of address (Some raw) in
  let closed := filter is_closed (aggregate_trades raw) in
  closed_positions h = map (closed_entry None) (firstn 20 closed)
  /\ build_closed_js (Some h)
     = map (closed_entry (Some 80%nat)) (firstn 15 closed)
  /\ (List.length (closed_positions h) <= 20)%nat
  /\ (List.length (build_closed_js (Some h)) <= 15)%nat
  /\ (forall n x, In x (firstn n closed) ->
                  In x (aggregate_trades raw) /\ Position.status x = Aggregate.closed)
  /\ (forall n x y, In x (firstn n closed) -> In y (skipn n closed) ->
                    abs_pnl y <= abs_pnl x).
Proof.
  cbv zeta. unfold closed_positions, build_closed_js, history_of.
  cbn [History.trades].
  split; [reflexivity|]. split; [reflexivity|]. split; [|split; [|split]].
  - rewrite length_map. apply firstn_le_length.
  - rewrite length_map. apply firstn_le_length.
  - intros n x Hx. apply PySortFacts.firstn_incl in Hx.
    apply filter_In in Hx. destruct Hx as [Hin Hc]. split; [exact Hin|].
    unfold is_closed in Hc. now destruct (Position.status x).
  - intros n x y Hx Hy.
    exact (PySortFacts.firstn_before_skipn _ n _ (closed_sorted raw) x y Hx Hy).
Qed.

End ReportFacts.

(* ================================================================== *)
(** ** The paginated fetch *)

Module FetchFacts.
Import Fetch.

Local Open Scope Z_scope.

Lemma max_trades_of_le (predictions : Z) : max_trades_of predictions <= 500.
Proof.
  unfold max_trades_of. destruct (predictions <? 500); lia.
Qed.

Lemma iterations_le (max_trades : Z) :
  max_trades <= 500 -> (iterations max_trades <= 5)%nat.
Proof.
  intros H. unfold iterations.
  assert ((max_trades + 99) / 100 <= 5).
  { apply Z.lt_succ_r. apply Z.div_lt_upper_bound; lia. }
  lia.
Qed.

Section Pages.

Context {A : Type}.
Variable page : Z -> option (list A).

Lemma pages_from_succ (offset : Z) (k : nat) :
  pages_from page offset (S k)
  = (page_content page offset ++ pages_from page (offset + 100) k)%list.
Proof.
  unfold pages_from. rewrite <- cons_seq, <- seq_shift, map_cons, map_map.
  cbn [List.concat]. rewrite Z.mul_0_r, Z.add_0_r. f_equal. f_equal.
  apply map_ext. intros i. f_equal. lia.
Qed.

(** The loop returns what it had, followed by a run of consecutive
    pages. *)
Lemma fetch_loop_pages (fuel : nat) (max_trades offset : Z) (all : list A) :
  exists k, (k <= fuel)%nat
            /\ fetch_loop page fuel max_trades offset all
               = (all ++ pages_from page offset k)%list.
Proof.
  revert offset all. induction fuel as [|fuel IH]; intros offset all.
  - exists 0%nat. split; [lia|]. simpl. now rewrite app_nil_r.
  - simpl. destruct (offset <? max_trades);
      [|exists 0%nat; split; [lia|]; simpl; now rewrite app_nil_r].
    destruct (page offset) as [data|] eqn:P;
      [|exists 0%nat; split; [lia|]; simpl; now rewrite app_nil_r].
    destruct data as [|d data];
      [exists 0%nat; split; [lia|]; simpl; now rewrite app_nil_r|].
    destruct (List.length (d :: data) <? 100)%nat.
    + exists 1%nat. split; [lia|].
      rewrite pages_from_succ. unfold page_content. rewrite P.
      unfold pages_from. simpl. now rewrite !app_nil_r.
    + destruct (IH (offset + 100) (all ++ d :: data)%list) as (k & Hk & E).
      exists (S k). split; [lia|].
      rewrite E, pages_from_succ. unfold page_content at 1. rewrite P.
      now rewrite <- app_assoc.
Qed.

(** The iterations that the loop needs from an offset on are enough. *)
Lemma fetch_loop_fuel (n fuel : nat) (max_trades offset : Z) (all : list A) :
  (Z.to_nat ((max_trades - offset + 99) / 100) <= n)%nat -> (n <= fuel)%nat ->
  fetch_loop page fuel max_trades offset all
  = fetch_loop page n max_trades offset all.
Proof.
  revert fuel offset all. induction n as [|n IH]; intros fuel offset all Hn Hf.
  - assert (O : (offset <? max_trades) = false).
    { apply Z.ltb_ge.
      destruct (Z.le_gt_cases max_trades offset) as [H|H]; [exact H|].
      assert (1 <= (max_trades - offset + 99) / 100)
        by (apply Z.div_le_lower_bound; lia).
      lia. }
    destruct fuel; simpl; [reflexivity|now rewrite O].
  - destruct fuel as [|fuel]; [lia|]. simpl.
    destruct (offset <? max_trades) eqn:O; [|reflexivity].
    destruct (page offset) as [[|d data]|]; try reflexivity.
    destruct (List.length (d :: data) <? 100)%nat; [reflexivity|].
    apply IH; [|lia].
    replace (max_trades - (offset + 100) + 99)
      with ((max_trades - offset + 99) + (-1) * 100) by lia.
    rewrite Z.div_add by lia. lia.
Qed.

Lemma full_true (offset : Z) :
  full page offset = true ->
  exists d data, page offset = Some (d :: data)
                 /\ (List.length (d :: data) <? 100)%nat = false.
Proof.
  unfold full. destruct (page offset) as [[|d data]|]; try discriminate.
  intros H. exists d, data. split; [reflexivity|].
  now apply negb_true_iff in H.
Qed.

(** While the pages are full the loop goes on, as long as the offset is
    below the bound. *)
Lemma fetch_loop_full (fuel : nat) (max_trades offset : Z) (all : list A) :
  (forall i, (i < fuel)%nat ->
             offset + 100 * Z.of_nat i < max_trades
             /\ full page (offset + 100 * Z.of_nat i) = true) ->
  fetch_loop page fuel max_trades offset all
  = (all ++ pages_from page offset fuel)%list.
Proof.
  revert offset all. induction fuel as [|fuel IH]; intros offset all H.
  - simpl. now rewrite app_nil_r.
  - destruct (H 0%nat ltac:(lia)) as [B F].
    rewrite Z.mul_0_r, Z.add_0_r in B, F.
    apply full_true in F. destruct F as (d & data & P & L).
    cbn [fetch_loop]. apply Z.ltb_lt in B. rewrite B, P, L.
    rewrite IH.
    + rewrite pages_from_succ. unfold page_content at 1. rewrite P.
      now rewrite <- app_assoc.
    + intros i Hi. destruct (H (S i) ltac:(lia)) as [B' F'].
      replace (offset + 100 + 100 * Z.of_nat i)
        with (offset + 100 * Z.of_nat (S i)) by lia.
      now split.
Qed.

(** The loop stops after the first page that is not full. *)
Lemma fetch_loop_stops (j fuel : nat) (max_trades offset : Z) (all : list A) :
  (j < fuel)%nat -> offset + 100 * Z.of_nat j < max_trades ->
  (forall i, (i < j)%nat -> full page (offset + 100 * Z.of_nat i) = true) ->
  full page (offset + 100 * Z.of_nat j) = false ->
  fetch_loop page fuel max_trades offset all
  = (all ++ pages_from page offset (S j))%list.
Proof.
  revert fuel offset all. induction j as [|j IH]; intros fuel offset all Hf B F N.
  - destruct fuel as [|fuel]; [lia|].
    rewrite Z.mul_0_r, Z.add_0_r in B, N.
    cbn [fetch_loop]. apply Z.ltb_lt in B. rewrite B.
    rewrite pages_from_succ. unfold page_content, full in *.
    unfold pages_from. cbn [seq map List.concat]. rewrite !app_nil_r.
    destruct (page offset) as [[|d data]|]; try (now rewrite app_nil_r).
    apply negb_false_iff in N. now rewrite N.
  - destruct fuel as [|fuel]; [lia|].
    pose proof (F 0%nat ltac:(lia)) as F0.
    rewrite Z.mul_0_r, Z.add_0_r in F0.
    apply full_true in F0. destruct F0 as (d & data & P & L).
    cbn [fetch_loop].
    assert (B0 : (offset <? max_trades) = true) by (apply Z.ltb_lt; lia).
    rewrite B0, P, L.
    rewrite (IH fuel (offset + 100) (all ++ d :: data)%list).
    + rewrite (pages_from_succ offset (S j)). unfold page_content at 1.
      rewrite P. now rewrite <- app_assoc.
    + lia.
    + lia.
    + intros i Hi.
      replace (offset + 100 + 100 * Z.of_nat i)
        with (offset + 100 * Z.of_nat (S i)) by lia.
      apply F. lia.
    + replace (offset + 100 + 100 * Z.of_nat j)
        with (offset + 100 * Z.of_nat (S j)) by lia.
      exact N.
Qed.

(** The offsets of the iterations are below the bound. *)
Lemma iterations_offset (max_trades : Z) (i : nat) :
  (i < iterations max_trades)%nat -> 100 * Z.of_nat i < max_trades.
Proof.
  unfold iterations. intros H.
  assert (Q : 100 * ((max_trades + 99) / 100) <= max_trades + 99)
    by (apply Z.mul_div_le; lia).
  lia.
Qed.

(** X11. The fetch returns the pages at the offsets 0, 100, 200, ... in
    this order and without a gap.  It goes on while the pages are full
    (100 entries or more) and the offset is below [max_trades]: when the
    page of iteration [j] is the first that is not full, the result is the
    pages up to and with that one, whose content is empty when the request
    fails; when all the [ceil(max_trades / 100)] pages are full, it is
    these pages.  That many iterations end the loop: with more
    iterations allowed the result is the same. *)
Theorem X11_fetch_is_a_run_of_pages (max_trades : Z) :
  (exists k, (k <= iterations max_trades)%nat
             /\ fetch_trades page max_trades = pages_from page 0 k)
  /\ (forall extra,
        fetch_loop page (iterations max_trades + extra) max_trades 0 []
        = fetch_trades page max_trades)
  /\ (forall j,
        (j < iterations max_trades)%nat ->
        (forall i, (i < j)%nat -> full page (100 * Z.of_nat i) = true) ->
        full page (100 * Z.of_nat j) = false ->
        fetch_trades page max_trades = pages_from page 0 (S j))
  /\ ((forall i, (i < iterations max_trades)%nat ->
                 full page (100 * Z.of_nat i) = true) ->
      fetch_trades page max_trades
      = pages_from page 0 (iterations max_trades)).
Proof.
  split; [|split; [|split]].
  - destruct (fetch_loop_pages (iterations max_trades) max_trades 0 [])
      as (k & Hk & E).
    exists k. split; [exact Hk|exact E].
  - intros extra. unfold fetch_trades. apply fetch_loop_fuel; [|lia].
    unfold iterations. rewrite Z.sub_0_r. lia.
  - intros j Hj F N. unfold fetch_trades.
    rewrite (fetch_loop_stops j); try assumption.
    + reflexivity.
    + rewrite Z.add_0_l. now apply iterations_offset.
  - intros F. unfold fetch_trades. rewrite fetch_loop_full; [reflexivity|].
    intros i Hi. rewrite Z.add_0_l. split.
    + now apply iterations_offset.
    + now apply F.
Qed.

Lemma pages_from_length (offset : Z) (k : nat) :
  (forall o data, page o = Some data -> (List.length data <= 100)%nat) ->
  (List.length (pages_from page offset k) <= 100 * k)%nat.
Proof.
  intros H. revert offset. induction k as [|k IH]; intros offset.
  - simpl. lia.
  - rewrite pages_from_succ, length_app.
    specialize (IH (offset + 100)).
    assert (L : (List.length (page_content page offset) <= 100)%nat).
    { unfold page_content. destruct (page offset) as [data|] eqn:P.
      - now apply (H offset).
      - simpl. lia. }
    lia.
Qed.

(** X12. When no page has more than 100 entries, the fetch returns at
    most [100 * ceil(max_trades / 100)] trades, and with the bound that
    the main loop computes from the trader's predictions at most 500. *)
Theorem X12_fetch_length_bound (max_trades : Z) :
  (forall o data, page o = Some data -> (List.length data <= 100)%nat) ->
  (List.length (fetch_trades page max_trades) <= 100 * iterations max_trades)%nat
  /\ (forall predictions,
        (List.length
           (fetch_trades page (max_trades_of (predictions_of predictions)))
         <= 500)%nat).
Proof.
  intros H.
  assert (B : forall m, (List.length (fetch_trades page m)
                         <= 100 * iterations m)%nat).
  { intros m.
    destruct (fetch_loop_pages (iterations m) m 0 []) as (k & Hk & E).
    unfold fetch_trades. rewrite E. simpl app.
    pose proof (pages_from_length 0 k H). lia. }
  split; [apply B|].
  intros predictions. specialize (B (max_trades_of (predictions_of predictions))).
  pose proof (iterations_le _ (max_trades_of_le (predictions_of predictions))).
  lia.
Qed.

End Pages.

(** Pages of 100 entries that never run out. *)
Lemma X12_fetch_length_bound_witness :
  (forall o data, (fun _ : Z => Some (repeat tt 100)) o = Some data ->
                  (List.length data <= 100)%nat)
  /\ (List.length (fetch_trades (fun _ => Some (repeat tt 100)) 250) <= 300)%nat.
Proof.
  assert (H : forall o data, (fun _ : Z => Some (repeat tt 100)) o = Some data ->
                             (List.length data <= 100)%nat).
  { intros o data [= <-]. apply Nat.leb_le. reflexivity. }
  split; [exact H|].
  exact (proj1 (X12_fetch_length_bound (fun _ => Some (repeat tt 100)) 250 H)).
Defined.

End FetchFacts.

(* ================================================================== *)
(** ** More on the analysis *)

Module AnalyzeMore.
Import Analyze Views.

(** *** Returns *)

(** X13. The return of a position is 0 when the entry price is not
    positive; otherwise it is positive exactly when the exit price is above
    the entry price, and it is at least -1 as soon as the exit price is not
    negative. *)
Theorem X13_return_of_bounds (entryPrice exitPrice : Q) :
  (entryPrice <= 0 -> return_of entryPrice exitPrice = 0)
  /\ (0 < entryPrice ->
      (0 < return_of entryPrice exitPrice <-> entryPrice < exitPrice))
  /\ (0 <= exitPrice -> -1 <= return_of entryPrice exitPrice).
Proof.
  unfold return_of. destruct (Py.ltb 0 entryPrice) eqn:E.
  - apply PyFacts.ltb_lt in E.
    assert (D : (exitPrice - entryPrice) / entryPrice
                == exitPrice / entryPrice - 1) by (field; lra).
    split; [intros H; lra|]. split.
    + intros _. rewrite D. split; intros H.
      * apply Qnot_le_lt. intros C.
        assert (exitPrice / entryPrice <= 1)
          by (apply Qle_shift_div_r; [exact E|lra]).
        lra.
      * assert (1 < exitPrice / entryPrice)
          by (apply Qlt_shift_div_l; [exact E|lra]).
        lra.
    + intros H. rewrite D.
      assert (0 <= exitPrice / entryPrice)
        by (apply Qle_shift_div_l; [exact E|lra]).
      lra.
  - apply PyFacts.ltb_ge in E.
    split; [reflexivity|]. split; [intros H; lra|intros _; discriminate].
Qed.

(** *** The floor of the capital *)




Section Floor.

Variable sqrt : Q -> Q.




End Floor.


(** *** The additive policies *)

Section Additive.

Variable sqrt : Q -> Q.

Lemma simulate_additive (all_positions : list Pos.t) (tf : Timeframe)
    (stream : list Pos.t) :
  let s := simulate sqrt all_positions tf stream in
  Sim.eq_cap s
  == STARTING_CAPITAL + BASE_POSITION * Py.sum (map Pos.ret stream)
  /\ Sim.sh_cap s
     == STARTING_CAPITAL
        + BASE_POSITION
          * Py.sum (map (fun p => sharpe_weight sqrt all_positions tf p
                                  * Pos.ret p) stream)
  /\ Sim.wins s = count_if (fun p => Py.ltb 0 (Pos.pnl p)) stream.
Proof.
  cbv zeta. induction stream as [|p pre (IH1 & IH2 & IH3)] using rev_ind.
  - simpl. rewrite PyFacts.sum_nil. repeat split; ring.
  - rewrite AnalyzeFacts.simulate_snoc.
    cbn [sim_step Sim.eq_cap Sim.sh_cap Sim.wins].
    rewrite !map_app, !PyFacts.sum_app. simpl map.
    rewrite !PyFacts.sum_cons, !PyFacts.sum_nil, IH1, IH2, IH3.
    split; [ring|]. split; [ring|].
    unfold count_if. rewrite filter_app, length_app. simpl.
    destruct (Py.ltb 0 (Pos.pnl p)); simpl; lia.
Qed.

(** *** The result of a window *)

Lemma round1_percent (x : Q) : 0 <= x <= 100 -> 0 <= Py.round x 1 <= 100.
Proof.
  intros [H0 H1]. split.
  - apply Qle_trans with (0 # 10); [discriminate|].
    apply (AnalyzeFacts.round_ge x 0 0).
    apply Qle_trans with 0; [discriminate|exact H0].
  - apply Qle_trans with (1000 # 10); [|discriminate].
    apply (RoundFacts.round_le x 0 1000).
    apply Qle_trans with 100; [exact H1|discriminate].
Qed.

Lemma percent_of_count (w n : nat) :
  (w <= n)%nat -> (0 < n)%nat -> 0 <= of_nat w / of_nat n * 100 <= 100.
Proof.
  intros Hw Hn.
  assert (Hc : 0 < of_nat n).
  { unfold of_nat. change 0 with (inject_Z 0). rewrite <- Zlt_Qlt. lia. }
  assert (H0 : 0 <= of_nat w).
  { unfold of_nat. change 0 with (inject_Z 0). rewrite <- Zle_Qle. lia. }
  assert (Hle : of_nat w <= of_nat n).
  { unfold of_nat. rewrite <- Zle_Qle. lia. }
  assert (A : 0 <= of_nat w / of_nat n)
    by (apply Qle_shift_div_l; [exact Hc|lra]).
  assert (B : of_nat w / of_nat n <= 1)
    by (apply Qle_shift_div_r; [exact Hc|lra]).
  split; lra.
Qed.

(** X16. The result of a window reports as trades the number of
    positions that closed in the window and as win rate the percentage of
    them with a positive P&L, between 0 and 100; a window without
    positions reports zeros for every policy. *)
Theorem X16_window_result (all_positions : list Pos.t)
    (trader_by_addr : string -> option Trader.t) (tf : Timeframe) :
  let stream := tf_positions all_positions tf in
  let r := strategy_results sqrt all_positions trader_by_addr tf in
  let wins := count_if (fun p => Py.ltb 0 (Pos.pnl p)) stream in
  Result.trades r = List.length stream
  /\ 0 <= Result.winRate r <= 100
  /\ (stream <> [] ->
      Result.winRate r
      = Py.round (of_nat wins / of_nat (List.length stream) * 100) 1)
  /\ (stream = [] -> r = Result.mk 0 0 0 0 0 0).
Proof.
  cbv zeta. unfold strategy_results.
  destruct (tf_positions all_positions tf) as [|p ps] eqn:E.
  - cbn. repeat split; try discriminate; congruence.
  - cbn [Result.trades Result.winRate].
    destruct (simulate_additive all_positions tf (p :: ps)) as (_ & _ & W).
    rewrite W. split; [reflexivity|]. split; [|split].
    + apply round1_percent, percent_of_count.
      * unfold count_if. apply filter_length_le.
      * simpl. lia.
    + reflexivity.
    + discriminate.
Qed.

End Additive.

(** *** Windows *)

Lemma select_select (ps : list Pos.t) (start start' : Z) :
  (start <= start')%Z -> select (select ps start) start' = select ps start'.
Proof.
  intros H. unfold select. induction ps as [|p ps IH]; [reflexivity|].
  simpl. destruct (in_window start p) eqn:A; simpl;
    destruct (in_window start' p) eqn:B; try (now rewrite IH); try exact IH.
  unfold in_window in A, B. apply Z.leb_le in B. apply Z.leb_gt in A. lia.
Qed.

Lemma select_length_le (ps : list Pos.t) (start start' : Z) :
  (start <= start')%Z ->
  (List.length (select ps start') <= List.length (select ps start))%nat.
Proof.
  intros H. rewrite <- (select_select ps start start' H).
  apply filter_length_le.
Qed.

Lemma calc_stats_trades (sqrt : Q -> Q) (returns pnls : list Q) :
  Stats.trades (calc_stats sqrt returns pnls) = List.length returns.
Proof. destruct returns; reflexivity. Qed.

(** X17. A later window start selects from what an earlier one selects:
    the year-to-date, 3M, 6M, 1Y and ALL selections are nested in this
    order, and so are the trade counts of a trader's statistics. *)
Theorem X17_windows_are_nested (sqrt : Q -> Q) (all_positions : list Pos.t)
    (addr : string) :
  let sel := tf_positions all_positions in
  let n := fun tf => Stats.trades (trader_stats sqrt all_positions addr tf) in
  (sel TF_YTD = select (sel TF_3M) (timeframes TF_YTD)
   /\ sel TF_3M = select (sel TF_6M) (timeframes TF_3M)
   /\ sel TF_6M = select (sel TF_1Y) (timeframes TF_6M)
   /\ sel TF_1Y = select (sel TF_ALL) (timeframes TF_1Y))
  /\ (n TF_YTD <= n TF_3M /\ n TF_3M <= n TF_6M
      /\ n TF_6M <= n TF_1Y /\ n TF_1Y <= n TF_ALL)%nat.
Proof.
  cbv zeta. split.
  - unfold tf_positions.
    repeat split; symmetry; apply select_select; vm_compute; discriminate.
  - unfold trader_stats. rewrite !calc_stats_trades, !length_map.
    repeat split; apply select_length_le; vm_compute; discriminate.
Qed.

(** *** The order of the stream *)

(** X18. Sorting by exit time gives the same positions in ascending
    exit order, positions that closed at the same second keeping their
    order; and every window of the sorted list is again in ascending exit
    order, so the replay of a window is chronological. *)
Theorem X18_stream_is_chronological (ps : list Pos.t) :
  Permutation (sort_by_exit ps) ps
  /\ exits_ascending (sort_by_exit ps)
  /\ (forall ts,
        filter (fun p => (Pos.exit_ts p =? ts)%Z) (sort_by_exit ps)
        = filter (fun p => (Pos.exit_ts p =? ts)%Z) ps)
  /\ (forall tf, exits_ascending (tf_positions (sort_by_exit ps) tf)).
Proof.
  assert (S : exits_ascending (sort_by_exit ps)).
  { unfold exits_ascending, sort_by_exit. apply PySortFacts.sort_sorted.
    - intros x y H. apply Z.ltb_ge in H. exact H.
    - intros x y H. apply Z.ltb_lt in H. lia.
    - intros x y z H1 H2. lia. }
  split; [apply PyFacts.sort_perm|]. split; [exact S|]. split.
  - intros ts. unfold sort_by_exit. apply PySortFacts.sort_stable.
    intros x y Hx Hy. apply Z.eqb_eq in Hx, Hy. apply Z.ltb_ge. lia.
  - intros tf. unfold tf_positions, select.
    now apply PySortFacts.filter_sorted.
Qed.

(** *** The range of the weights *)

Lemma insider_mult_le (risk : string) : insider_mult risk <= 2.5.
Proof.
  unfold insider_mult.
  repeat (destruct (String.eqb risk _); [lra|]). lra.
Qed.

Lemma cluster_boost_le (cluster : string) : cluster_boost cluster <= 1.5.
Proof.
  unfold cluster_boost.
  destruct (String.eqb cluster ""); [lra|].
  destruct (mem _ PLAYED_OUT); [lra|].
  destruct (mem _ ACTIVE_CLUSTERS); lra.
Qed.

(** A product of a factor in [0.1, 3], an insider multiplier and a
    cluster boost lies in [0.015, 11.25]. *)
Lemma weight_product_range (c : Q) (risk cluster : string) :
  0.1 <= c <= 3 ->
  0.015 <= c * insider_mult risk * cluster_boost cluster <= 11.25.
Proof.
  intros [Hc0 Hc1].
  pose proof (AnalyzeFacts.insider_mult_ge risk) as Hi0.
  pose proof (insider_mult_le risk) as Hi1.
  pose proof (AnalyzeFacts.cluster_boost_ge cluster) as Hb0.
  pose proof (cluster_boost_le cluster) as Hb1.
  set (i := insider_mult risk) in *. set (b := cluster_boost cluster) in *.
  assert (P1 : 0.1 * 0.5 <= c * i)
    by (apply Qmult_le_compat_nonneg; split; lra).
  assert (P2 : c * i <= 3 * 2.5)
    by (apply Qmult_le_compat_nonneg; split; lra).
  assert (P3 : 0.1 * 0.5 * 0.3 <= c * i * b)
    by (apply Qmult_le_compat_nonneg; split; lra).
  assert (P4 : c * i * b <= 3 * 2.5 * 1.5)
    by (apply Qmult_le_compat_nonneg; split; lra).
  split; lra.
Qed.

Lemma rec_weight_range (blended : Q) (trader : option Trader.t) :
  0.015 <= rec_weight blended trader <= 11.25.
Proof.
  unfold rec_weight.
  pose proof (weight_product_range (Py.max 0.1 (Py.min 3.0 blended))
                (trader_get trader Trader.insiderRisk "LOW")
                (trader_get trader Trader.cluster "other")) as R.
  destruct R as [R0 R1].
  { pose proof (AnalyzeFacts.clamp_cases blended) as C. cbv zeta in C.
    destruct C as ([C0 C1] & _). split; lra. }
  set (x := _ * _ * _) in *. split.
  - apply Qle_trans with (15 # 1000); [discriminate|].
    apply (AnalyzeFacts.round_ge x 2 15).
    apply Qle_trans with 0.015; [discriminate|exact R0].
  - apply Qle_trans with (11250 # 1000); [|discriminate].
    apply (RoundFacts.round_le x 2 11250).
    apply Qle_trans with 11.25; [exact R1|discriminate].
Qed.

Section Weights.

Variable sqrt : Q -> Q.

Lemma sharpe_weight_range (all_positions : list Pos.t) (tf : Timeframe)
    (p : Pos.t) :
  0.1 <= sharpe_weight sqrt all_positions tf p <= 3.
Proof.
  unfold sharpe_weight. split.
  - apply PyFacts.min_glb; [apply AnalyzeFacts.tf_sharpe_get_ge|lra].
  - apply PyFacts.min_le_r.
Qed.

(** X19. The weight of the Sharpe-weighted policy lies between 0.1 and
    3, and the weights of the Optimal and of the Recency-Optimal policy
    between 0.015 and 11.25 (1 for the latter when the address has no
    position); so the size of a position is at most 11250 under both
    capped policies, whatever the capital. *)
Theorem X19_weight_ranges (all_positions : list Pos.t)
    (trader_by_addr : string -> option Trader.t) (tf : Timeframe)
    (p : Pos.t) (cap : Q) :
  0.1 <= sharpe_weight sqrt all_positions tf p <= 3
  /\ 0.015 <= optimal_weight sqrt all_positions tf p <= 11.25
  /\ 0.015 <= recommended_weight_get sqrt all_positions trader_by_addr
                (Pos.address p) <= 11.25
  /\ opt_size sqrt all_positions tf cap p <= 11250
  /\ rb_size sqrt all_positions trader_by_addr cap p <= 11250.
Proof.
  pose proof (sharpe_weight_range all_positions tf p) as S.
  assert (O : 0.015 <= optimal_weight sqrt all_positions tf p <= 11.25)
    by (unfold optimal_weight; now apply weight_product_range).
  assert (R : 0.015 <= recommended_weight_get sqrt all_positions trader_by_addr
                         (Pos.address p) <= 11.25).
  { unfold recommended_weight_get. destruct (has_address _ _).
    - apply rec_weight_range.
    - split; lra. }
  split; [exact S|]. split; [exact O|]. split; [exact R|].
  unfold opt_size, rb_size, capped_size, BASE_POSITION. split.
  - apply Qle_trans with (1 := PyFacts.min_le_l _ _). lra.
  - apply Qle_trans with (1 := PyFacts.min_le_l _ _). lra.
Qed.

End Weights.

(** *** The cluster boost *)

Lemma lower_ascii_idem (c : ascii) : lower_ascii (lower_ascii c) = lower_ascii c.
Proof.
  destruct c as [[] [] [] [] [] [] [] []]; reflexivity.
Qed.

Lemma lower_idem (s : string) : lower (lower s) = lower s.
Proof.
  induction s as [|c s IH]; [reflexivity|].
  simpl. now rewrite lower_ascii_idem, IH.
Qed.

Lemma lower_empty (s : string) : lower s = ""%string <-> s = ""%string.
Proof.
  destruct s; simpl; split; congruence.
Qed.

Lemma cluster_boost_of_lower (cluster : string) :
  cluster_boost (lower cluster) = cluster_boost cluster.
Proof.
  unfold cluster_boost. rewrite lower_idem.
  destruct cluster as [|c cluster]; reflexivity.
Qed.

(** X20. The cluster boost does not depend on the case of the ASCII
    letters of the cluster name: two names with the same lower-case form
    have the same boost, which is 0.3, 1.5 or 1. *)
Theorem X20_cluster_boost_ignores_case (a b : string) :
  (lower a = lower b -> cluster_boost a = cluster_boost b)
  /\ (cluster_boost a = 0.3 \/ cluster_boost a = 1.5 \/ cluster_boost a = 1).
Proof.
  split.
  - intros H. now rewrite <- (cluster_boost_of_lower a), H, cluster_boost_of_lower.
  - unfold cluster_boost.
    destruct (String.eqb a ""); [auto|].
    destruct (mem _ PLAYED_OUT); [auto|].
    destruct (mem _ ACTIVE_CLUSTERS); auto.
Qed.

End AnalyzeMore.

(* ================================================================== *)
(** ** The rankings *)

Module RankingFacts.
Import Analyze Ranking Views.

Section Rankings.

Variable trader_by_addr : string -> option Trader.t.
Variable username_of : string -> option string.

Lemma ranked_items_sorted (items : StatsItems) (tf : Timeframe) :
  sharpe_descending (ranked_items trader_by_addr username_of items tf).
Proof.
  unfold sharpe_descending, ranked_items. apply PySortFacts.sort_sorted.
  - intros x y H. now apply PyFacts.ltb_ge in H.
  - intros x y H. apply PyFacts.ltb_lt in H. now apply Qlt_le_weak.
  - intros x y z H1 H2. now apply Qle_trans with (Ranked.sharpe y).
Qed.

Lemma ranked_items_In (items : StatsItems) (tf : Timeframe) (r : Ranked.t) :
  In r (ranked_items trader_by_addr username_of items tf) <->
  exists kv, In kv items /\ (3 <= Stats.trades (snd kv tf))%nat
             /\ r = ranked_item trader_by_addr username_of tf kv.
Proof.
  unfold ranked_items. rewrite PyFacts.sort_In, in_map_iff. split.
  - intros (kv & <- & H). apply filter_In in H. destruct H as [Hin Ht].
    exists kv. split; [exact Hin|]. split; [|reflexivity].
    apply negb_true_iff, Nat.ltb_ge in Ht. exact Ht.
  - intros (kv & Hin & Ht & ->). exists kv. split; [reflexivity|].
    apply filter_In. split; [exact Hin|].
    apply negb_true_iff, Nat.ltb_ge. exact Ht.
Qed.

(** X21. The ranking of a window lists exactly the traders with at least
    three trades in the window, by descending sharpe; its top part has at
    most [n] entries, none of which has a smaller sharpe than a ranked
    trader left out.  The bottom part is the list of the last [n] entries
    only when there are at least [n] ranked traders: otherwise it is the
    pair of the whole ranking and an empty list. *)
Theorem X21_get_ranked (items : StatsItems) (tf : Timeframe) (n : nat) :
  let ranked := ranked_items trader_by_addr username_of items tf in
  let top := fst (get_ranked trader_by_addr username_of items tf n) in
  let bottom := snd (get_ranked trader_by_addr username_of items tf n) in
  (forall r, In r ranked <->
             exists kv, In kv items /\ (3 <= Stats.trades (snd kv tf))%nat
                        /\ r = ranked_item trader_by_addr username_of tf kv)
  /\ sharpe_descending ranked
  /\ top = firstn n ranked /\ (List.length top <= n)%nat
  /\ sharpe_descending top
  /\ (forall x y, In x top -> In y (skipn n ranked) ->
                  Ranked.sharpe y <= Ranked.sharpe x)
  /\ ((n <= List.length ranked)%nat -> bottom = inl (lastn n ranked))
  /\ ((List.length ranked < n)%nat -> bottom = inr (ranked, [])).
Proof.
  cbv zeta. unfold get_ranked. cbn [fst snd].
  pose proof (ranked_items_sorted items tf) as S.
  split; [intros r; apply ranked_items_In|]. split; [exact S|].
  split; [reflexivity|]. split; [apply firstn_le_length|].
  split; [now apply PySortFacts.firstn_sorted|]. split; [|split].
  - intros x y Hx Hy.
    exact (PySortFacts.firstn_before_skipn _ n _ S x y Hx Hy).
  - intros H. apply Nat.leb_le in H. now rewrite H.
  - intros H. apply Nat.leb_gt in H. now rewrite H.
Qed.

(** X22. The divergence table lists exactly the traders with at least
    five trades in the ALL window, each with the rounded difference of its
    3M and ALL sharpes, by ascending difference: the largest drops come
    first. *)
Theorem X22_divergence (items : StatsItems) :
  let table := divergence username_of items in
  (forall d, In d table <->
             exists kv, In kv items
                        /\ (5 <= Stats.trades (snd kv TF_ALL))%nat
                        /\ d = divergence_item username_of kv)
  /\ (forall d, In d table ->
                Divergence.delta d
                = Py.round (Divergence.sharpe3m d - Divergence.allTimeSharpe d) 3)
  /\ delta_ascending table.
Proof.
  cbv zeta.
  assert (I : forall d, In d (divergence username_of items) <->
              exists kv, In kv items
                         /\ (5 <= Stats.trades (snd kv TF_ALL))%nat
                         /\ d = divergence_item username_of kv).
  { intros d. unfold divergence. rewrite PyFacts.sort_In, in_map_iff. split.
    - intros (kv & <- & H). apply filter_In in H. destruct H as [Hin Ht].
      exists kv. split; [exact Hin|]. split; [|reflexivity].
      apply negb_true_iff, Nat.ltb_ge in Ht. exact Ht.
    - intros (kv & Hin & Ht & ->). exists kv. split; [reflexivity|].
      apply filter_In. split; [exact Hin|].
      apply negb_true_iff, Nat.ltb_ge. exact Ht. }
  split; [exact I|]. split.
  - intros d Hd. apply I in Hd. destruct Hd as (kv & _ & _ & ->). reflexivity.
  - unfold delta_ascending, divergence. apply PySortFacts.sort_sorted.
    + intros x y H. now apply PyFacts.ltb_ge in H.
    + intros x y H. apply PyFacts.ltb_lt in H. now apply Qlt_le_weak.
    + intros x y z H1 H2. now apply Qle_trans with (Divergence.delta y).
Qed.

End Rankings.

End RankingFacts.

(* ================================================================== *)
(** ** Keys, slugs and outcomes *)

Module KeyFacts.
Import Aggregate Report.

(** A key determines its slug and its outcome when the slug has no
    separator in it. *)
Lemma key_split (a a' b b' : string) :
  bar_free a -> bar_free a' ->
  (a ++ "|" ++ b)%string = (a' ++ "|" ++ b')%string -> a = a' /\ b = b'.
Proof.
  revert a'. induction a as [|c a IH]; intros [|c' a'] Ha Ha' E; simpl in *.
  - injection E as E. auto.
  - injection E as E1 E2. destruct Ha' as [N _]. congruence.
  - injection E as E1 E2. destruct Ha as [N _]. congruence.
  - injection E as E1 E2. destruct Ha as [_ Ha], Ha' as [_ Ha'].
    destruct (IH a' Ha Ha' E2) as [-> ->]. subst. auto.
Qed.

Lemma absorb_slug_outcome (t : Fill.t) (m : Market.t) :
  Market.slug (absorb t m) = slug_of t
  /\ Market.outcome (absorb t m) = outcome_or t (Market.outcome m).
Proof.
  unfold absorb. cbv zeta.
  destruct (String.eqb _ _); [split; reflexivity|].
  destruct (String.eqb _ _); [split; reflexivity|].
  destruct (String.eqb _ _); split; reflexivity.
Qed.

Lemma absorb_all_slug_outcome (s o : string) (ts : list Fill.t) (m : Market.t) :
  ts <> [] ->
  Forall (fun t => slug_of t = s /\ Fill.outcome t = Some o) ts ->
  Market.slug (absorb_all ts m) = s
  /\ Market.outcome (absorb_all ts m) = str_or o (Market.outcome m).
Proof.
  intros N H. revert m. induction H as [|t ts [Hs Ho] H IH]; [congruence|].
  intros m. change (absorb_all (t :: ts) m) with (absorb_all ts (absorb t m)).
  destruct (absorb_slug_outcome t m) as [E1 E2].
  unfold outcome_or in E2. rewrite Ho in E2.
  destruct ts as [|t' ts'].
  - simpl. rewrite E1, E2, Hs. auto.
  - destruct (IH ltac:(discriminate) (absorb t m)) as [I1 I2].
    rewrite I1, I2, E2. split; [reflexivity|].
    unfold str_or. destruct (String.eqb o ""); reflexivity.
Qed.

(** X23. When no slug contains the separator [|] and no outcome is
    [null], the fills of a key all have the slug and the outcome of its
    position, and the key is that slug, the separator and that outcome:
    positions of different (slug, outcome) pairs are never merged. *)
Theorem X23_key_is_slug_and_outcome (l : list Fill.t) (k : string)
    (p : Position.t) :
  Forall (fun t => bar_free (slug_of t)) l ->
  Forall (fun t => Fill.outcome t <> None) l ->
  position_at k l = Some p ->
  k = (Position.slug p ++ "|" ++ Position.outcome p)%string
  /\ (forall t, In t l -> key_of t = k ->
                slug_of t = Position.slug p
                /\ Fill.outcome t = Some (Position.outcome p)).
Proof.
  intros B NN H. apply AggregateFacts.position_at_Some in H.
  destruct H as [N ->].
  destruct (fills_of k l) as [|t0 ts] eqn:E; [congruence|].
  assert (In0 : In t0 l /\ key_of t0 = k).
  { assert (I : In t0 (fills_of k l)) by (rewrite E; now left).
    unfold fills_of in I. apply filter_In in I.
    destruct I as [I1 I2]. split; [exact I1|now apply String.eqb_eq]. }
  destruct In0 as [In0 K0].
  assert (Str : forall t, In t l -> Fill.outcome t = Some (outcome_str t)).
  { intros t Ht. pose proof (proj1 (Forall_forall _ _) NN t Ht) as Hn.
    cbv beta in Hn. unfold outcome_str.
    destruct (Fill.outcome t); [reflexivity|congruence]. }
  assert (Same : forall t, In t l -> key_of t = k ->
                           slug_of t = slug_of t0
                           /\ Fill.outcome t = Some (outcome_str t0)).
  { intros t Ht Kt. rewrite <- K0 in Kt. unfold key_of in Kt.
    apply key_split in Kt;
      [|now apply (proj1 (Forall_forall _ _) B)
       |now apply (proj1 (Forall_forall _ _) B)].
    destruct Kt as [Ks Ko]. split; [exact Ks|].
    rewrite (Str t Ht). now rewrite Ko. }
  assert (F : Forall (fun t => slug_of t = slug_of t0
                               /\ Fill.outcome t = Some (outcome_str t0))
                     (t0 :: ts)).
  { rewrite <- E. apply Forall_forall. intros t Ht.
    unfold fills_of in Ht. apply filter_In in Ht. destruct Ht as [H1 H2].
    apply Same; [exact H1|now apply String.eqb_eq]. }
  destruct (absorb_all_slug_outcome _ _ (t0 :: ts) Market.empty
              ltac:(discriminate) F) as [S O].
  assert (O' : Market.outcome (absorb_all (t0 :: ts) Market.empty)
               = outcome_str t0).
  { rewrite O. unfold str_or. simpl.
    destruct (String.eqb_spec (outcome_str t0) ""); congruence. }
  change (Position.slug (summarize (absorb_all (t0 :: ts) Market.empty)))
    with (Market.slug (absorb_all (t0 :: ts) Market.empty)).
  change (Position.outcome (summarize (absorb_all (t0 :: ts) Market.empty)))
    with (Market.outcome (absorb_all (t0 :: ts) Market.empty)).
  rewrite S, O'. split.
  - now rewrite <- K0.
  - exact Same.
Qed.

Lemma X23_key_is_slug_and_outcome_witness :
  Forall (fun t => bar_free (slug_of t)) Samples.sold_90
  /\ Forall (fun t => Fill.outcome t <> None) Samples.sold_90
  /\ position_at "will-it-rain|Yes" Samples.sold_90
     = Some Samples.sold_90_position
  /\ "will-it-rain|Yes"%string
     = (Position.slug Samples.sold_90_position ++ "|"
        ++ Position.outcome Samples.sold_90_position)%string.
Proof.
  assert (B : Forall (fun t => bar_free (slug_of t)) Samples.sold_90).
  { repeat constructor; simpl; repeat split; discriminate. }
  assert (NN : Forall (fun t => Fill.outcome t <> None) Samples.sold_90).
  { repeat constructor; discriminate. }
  assert (H : position_at "will-it-rain|Yes" Samples.sold_90
              = Some Samples.sold_90_position) by reflexivity.
  split; [exact B|]. split; [exact NN|]. split; [exact H|].
  exact (proj1 (X23_key_is_slug_and_outcome _ _ _ B NN H)).
Defined.

(** A fill whose outcome is [null] goes under the key that ends in
    [None], and leaves the outcome of the position empty. *)
Example null_outcome_key :
  map (fun kp => (fst kp, Position.outcome (snd kp)))
      (keyed_results [Samples.unlabelled])
  = [("will-it-rain|None"%string, ""%string)].
Proof. reflexivity. Qed.

End KeyFacts.

(* ================================================================== *)
(** ** The statistics of a window *)

Module StatsFacts.
Import Analyze.

(** X24. The statistics of a list of returns report its length as trades
    and the percentage of positive returns as win rate, between 0 and 100,
    whatever the square root; a trader without a position in a window has
    the all-zero statistics, with sharpe 0. *)
Theorem X24_calc_stats_counts (sqrt : Q -> Q) (returns pnls : list Q)
    (all_positions : list Pos.t) (addr : string) (tf : Timeframe) :
  let s := calc_stats sqrt returns pnls in
  Stats.trades s = List.length returns
  /\ 0 <= Stats.winRate s <= 100
  /\ (returns <> [] ->
      Stats.winRate s
      = Py.round (of_nat (count_if (Py.ltb 0) returns)
                  / of_nat (List.length returns) * 100) 1)
  /\ (has_address addr (tf_positions all_positions tf) = false ->
      trader_stats sqrt all_positions addr tf = Stats.zero).
Proof.
  cbv zeta. split; [apply AnalyzeMore.calc_stats_trades|]. split; [|split].
  - destruct returns as [|r rs]; [split; discriminate|].
    cbn [calc_stats Stats.winRate].
    apply AnalyzeMore.round1_percent, AnalyzeMore.percent_of_count.
    + unfold count_if. apply filter_length_le.
    + simpl. lia.
  - destruct returns; [congruence|reflexivity].
  - intros H. unfold trader_stats.
    assert (E : select (filter (fun p => String.eqb (Pos.address p) addr)
                               all_positions) (timeframes tf) = []).
    { unfold has_address, tf_positions, select in *.
      induction all_positions as [|p ps IH]; [reflexivity|].
      simpl in *. destruct (in_window (timeframes tf) p) eqn:W.
      - simpl in H. apply orb_false_iff in H. destruct H as [H1 H2].
        rewrite H1. now apply IH.
      - destruct (String.eqb (Pos.address p) addr); simpl; rewrite ?W;
          now apply IH. }
    rewrite E. reflexivity.
Qed.

End StatsFacts.
